(** * TinyAgent: the LLM Compiler planner, plan parsers and transport

    A shallow embedding of
      - [src/utils/plan_utils.py]      (batch plan parser, joinner parser),
      - [src/llm_compiler/planner.py]  (prompt builder, streaming parser,
                                        planner callback, human prompt),
      - [run_tiny_agent_server.py]     (the streaming transport),
    and the properties of these functions.

    Python [str] values are Rocq strings: a character is a code point below
    256, and the character classes of [re] and of [str.strip] are the ones
    Python uses for [str] patterns, restricted to that range.  Python [int]
    is [Z].  A dict whose order is observed is an association list kept in
    insertion order; a dict that is only looked up is a [gmap]. *)

From Stdlib Require Import ZArith String Ascii List Lia Bool.
From stdpp Require Import base gmap strings list pretty.
From Stdlib Require Import QArith.
Close Scope Q_scope.

#[global] Arguments String.append : simpl nomatch.

(** ** Python strings *)

Module PyStr.

Definition nl_char : ascii := ascii_of_nat 10.
Definition nl : string := String nl_char "".
Definition dquote : string := String (ascii_of_nat 34) "".

Definition code (c : ascii) : N := N_of_ascii c.

Definition between (lo hi : N) (c : ascii) : bool :=
  ((lo <=? code c) && (code c <=? hi))%N.

(** [str.isspace] on one character; also the class [\s] of [re]. *)
Definition is_space (c : ascii) : bool :=
  between 9 13 c || between 28 32 c || between 133 133 c
  || between 160 160 c.

(** The class [\d] of [re]: the decimal digits. *)
Definition is_digit (c : ascii) : bool := between 48 57 c.

(** The class [\w] of [re]: alphanumeric characters and the underscore. *)
Definition is_word (c : ascii) : bool :=
  is_digit c || between 65 90 c || between 95 95 c || between 97 122 c
  || between 170 170 c || between 178 179 c || between 181 181 c
  || between 185 186 c || between 188 190 c || between 192 214 c
  || between 216 246 c || between 248 255 c.

(** What [.] and [[^\n]] match. *)
Definition not_nl (c : ascii) : bool := negb (Ascii.eqb c nl_char).

Definition is_empty (s : string) : bool :=
  match s with EmptyString => true | String _ _ => false end.

(** The longest prefix whose characters satisfy [p], and what follows. *)
Fixpoint span (p : ascii -> bool) (s : string) : string * string :=
  match s with
  | EmptyString => (EmptyString, EmptyString)
  | String c s' =>
      if p c then let (a, b) := span p s' in (String c a, b)
      else (EmptyString, s)
  end.

Fixpoint all_chars (p : ascii -> bool) (s : string) : bool :=
  match s with
  | EmptyString => true
  | String c s' => p c && all_chars p s'
  end.

(** [s.lstrip()], [s.rstrip()] and [s.strip()]. *)
Definition lstrip (s : string) : string := snd (span is_space s).

Fixpoint rstrip (s : string) : string :=
  match s with
  | EmptyString => EmptyString
  | String c s' =>
      let r := rstrip s' in
      if is_space c && is_empty r then EmptyString else String c r
  end.

Definition strip (s : string) : string := rstrip (lstrip s).

(** [s.startswith(p)]. *)
Fixpoint startswith (p s : string) : bool :=
  match p, s with
  | EmptyString, _ => true
  | String _ _, EmptyString => false
  | String a p', String b s' => Ascii.eqb a b && startswith p' s'
  end.

Fixpoint drop (n : nat) (s : string) : string :=
  match n, s with
  | O, _ => s
  | S _, EmptyString => EmptyString
  | S n', String _ s' => drop n' s'
  end.

Fixpoint take (n : nat) (s : string) : string :=
  match n, s with
  | O, _ => EmptyString
  | S _, EmptyString => EmptyString
  | S n', String c s' => String c (take n' s')
  end.

(** [s.find(sub)]: the first index at which [sub] occurs, or -1. *)
Fixpoint find_from (sub s : string) (i : Z) : Z :=
  if startswith sub s then i
  else match s with
       | EmptyString => (-1)%Z
       | String _ s' => find_from sub s' (i + 1)%Z
       end.

Definition find (sub s : string) : Z := find_from sub s 0.

(** [s.rfind(sub)]: the last index at which [sub] occurs, or -1. *)
Fixpoint rfind_from (sub s : string) (i : Z) : Z :=
  match s with
  | EmptyString => if startswith sub s then i else (-1)%Z
  | String _ s' =>
      let r := rfind_from sub s' (i + 1)%Z in
      if (0 <=? r)%Z then r
      else if startswith sub s then i else (-1)%Z
  end.

Definition rfind (sub s : string) : Z := rfind_from sub s 0.

(** [sub in s]. *)
Definition contains (sub s : string) : bool := (0 <=? find sub s)%Z.

(** [s[i:j]]: a negative index counts from the end, and both ends are
    clamped to the string. *)
Definition clamp (len i : Z) : nat :=
  let i' := if (i <? 0)%Z then (i + len)%Z else i in
  Z.to_nat (Z.min len (Z.max 0 i')).

Definition slice (s : string) (i j : Z) : string :=
  let len := Z.of_nat (String.length s) in
  let a := clamp len i in
  let b := clamp len j in
  take (b - a) (drop a s).

(** [s[i:]]. *)
Definition slice_from (s : string) (i : Z) : string :=
  drop (clamp (Z.of_nat (String.length s)) i) s.

(** [s.split(newline, 1)] when [s] holds a newline: the text before the
    first newline and the text after it; [None] when there is none. *)
Fixpoint split1_nl (s : string) : option (string * string) :=
  match s with
  | EmptyString => None
  | String c s' =>
      if Ascii.eqb c nl_char then Some (EmptyString, s')
      else match split1_nl s' with
           | Some (a, b) => Some (String c a, b)
           | None => None
           end
  end.

(** [s.split(newline)]: the pieces between newlines, at least one. *)
Fixpoint split_nl (s : string) : list string :=
  match s with
  | EmptyString => [EmptyString]
  | String c s' =>
      if Ascii.eqb c nl_char then EmptyString :: split_nl s'
      else match split_nl s' with
           | p :: ps => String c p :: ps
           | [] => [String c EmptyString]
           end
  end.

(** [s.split(sep)[1]] for a string that starts with [sep]: the text
    between the leading [sep] and its next occurrence. *)
Fixpoint upto (sep s : string) : string :=
  if startswith sep s then EmptyString
  else match s with
       | EmptyString => EmptyString
       | String c s' => String c (upto sep s')
       end.

(** [int(s)] for a string of decimal digits. *)
Definition digit_value (c : ascii) : Z := (Z.of_N (code c) - 48)%Z.

Fixpoint int_from (acc : Z) (s : string) : Z :=
  match s with
  | EmptyString => acc
  | String c s' => int_from (10 * acc + digit_value c)%Z s'
  end.

Definition int (s : string) : Z := int_from 0 s.

(** [str(n)] for an integer. *)
Definition str_of_int (n : Z) : string := pretty n.

End PyStr.

Import PyStr.

(** ** The two regular expressions of [plan_utils.py]

    THOUGHT_PATTERN is the text [Thought: ] followed by the group
    [[^\n]*]; ACTION_PATTERN is, in order: white space [\s*\n*], the idx
    group [\d+], a dot and a space, the tool group [\w+], an opening
    parenthesis, the args group [.*], a closing parenthesis and the optional
    comment group [\s*#\w+\n].

    Each matcher follows Python's backtracking search.  Every greedy
    repetition of these patterns is followed by a character outside its own
    class (a digit after the leading white space, a dot after the digits, an
    opening parenthesis after the tool name, a newline after the thought,
    a hash after the white space of the comment), so giving back
    characters never helps and the longest run is the only candidate.  The
    one real choice is the args group: it runs to the end of the line and
    backs up to the last closing parenthesis on it; the optional comment
    group then takes what it can, and the match succeeds in either case. *)

Module Re.

(** The groups of [ACTION_PATTERN]: idx, tool name, args, comment. *)
Record action_groups := {
  g_idx : string;
  g_tool : string;
  g_args : string;
  g_comment : string
}.

(** [re.match(THOUGHT_PATTERN, s)]: group 1 when [s] starts with a
    thought. *)
Definition match_THOUGHT_PATTERN (s : string) : option string :=
  if startswith "Thought: " s then Some (fst (span not_nl (drop 9 s)))
  else None.

(** The text before the last occurrence of [c] and the text after it. *)
Fixpoint rsplit_char (c : ascii) (s : string) : option (string * string) :=
  match s with
  | EmptyString => None
  | String x s' =>
      match rsplit_char c s' with
      | Some (a, b) => Some (String x a, b)
      | None => if Ascii.eqb x c then Some (EmptyString, s') else None
      end
  end.

(** The optional comment group (white space, a hash, a word, a newline)
    at the start of [s]: the text it matches and what follows. *)
Definition match_comment (s : string) : option (string * string) :=
  let (ws, r1) := span is_space s in
  match r1 with
  | String "#" r2 =>
      let (w, r3) := span is_word r2 in
      if is_empty w then None
      else match r3 with
           | String c r4 =>
               if Ascii.eqb c nl_char
               then Some (ws +:+ "#" +:+ w +:+ nl, r4)
               else None
           | EmptyString => None
           end
  | _ => None
  end.

(** [re.match(ACTION_PATTERN, s)]: the four groups and the text after the
    match. *)
Definition match_ACTION_PATTERN (s : string)
  : option (action_groups * string) :=
  let s1 := snd (span is_space s) in
  let (ds, s2) := span is_digit s1 in
  if is_empty ds then None
  else match s2 with
  | String "." (String " " s3) =>
      let (w, s4) := span is_word s3 in
      if is_empty w then None
      else match s4 with
      | String "(" s5 =>
          let (line, s6) := span not_nl s5 in
          match rsplit_char ")" line with
          | Some (a, after) =>
              let rest := after +:+ s6 in
              match match_comment rest with
              | Some (cm, rest') =>
                  Some ({| g_idx := ds; g_tool := w; g_args := a;
                           g_comment := cm |}, rest')
              | None =>
                  Some ({| g_idx := ds; g_tool := w; g_args := a;
                           g_comment := "" |}, rest)
              end
          | None => None
          end
      | _ => None
      end
  | _ => None
  end.

(** The non-capturing optional group of the batch pattern, a thought
    and its newline, at the start of [s]: group 1 and what follows the
    newline. *)
Definition match_thought_line (s : string) : option (string * string) :=
  if startswith "Thought: " s then
    let (t, r) := span not_nl (drop 9 s) in
    match r with
    | String _ r' => Some (t, r')
    | EmptyString => None
    end
  else None.

(** One match of the batch pattern, an optional thought with its
    newline followed by ACTION_PATTERN, at the start of [s]: the thought group (empty when it took no part) with the
    action groups, and the text after the match.  The optional group is
    tried first and left out when the action does not follow it. *)
Definition match_plan_pattern (s : string)
  : option ((string * action_groups) * string) :=
  let without :=
    match match_ACTION_PATTERN s with
    | Some (g, rest) => Some (("", g), rest)
    | None => None
    end in
  match match_thought_line s with
  | Some (t, r) =>
      match match_ACTION_PATTERN r with
      | Some (g, rest) => Some ((t, g), rest)
      | None => without
      end
  | None => without
  end.

(** [re.findall(pattern, s)]: the matches from left to right; after a
    match the search resumes where it ended, otherwise one character
    further.  [skip] counts the characters still covered by the previous
    match. *)
Fixpoint findall_from (skip : nat) (s : string)
  : list (string * action_groups) :=
  match skip with
  | S k =>
      match s with
      | String _ s' => findall_from k s'
      | EmptyString => []
      end
  | O =>
      match match_plan_pattern s with
      | Some (m, rest) =>
          m :: match s with
               | String _ s' =>
                   findall_from (String.length s' - String.length rest) s'
               | EmptyString => []
               end
      | None =>
          match s with
          | String _ s' => findall_from 0 s'
          | EmptyString => []
          end
      end
  end.

Definition findall (s : string) : list (string * action_groups) :=
  findall_from 0 s.

End Re.

(** ** Values, exceptions, tools and tasks *)

(** The values [ast.literal_eval] can return. *)
#[warning="-register-all"]
Inductive pyval :=
| VNone
| VBool (b : bool)
| VInt (n : Z)
| VStr (s : string)
| VList (l : list pyval)
| VTuple (l : list pyval)
| VOther (repr : string).

(** Raised exceptions.  [except Exception] catches [PyException] only;
    [TinyAgentEarlyStop] derives from [BaseException]. *)
Inductive exn :=
| PyException (cls : string) (msg : string)
| TinyAgentEarlyStop (msg : string)
| PyBaseException (cls : string) (msg : string).

(** [str(e)]. *)
Definition str_exn (e : exn) : string :=
  match e with
  | PyException _ msg => msg
  | TinyAgentEarlyStop msg => msg
  | PyBaseException _ msg => msg
  end.

(** [isinstance(e, Exception)]. *)
Definition is_Exception (e : exn) : bool :=
  match e with PyException _ _ => true | _ => false end.

Inductive result (A : Type) :=
| Ok (a : A)
| Raise (e : exn).
Arguments Ok {A} a.
Arguments Raise {A} e.

Module Tool.
Record t := { name : string; description : string }.
End Tool.

Module Task.
(** The fields [plan_utils.py] and [planner.py] set or read.  [tool] is
    the registered tool whose function the task calls, [None] for the
    no-op [lambda x: None]. *)
Record t := {
  idx : Z;
  name : string;
  tool : option Tool.t;
  args : pyval;
  dependencies : list Z;
  thought : option string;
  is_join : bool;
  observation : option string
}.

Definition set_observation (o : string) (x : t) : t :=
  {| idx := idx x; name := name x; tool := tool x; args := args x;
     dependencies := dependencies x; thought := thought x;
     is_join := is_join x; observation := Some o |}.
End Task.

(** What the sources take from outside [src/]: Python's [ast.literal_eval]
    ([None] when it raises), and from the absent module
    [src/llm_compiler/output_parser.py] the rule that computes a task's
    dependencies and the text of the error for an unknown tool. *)
Class External := {
  literal_eval : string -> option pyval;
  dependency_rule : Z -> string -> string -> list Z;
  unknown_tool_message : string -> string
}.

(** ** [src/utils/plan_utils.py] *)

(** Modelled from the spec: the constants of the absent module
    [src/llm_compiler/constants.py].  The spec writes the joinner actions
    as Finish and Replan and the plan terminator as <END_OF_PLAN>. *)
Definition JOINNER_FINISH : string := "Finish".
Definition JOINNER_REPLAN : string := "Replan".
Definition END_OF_PLAN : string := "<END_OF_PLAN>".

Definition is_list (v : pyval) : bool :=
  match v with VList _ => true | _ => false end.

Definition is_tuple (v : pyval) : bool :=
  match v with VTuple _ => true | _ => false end.

Definition _parse_llm_compiler_action_args `{External} (args : string)
  : pyval :=
  if is_empty args then VTuple []
  else
    let args' :=
      match literal_eval args with
      | Some v => v
      | None => VStr args
      end in
    if negb (is_list args') && negb (is_tuple args') then VTuple [args']
    else args'.

(** [d[k] = v] on a dict in insertion order: a key already present keeps
    its place and takes the new value, a new key goes to the end. *)
Fixpoint dict_set {V : Type} (k : Z) (v : V) (d : list (Z * V))
  : list (Z * V) :=
  match d with
  | [] => [(k, v)]
  | (k', v') :: d' =>
      if (k' =? k)%Z then (k, v) :: d' else (k', v') :: dict_set k v d'
  end.

(** [d.values()]. *)
Definition values {V : Type} (d : list (Z * V)) : list V := map snd d.

(** The dummy task [parse_plan] builds from one match. *)
Definition dummy_task `{External} (m : string * Re.action_groups) : Task.t :=
  let tool_name := Re.g_tool (snd m) in
  {| Task.idx := int (Re.g_idx (snd m));
     Task.name := tool_name;
     Task.tool := None;
     Task.args := _parse_llm_compiler_action_args (Re.g_args (snd m));
     Task.dependencies := [];
     Task.thought := None;
     Task.is_join := String.eqb tool_name "join";
     Task.observation := None |}.

(** The loop of [parse_plan] over the matches, with its [break]. *)
Fixpoint parse_plan_loop `{External} (matches : list (string * Re.action_groups))
  (graph_dict : list (Z * Task.t)) : list (Z * Task.t) :=
  match matches with
  | [] => graph_dict
  | m :: rest =>
      let task := dummy_task m in
      let graph_dict := dict_set (Task.idx task) task graph_dict in
      if Task.is_join task then graph_dict
      else parse_plan_loop rest graph_dict
  end.

Definition parse_plan `{External} (plan : string) : list (Z * Task.t) :=
  parse_plan_loop (Re.findall plan) [].

Module JoinStep.
Record t := { thought : string; action : string; message : string }.
End JoinStep.

(** The loop of [get_parsed_joinner_output] over the lines. *)
Fixpoint joinner_loop (raw_answers : list string)
  (thought answer : string) (is_replan : bool) : string * string * bool :=
  match raw_answers with
  | [] => (thought, answer, is_replan)
  | ans :: rest =>
      let start_of_answer := find "Action:" ans in
      let ans :=
        if (0 <=? start_of_answer)%Z then slice_from ans start_of_answer
        else ans in
      if startswith "Action:" ans then
        joinner_loop rest thought
          (slice ans (find "(" ans + 1) (rfind ")" ans))
          (contains JOINNER_REPLAN ans)
      else if startswith "Thought:" ans then
        joinner_loop rest (strip (upto "Thought:" (drop 8 ans)))
          answer is_replan
      else joinner_loop rest thought answer is_replan
  end.

Definition get_parsed_joinner_output (raw_answer : string) : JoinStep.t :=
  let '(thought, answer, is_replan) :=
    joinner_loop (split_nl raw_answer) "" "" false in
  {| JoinStep.thought := thought;
     JoinStep.action := if is_replan then JOINNER_REPLAN else JOINNER_FINISH;
     JoinStep.message := answer |}.

(** ** [src/llm_compiler/planner.py] *)

Definition JOIN_DESCRIPTION : string :=
  "join():" +:+ nl +:+
  " - Collects and combines results from prior actions." +:+ nl +:+
  " - A LLM agent is called upon invoking join to either finalize the user query or wait until the plans are executed." +:+ nl +:+
  " - join should always be the last action in the plan, and will be called in two scenarios:" +:+ nl +:+
  "   (a) if the answer can be determined by gathering the outputs from tasks to generate the final response." +:+ nl +:+
  "   (b) if the answer cannot be determined in the planning phase before you execute the plans. ".

Definition GUIDELINES : string :=
  "Guidelines:" +:+ nl +:+
  " - Each action described above contains input/output types and description." +:+ nl +:+
  "    - You must strictly adhere to the input and output types for each action." +:+ nl +:+
  "    - The action descriptions contain the guidelines. You MUST strictly follow those guidelines when you use the actions." +:+ nl +:+
  " - Each action in the plan should strictly be one of the above types. Follow the Python conventions for each action." +:+ nl +:+
  " - Each action MUST have a unique ID, which is strictly increasing." +:+ nl +:+
  " - Inputs for actions can either be constants or outputs from preceding actions. " +:+
  "In the latter case, use the format $id to denote the ID of the previous action whose output will be the input." +:+ nl +:+
  " - Always call join as the last action in the plan. Say '" +:+ END_OF_PLAN +:+ "' after you call join" +:+ nl +:+
  " - Ensure the plan maximizes parallelizability." +:+ nl +:+
  " - Only use the provided action types. If a query cannot be addressed using these, invoke the join action for the next steps." +:+ nl +:+
  " - Never explain the plan with comments (e.g. #)." +:+ nl +:+
  " - Never introduce new actions other than the ones provided." +:+ nl +:+ nl.

Definition REPLAN_GUIDELINES : string :=
  " - You are given " +:+ dquote +:+ "Previous Plan" +:+ dquote +:+
  " which is the plan that the previous agent created along with the execution results " +:+
  "(given as Observation) of each plan and a general thought (given as Thought) about the executed results." +:+
  "You MUST use these information to create the next plan under " +:+
  dquote +:+ "Current Plan" +:+ dquote +:+ "." +:+ nl +:+
  " - When starting the Current Plan, you should start with " +:+
  dquote +:+ "Thought" +:+ dquote +:+
  " that outlines the strategy for the next plan." +:+ nl +:+
  " - In the Current Plan, you should NEVER repeat the actions that are already executed in the Previous Plan." +:+ nl.

(** The loop [for i, tool in enumerate(tools)], started at counter [k]:
    the prefix it builds and the last value bound to [i], if any. *)
Fixpoint tools_loop (tools : list Tool.t) (k : Z) (prefix : string)
  (i : option Z) : string * option Z :=
  match tools with
  | [] => (prefix, i)
  | tool :: rest =>
      tools_loop rest (k + 1)
        (prefix +:+ str_of_int (k + 1) +:+ ". " +:+ Tool.description tool
                +:+ nl)
        (Some k)
  end.

(** [if s:] on an optional string: neither [None] nor empty. *)
Definition truthy (s : option string) : bool :=
  match s with
  | Some s' => negb (is_empty s')
  | None => false
  end.

(** The class is the one Python raises on reading a local variable that was
    never bound; its text depends on the Python version, so [msg] only
    names the variable. *)
Definition UnboundLocalError (var : string) : exn :=
  PyException "UnboundLocalError" var.

Definition generate_llm_compiler_prompt (tools : list Tool.t)
  (example_prompt : string) (custom_instructions : option string)
  (is_replan : bool) : result string :=
  let prefix :=
    "Given a user query, create a plan to solve it with the utmost parallelizability. "
    +:+ "Each plan should comprise an action from the following "
    +:+ str_of_int (Z.of_nat (length tools) + 1) +:+ " types:" +:+ nl in
  let '(prefix, i) := tools_loop tools 0 prefix None in
  match i with
  | None => Raise (UnboundLocalError "i")
  | Some i =>
      let prefix :=
        prefix +:+ str_of_int (i + 2) +:+ ". " +:+ JOIN_DESCRIPTION
               +:+ nl +:+ nl in
      let prefix := prefix +:+ GUIDELINES in
      let prefix :=
        if truthy custom_instructions
        then prefix +:+ default "" custom_instructions +:+ nl +:+ nl
        else prefix in
      let prefix :=
        if is_replan then prefix +:+ REPLAN_GUIDELINES else prefix in
      let prefix := prefix +:+ "Here are some examples:" +:+ nl +:+ nl in
      Ok (prefix +:+ example_prompt)
  end.

(** Modelled from the spec: [instantiate_task] of the absent module
    [src/llm_compiler/output_parser.py].  A matched action becomes a fully
    constructed task; [is_join] is [tool_name == "join"]; join is reserved
    and never registered, so it needs no tool; any other tool name that is
    not in the registry is a tool-hallucination error, which is raised. *)
Definition instantiate_task `{External} (tools : list Tool.t) (idx : Z)
  (tool_name args thought : string) : result Task.t :=
  let task tool :=
    {| Task.idx := idx;
       Task.name := tool_name;
       Task.tool := tool;
       Task.args := _parse_llm_compiler_action_args args;
       Task.dependencies := dependency_rule idx tool_name args;
       Task.thought := Some thought;
       Task.is_join := String.eqb tool_name "join";
       Task.observation := None |} in
  if String.eqb tool_name "join" then Ok (task None)
  else
    match List.find (fun t => String.eqb (Tool.name t) tool_name) tools with
    | Some t => Ok (task (Some t))
    | None =>
        Raise (PyException "tool-hallucination"
                 (unknown_tool_message tool_name))
    end.

Module StreamingGraphParser.

Record t := { buffer : string; thought : string; tools : list Tool.t }.

Definition __init__ (tools : list Tool.t) : t :=
  {| buffer := ""; thought := ""; tools := tools |}.

Definition set_buffer (b : string) (self : t) : t :=
  {| buffer := b; thought := thought self; tools := tools self |}.

Definition set_thought (th : string) (self : t) : t :=
  {| buffer := buffer self; thought := th; tools := tools self |}.

(** The parser after the call, and the task, nothing, or the exception. *)
Definition _match_buffer_and_generate_task `{External} (self : t)
  (suffix : string) : t * result (option Task.t) :=
  match Re.match_THOUGHT_PATTERN (buffer self) with
  | Some th => (set_thought th self, Ok None)
  | None =>
      match Re.match_ACTION_PATTERN (buffer self) with
      | Some (g, _) =>
          match instantiate_task (tools self) (int (Re.g_idx g))
                  (Re.g_tool g) (Re.g_args g) (thought self) with
          | Ok task => (set_thought "" self, Ok (Some task))
          | Raise e => (self, Raise e)
          end
      | None => (self, Ok None)
      end
  end.

Definition ingest_token `{External} (self : t) (token : string)
  : t * result (option Task.t) :=
  match split1_nl token with
  | Some (prefix, suffix) =>
      let prefix := strip prefix in
      let self := set_buffer (buffer self +:+ prefix +:+ nl) self in
      match _match_buffer_and_generate_task self suffix with
      | (self, Ok matched_item) => (set_buffer suffix self, Ok matched_item)
      | (self, Raise e) => (self, Raise e)
      end
  | None => (set_buffer (buffer self +:+ token) self, Ok None)
  end.

Definition finalize `{External} (self : t) : t * result (option Task.t) :=
  _match_buffer_and_generate_task (set_buffer (buffer self +:+ nl) self) "".

End StreamingGraphParser.

(** The process-wide [streaming_queue] of [src/tiny_agent/models.py]: the
    strings put on it and not yet taken, oldest first; [None] is the end
    marker. *)
Definition streaming := list (option string).

Definition LLM_ERROR_TOKEN : string := "###LLM_ERROR_TOKEN###".

Module LLMCompilerCallback.

(** [_queue] holds what was put on the task queue, oldest first; [None] is
    the end-of-plan sentinel. *)
Record t := {
  _queue : list (option Task.t);
  _parser : StreamingGraphParser.t;
  _tools : list Tool.t;
  _curr_idx : Z
}.

Definition __init__ (queue : list (option Task.t)) (tools : list Tool.t) : t :=
  {| _queue := queue;
     _parser := StreamingGraphParser.__init__ tools;
     _tools := tools;
     _curr_idx := 0 |}.

Definition put (x : option Task.t) (self : t) : t :=
  {| _queue := _queue self ++ [x]; _parser := _parser self;
     _tools := _tools self; _curr_idx := _curr_idx self |}.

Definition set_parser (p : StreamingGraphParser.t) (self : t) : t :=
  {| _queue := _queue self; _parser := p;
     _tools := _tools self; _curr_idx := _curr_idx self |}.

Definition set_curr_idx (i : Z) (self : t) : t :=
  {| _queue := _queue self; _parser := _parser self;
     _tools := _tools self; _curr_idx := i |}.

(** The observation the handler writes on the synthetic join. *)
Definition stop_observation (buffer : string) (e : exn) : string :=
  "The plan generation was stopped due to an error in tool '"
  +:+ strip buffer +:+ "'! Error: " +:+ str_exn e
  +:+ "! You MUST correct this error and try again!".

(** The [except Exception as e] handler of [on_llm_new_token]. *)
Definition on_parse_error `{External} (self : t) (sq : streaming) (e : exn)
  : t * streaming * option exn :=
  match instantiate_task (_tools self) (_curr_idx self + 1) "join" "" "" with
  | Ok join_tool =>
      let join_tool :=
        Task.set_observation
          (stop_observation (StreamingGraphParser.buffer (_parser self)) e)
          join_tool in
      let self := put (Some join_tool) self in
      let self := put None self in
      (self, sq, Some (TinyAgentEarlyStop (str_exn e)))
  | Raise e' => (self, sq, Some e')
  end.

(** The callback and the streaming queue after the call, and the exception
    the call raises, if any.  A task object is truthy. *)
Definition on_llm_new_token `{External} (self : t) (sq : streaming)
  (token : string) : t * streaming * option exn :=
  match StreamingGraphParser.ingest_token (_parser self) token with
  | (parser, Ok parsed_data) =>
      let self := set_parser parser self in
      let sq := sq ++ [Some token] in
      match parsed_data with
      | Some task =>
          let self := set_curr_idx (Task.idx task) self in
          let self := put (Some task) self in
          let self := if Task.is_join task then put None self else self in
          (self, sq, None)
      | None => (self, sq, None)
      end
  | (parser, Raise e) =>
      let self := set_parser parser self in
      if is_Exception e then on_parse_error self sq e
      else (self, sq, Some e)
  end.

Definition on_llm_end `{External} (self : t) (sq : streaming)
  : t * streaming * option exn :=
  match StreamingGraphParser.finalize (_parser self) with
  | (parser, Ok parsed_data) =>
      let self := set_parser parser self in
      let self :=
        match parsed_data with
        | Some task => put (Some task) self
        | None => self
        end in
      (put None self, sq, None)
  | (parser, Raise e) => (set_parser parser self, sq, Some e)
  end.

Definition on_llm_error (self : t) (sq : streaming) (error : exn)
  : streaming :=
  match error with
  | TinyAgentEarlyStop _ => sq
  | _ => sq ++ [Some (LLM_ERROR_TOKEN +:+ "LLMError: " +:+ str_exn error)]
  end.

Definition on_chain_error (self : t) (sq : streaming) (error : exn)
  : streaming :=
  sq ++ [Some (LLM_ERROR_TOKEN +:+ "ChainError: " +:+ str_exn error)].

(** The callback fed a stream of tokens, as the model's streaming call
    does: it stops at the first token whose callback raises. *)
Fixpoint feed `{External} (self : t) (sq : streaming) (tokens : list string)
  : t * streaming * option exn :=
  match tokens with
  | [] => (self, sq, None)
  | token :: rest =>
      match on_llm_new_token self sq token with
      | (self, sq, None) => feed self sq rest
      | stopped => stopped
      end
  end.

End LLMCompilerCallback.

Module Planner.

Record t := {
  system_prompt : string;
  system_prompt_replan : string;
  tools : list Tool.t;
  stop : option (list string)
}.

Definition __init__ (custom_instructions : option string)
  (example_prompt example_prompt_replan : string) (tools : list Tool.t)
  (stop : option (list string)) : result t :=
  match generate_llm_compiler_prompt tools example_prompt
          custom_instructions false with
  | Raise e => Raise e
  | Ok sp =>
      match generate_llm_compiler_prompt tools example_prompt_replan
              custom_instructions true with
      | Raise e => Raise e
      | Ok spr =>
          Ok {| system_prompt := sp; system_prompt_replan := spr;
                tools := tools; stop := stop |}
      end
  end.

(** [inputs[key]]. *)
Definition getitem (inputs : gmap string string) (key : string)
  : result string :=
  match inputs !! key with
  | Some v => Ok v
  | None => Raise (PyException "KeyError" ("'" +:+ key +:+ "'"))
  end.

(** The first statement of [run_llm]: the system prompt and the human
    prompt it chooses. *)
Definition prompts (self : t) (inputs : gmap string string)
  (is_replan : bool) : result (string * string) :=
  if is_replan then
    match inputs !! "context" with
    | None =>
        Raise (PyException "AssertionError"
                 "If replanning, context must be provided")
    | Some context =>
        match getitem inputs "input" with
        | Raise e => Raise e
        | Ok input =>
            Ok (system_prompt_replan self,
                "Question: " +:+ input +:+ nl +:+ context +:+ nl)
        end
    end
  else
    match getitem inputs "input" with
    | Raise e => Raise e
    | Ok input => Ok (system_prompt self, "Question: " +:+ input)
    end.

(** What [self.llm] is an instance of. *)
Inductive llm_kind := BaseChatModel | BaseLLM | NeitherModel.

(** What the model is called with: a system and a human message, or one
    text. *)
Inductive llm_input :=
| Messages (system human : string)
| Text (message : string).

(** The call of the model.  It is handed the callbacks and the stop
    words, and while it runs it calls the methods of the callbacks, which
    put on the streaming queue and change the callbacks' own state (the
    task queue of [LLMCompilerCallback]); so the call is a function from
    its input, the callbacks and the streaming queue before it to its
    response, or the exception it raises, and the callbacks and the
    streaming queue after it. *)
Definition llm_call (C : Type) : Type :=
  llm_input -> C -> option (list string) -> streaming
  -> result string * C * streaming.

(** [run_llm].  When the chat call raises an [Exception] the handler puts
    the error token on the streaming queue, after whatever the call has
    put there, and the statement after it then reads [llm_response], which
    was never bound. *)
Definition run_llm {C : Type} (self : t) (kind : llm_kind)
  (llm : llm_call C) (inputs : gmap string string) (is_replan : bool)
  (callbacks : C) (sq : streaming) : result string * C * streaming :=
  match prompts self inputs is_replan with
  | Raise e => (Raise e, callbacks, sq)
  | Ok (system_prompt, human_prompt) =>
      match kind with
      | BaseChatModel =>
          match llm (Messages system_prompt human_prompt) callbacks
                  (stop self) sq with
          | (Ok response, callbacks, sq) => (Ok response, callbacks, sq)
          | (Raise e, callbacks, sq) =>
              if is_Exception e then
                (Raise (UnboundLocalError "llm_response"), callbacks,
                 sq ++ [Some (LLM_ERROR_TOKEN +:+ "LLMError: " +:+ str_exn e)])
              else (Raise e, callbacks, sq)
          end
      | BaseLLM =>
          llm (Text (system_prompt +:+ nl +:+ nl +:+ human_prompt)) callbacks
            (stop self) sq
      | NeitherModel =>
          (Raise (PyException "ValueError"
                    "LLM must be either BaseChatModel or BaseLLM"),
           callbacks, sq)
      end
  end.

(** [aplan]: it makes a new [LLMCompilerCallback] on the task queue, puts
    it before the callbacks it is given ([None] and the empty list add
    none) and runs the model with them.  The exception it lets through,
    if any, and the callbacks and the streaming queue after it. *)
Definition aplan {C : Type} (self : t) (kind : llm_kind)
  (llm : llm_call (LLMCompilerCallback.t * list C))
  (inputs : gmap string string) (task_queue : list (option Task.t))
  (is_replan : bool) (callbacks : option (list C)) (sq : streaming)
  : option exn * (LLMCompilerCallback.t * list C) * streaming :=
  let all_callbacks :=
    (LLMCompilerCallback.__init__ task_queue (tools self),
     default [] callbacks) in
  match run_llm self kind llm inputs is_replan all_callbacks sq with
  | (Ok _, callbacks, sq') => (None, callbacks, sq')
  | (Raise (TinyAgentEarlyStop _), callbacks, sq') => (None, callbacks, sq')
  | (Raise e, callbacks, sq') => (Some e, callbacks, sq')
  end.

End Planner.

(** ** [run_tiny_agent_server.py]: the generator of [execute_command] *)

Module Server.

(** What [wait_for(streaming_queue.get(), timeout=1.0)] gives on one turn
    of the loop: an item of the queue, or the timeout. *)
Inductive poll :=
| Got (token : option string)
| TimedOut.

(** One turn: the poll, and what [response_task.done()] answers after it. *)
Record turn := { polled : poll; done : bool }.

Inductive loop_end :=
| Broke
| Raised (e : exn)
| Waiting.

(** The [while True] loop over the turns the run takes: the tokens it
    yields and how it ends ([Waiting] when the turns given run out). *)
Fixpoint loop (turns : list turn) : list string * loop_end :=
  match turns with
  | [] => ([], Waiting)
  | t :: rest =>
      match polled t with
      | Got None => ([], Broke)
      | Got (Some token) =>
          if startswith LLM_ERROR_TOKEN token then
            ([], Raised (PyException "Exception"
                           (slice_from token
                              (Z.of_nat (String.length LLM_ERROR_TOKEN)))))
          else if done t then ([token], Broke)
          else let (ys, e) := loop rest in (token :: ys, e)
      | TimedOut => if done t then ([], Broke) else loop rest
      end
  end.

(** How the generator ends for its caller. *)
Inductive gen_end :=
| Returned
| Propagated (e : exn)
| Pending.

(** The [except Exception as e] clause around the whole body. *)
Definition handler (ys : list string) (e : exn) : list string * gen_end :=
  if is_Exception e then (ys ++ ["Error: " +:+ str_exn e], Returned)
  else (ys, Propagated e).

(** [generate()]: the chunks it yields to the caller and how it ends, for
    the turns its loop takes and the outcome of [tiny_agent.arun(query)]. *)
Definition generate (turns : list turn) (response : result string)
  : list string * gen_end :=
  let (ys, e) := loop turns in
  match e with
  | Waiting => (ys, Pending)
  | Broke =>
      match response with
      | Ok r => (ys ++ [nl +:+ nl +:+ r], Returned)
      | Raise ex => handler ys ex
      end
  | Raised ex => handler ys ex
  end.

End Server.

(** ** Running the streaming parser, and the plans a planner writes *)

(** Feeding the tokens one by one, then [finalize]: the tasks returned, in
    order, or the first exception. *)
Fixpoint ingest_all `{External} (p : StreamingGraphParser.t)
  (tokens : list string) : StreamingGraphParser.t * result (list Task.t) :=
  match tokens with
  | [] => (p, Ok [])
  | token :: rest =>
      match StreamingGraphParser.ingest_token p token with
      | (p', Ok r) =>
          match ingest_all p' rest with
          | (p'', Ok ts) => (p'', Ok (option_list r ++ ts))
          | (p'', Raise e) => (p'', Raise e)
          end
      | (p', Raise e) => (p', Raise e)
      end
  end.

Definition streaming_parse `{External} (tools : list Tool.t)
  (tokens : list string) : result (list Task.t) :=
  match ingest_all (StreamingGraphParser.__init__ tools) tokens with
  | (p, Ok ts) =>
      match StreamingGraphParser.finalize p with
      | (_, Ok r) => Ok (ts ++ option_list r)
      | (_, Raise e) => Raise e
      end
  | (_, Raise e) => Raise e
  end.

(** [parse_plan] as a sequence: the values of the dict it returns. *)
Definition batch_parse `{External} (plan : string) : list Task.t :=
  values (parse_plan plan).

(** The fields two parsers can agree on. *)
Definition core (x : Task.t) : Z * string * pyval * bool :=
  (Task.idx x, Task.name x, Task.args x, Task.is_join x).

(** One step of a plan as the planner prompt asks for it: an optional
    thought line, then the action line [idx. tool(args)]. *)
Record step := {
  s_thought : option string;
  s_idx : string;
  s_tool : string;
  s_args : string
}.

Definition action_line (s : step) : string :=
  s_idx s +:+ ". " +:+ s_tool s +:+ "(" +:+ s_args s +:+ ")".

Definition step_lines (s : step) : list string :=
  match s_thought s with
  | Some th => ["Thought: " +:+ th; action_line s]
  | None => [action_line s]
  end.

(** The lines joined by newlines; [closed] adds the final newline. *)
Fixpoint join_lines (lines : list string) : string :=
  match lines with
  | [] => ""
  | [l] => l
  | l :: rest => l +:+ nl +:+ join_lines rest
  end.

Definition plan_text (steps : list step) (closed : bool) : string :=
  join_lines (flat_map step_lines steps) +:+ (if closed then nl else "").

Definition registered (tools : list Tool.t) (tool_name : string) : bool :=
  String.eqb tool_name "join"
  || existsb (fun t => String.eqb (Tool.name t) tool_name) tools.

Definition step_ok (tools : list Tool.t) (s : step) : bool :=
  negb (is_empty (s_idx s)) && all_chars is_digit (s_idx s)
  && negb (is_empty (s_tool s)) && all_chars is_word (s_tool s)
  && all_chars not_nl (s_args s)
  && all_chars not_nl (default "" (s_thought s))
  && registered tools (s_tool s).

(** The idx grow strictly from [lo] on. *)
Fixpoint increasing (lo : Z) (steps : list step) : bool :=
  match steps with
  | [] => true
  | s :: rest => (lo <? int (s_idx s))%Z && increasing (int (s_idx s)) rest
  end.

(** join is the tool of the last step at most. *)
Fixpoint join_last (steps : list step) : bool :=
  match steps with
  | [] => true
  | [s] => true
  | s :: rest => negb (String.eqb (s_tool s) "join") && join_last rest
  end.

Definition plan_ok (tools : list Tool.t) (steps : list step) : bool :=
  forallb (step_ok tools) steps && increasing (-1) steps && join_last steps.

(** A token carries at most one newline, and what stands before it has no
    white space at either end. *)
Definition token_ok (token : string) : bool :=
  match split1_nl token with
  | Some (prefix, suffix) =>
      String.eqb (strip prefix) prefix && all_chars not_nl suffix
  | None => true
  end.

Fixpoint concat_tokens (tokens : list string) : string :=
  match tokens with
  | [] => ""
  | t :: rest => t +:+ concat_tokens rest
  end.

(** The task the streaming parser makes of a step. *)
Definition streamed_task `{External} (tools : list Tool.t) (s : step)
  : Task.t :=
  {| Task.idx := int (s_idx s);
     Task.name := s_tool s;
     Task.tool :=
       if String.eqb (s_tool s) "join" then None
       else List.find (fun t => String.eqb (Tool.name t) (s_tool s)) tools;
     Task.args := _parse_llm_compiler_action_args (s_args s);
     Task.dependencies := dependency_rule (int (s_idx s)) (s_tool s) (s_args s);
     Task.thought := Some (default "" (s_thought s));
     Task.is_join := String.eqb (s_tool s) "join";
     Task.observation := None |}.

(** ** A stand-in for the external parts, for running examples *)

(** It evaluates the few literals the examples use and fails on the rest. *)
Definition sample_literal_eval (s : string) : option pyval :=
  if String.eqb s "1" then Some (VInt 1)
  else if String.eqb s "[1]" then Some (VList [VInt 1])
  else if String.eqb s "1, 2" then Some (VTuple [VInt 1; VInt 2])
  else None.

Definition sample_external : External :=
  {| literal_eval := sample_literal_eval;
     dependency_rule := fun _ _ _ => [];
     unknown_tool_message := fun n => "Tool " +:+ n +:+ " not found." |}.

Definition sample_tools : list Tool.t :=
  [ {| Tool.name := "get_phone_number";
       Tool.description := "get_phone_number(name: str) -> str" |};
    {| Tool.name := "send_sms";
       Tool.description := "send_sms(recipients: list[str], message: str) -> str" |} ].

(** ** Notions the statements use *)

(** The numbered tool entries of the planner prompt, from number [k] on. *)
Fixpoint tool_entries (k : Z) (tools : list Tool.t) : string :=
  match tools with
  | [] => ""
  | tool :: rest =>
      str_of_int k +:+ ". " +:+ Tool.description tool +:+ nl
      +:+ tool_entries (k + 1) rest
  end.

(** What follows the join entry in the planner prompt. *)
Definition prompt_tail (example_prompt : string)
  (custom_instructions : option string) (is_replan : bool) : string :=
  GUIDELINES
  +:+ (if truthy custom_instructions
       then default "" custom_instructions +:+ nl +:+ nl else "")
  +:+ (if is_replan then REPLAN_GUIDELINES else "")
  +:+ "Here are some examples:" +:+ nl +:+ nl +:+ example_prompt.

(** [sub] occurs in [s]. *)
Definition occurs (sub s : string) : Prop :=
  exists before after, s = before +:+ sub +:+ after.

(** The part of a joinner line the parser reads: the line from its first
    Action: marker on. *)
Definition action_part (line : string) : string :=
  slice_from line (find "Action:" line).

(** No character of [s] is [c]. *)
Definition lacks (c : ascii) (s : string) : bool :=
  all_chars (fun x => negb (Ascii.eqb x c)) s.

(** A match whose tool is join. *)
Definition join_match (m : string * Re.action_groups) : bool :=
  String.eqb (Re.g_tool (snd m)) "join".

(** The matches up to and including the first join. *)
Fixpoint upto_join (matches : list (string * Re.action_groups))
  : list (string * Re.action_groups) :=
  match matches with
  | [] => []
  | m :: rest => if join_match m then [m] else m :: upto_join rest
  end.

(** Tasks stored in a dict one after the other, each under its idx. *)
Fixpoint store_all (tasks : list Task.t) (d : list (Z * Task.t))
  : list (Z * Task.t) :=
  match tasks with
  | [] => d
  | task :: rest => store_all rest (dict_set (Task.idx task) task d)
  end.

(** The idx of the tasks grow strictly from [lo] on. *)
Fixpoint increasing_idx (lo : Z) (tasks : list Task.t) : bool :=
  match tasks with
  | [] => true
  | task :: rest =>
      (lo <? Task.idx task)%Z && increasing_idx (Task.idx task) rest
  end.

(** ** Notions the proofs about the two parsers use *)

(** The streaming parser's reaction to one completed line, as a function
    of the stored thought: the new stored thought and the task, if any. *)
Definition line_step `{External} (tools : list Tool.t)
  (thought line : string) : result (string * option Task.t) :=
  match Re.match_THOUGHT_PATTERN (line +:+ nl) with
  | Some th => Ok (th, None)
  | None =>
      match Re.match_ACTION_PATTERN (line +:+ nl) with
      | Some (g, _) =>
          match instantiate_task tools (int (Re.g_idx g)) (Re.g_tool g)
                  (Re.g_args g) thought with
          | Ok task => Ok ("", Some task)
          | Raise e => Raise e
          end
      | None => Ok (thought, None)
      end
  end.

Fixpoint run_lines `{External} (tools : list Tool.t) (thought : string)
  (lines : list string) : result (string * list Task.t) :=
  match lines with
  | [] => Ok (thought, [])
  | line :: rest =>
      match line_step tools thought line with
      | Ok (th, r) =>
          match run_lines tools th rest with
          | Ok (th', ts) => Ok (th', option_list r ++ ts)
          | Raise e => Raise e
          end
      | Raise e => Raise e
      end
  end.

(** The groups the patterns find in a step, and the match [findall]
    returns for it. *)
Definition groups_of (s : step) : Re.action_groups :=
  {| Re.g_idx := s_idx s; Re.g_tool := s_tool s; Re.g_args := s_args s;
     Re.g_comment := "" |}.

Definition match_of (s : step) : string * Re.action_groups :=
  (default "" (s_thought s), groups_of s).

(** The text of one step. *)
Definition step_text (s : step) : string :=
  match s_thought s with
  | Some th => "Thought: " +:+ th +:+ nl +:+ action_line s
  | None => action_line s
  end.

(** The text of the steps, each after a newline, then [tail]. *)
Fixpoint sep_text (steps : list step) (tail : string) : string :=
  match steps with
  | [] => tail
  | s :: rest => nl +:+ step_text s +:+ sep_text rest tail
  end.

(** What may follow an action line: nothing, or a newline and then
    neither white space nor a hash. *)
Definition quiet (r : string) : Prop :=
  r = "" \/ r = nl
  \/ exists c x, r = nl +:+ String c x /\ is_space c = false
                 /\ Ascii.eqb c "#" = false.

(** ** More of the sources: [src/utils/data_utils.py] *)

(** ** [repr] of a string *)

Definition squote_char : ascii := ascii_of_nat 39.
Definition dquote_char : ascii := ascii_of_nat 34.
Definition backslash_char : ascii := ascii_of_nat 92.

Definition hex_digit (n : N) : ascii :=
  if (n <? 10)%N then ascii_of_N (48 + n) else ascii_of_N (87 + n).

(** [str.isprintable] on one character of the alphabet. *)
Definition is_printable (c : ascii) : bool :=
  between 32 126 c || between 161 172 c || between 174 255 c.

Definition has_char (c : ascii) (s : string) : bool :=
  negb (all_chars (fun x => negb (Ascii.eqb x c)) s).

(** The quote [repr] puts around [s]: the double quote when [s] holds a
    single quote and no double quote, the single quote otherwise. *)
Definition repr_quote (s : string) : ascii :=
  if has_char squote_char s && negb (has_char dquote_char s)
  then dquote_char else squote_char.

(** How [repr] writes one character inside the quotes. *)
Definition repr_char (quote c : ascii) : string :=
  if Ascii.eqb c quote || Ascii.eqb c backslash_char then
    String backslash_char (String c "")
  else if Ascii.eqb c (ascii_of_nat 9) then String backslash_char "t"
  else if Ascii.eqb c (ascii_of_nat 10) then String backslash_char "n"
  else if Ascii.eqb c (ascii_of_nat 13) then String backslash_char "r"
  else if is_printable c then String c ""
  else String backslash_char
         (String "x" (String (hex_digit (code c / 16))
                        (String (hex_digit (code c mod 16)) ""))).

Fixpoint repr_body (quote : ascii) (s : string) : string :=
  match s with
  | EmptyString => EmptyString
  | String c s' => repr_char quote c +:+ repr_body quote s'
  end.

(** [repr(s)]. *)
Definition repr (s : string) : string :=
  let quote := repr_quote s in
  String quote (repr_body quote s +:+ String quote "").

Module PlanStepToolName.

Inductive t :=
| GET_PHONE_NUMBER
| GET_EMAIL_ADDRESS
| CREATE_CALENDAR_EVENT
| OPEN_AND_GET_FILE_PATH
| SUMMARIZE_PDF
| COMPOSE_NEW_EMAIL
| REPLY_TO_EMAIL
| FORWARD_EMAIL
| MAPS_OPEN_LOCATION
| MAPS_SHOW_DIRECTIONS
| CREATE_NOTE
| OPEN_NOTE
| APPEND_NOTE_CONTENT
| CREATE_REMINDER
| SEND_SMS
| GET_ZOOM_MEETING_LINK
| JOIN.

(** [member.value]. *)
Definition value (m : t) : string :=
  match m with
  | GET_PHONE_NUMBER => "get_phone_number"
  | GET_EMAIL_ADDRESS => "get_email_address"
  | CREATE_CALENDAR_EVENT => "create_calendar_event"
  | OPEN_AND_GET_FILE_PATH => "open_and_get_file_path"
  | SUMMARIZE_PDF => "summarize_pdf"
  | COMPOSE_NEW_EMAIL => "compose_new_email"
  | REPLY_TO_EMAIL => "reply_to_email"
  | FORWARD_EMAIL => "forward_email"
  | MAPS_OPEN_LOCATION => "maps_open_location"
  | MAPS_SHOW_DIRECTIONS => "maps_show_directions"
  | CREATE_NOTE => "create_note"
  | OPEN_NOTE => "open_note"
  | APPEND_NOTE_CONTENT => "append_note_content"
  | CREATE_REMINDER => "create_reminder"
  | SEND_SMS => "send_sms"
  | GET_ZOOM_MEETING_LINK => "get_zoom_meeting_link"
  | JOIN => "join"
  end.

(** The members in the order the class lists them. *)
Definition members : list t :=
  [GET_PHONE_NUMBER; GET_EMAIL_ADDRESS; CREATE_CALENDAR_EVENT;
   OPEN_AND_GET_FILE_PATH; SUMMARIZE_PDF; COMPOSE_NEW_EMAIL; REPLY_TO_EMAIL;
   FORWARD_EMAIL; MAPS_OPEN_LOCATION; MAPS_SHOW_DIRECTIONS; CREATE_NOTE;
   OPEN_NOTE; APPEND_NOTE_CONTENT; CREATE_REMINDER; SEND_SMS;
   GET_ZOOM_MEETING_LINK; JOIN].

(** [PlanStepToolName(v)]: the member whose value is [v]; when there is
    none a [ValueError] whose text shows [v] as [repr] does. *)
Definition lookup (v : string) : result t :=
  match List.find (fun m => String.eqb (value m) v) members with
  | Some m => Ok m
  | None =>
      Raise (PyException "ValueError"
               (repr v +:+ " is not a valid PlanStepToolName"))
  end.

(** The place of a member in the class. *)
Definition index (m : t) : nat :=
  match m with
  | GET_PHONE_NUMBER => 0
  | GET_EMAIL_ADDRESS => 1
  | CREATE_CALENDAR_EVENT => 2
  | OPEN_AND_GET_FILE_PATH => 3
  | SUMMARIZE_PDF => 4
  | COMPOSE_NEW_EMAIL => 5
  | REPLY_TO_EMAIL => 6
  | FORWARD_EMAIL => 7
  | MAPS_OPEN_LOCATION => 8
  | MAPS_SHOW_DIRECTIONS => 9
  | CREATE_NOTE => 10
  | OPEN_NOTE => 11
  | APPEND_NOTE_CONTENT => 12
  | CREATE_REMINDER => 13
  | SEND_SMS => 14
  | GET_ZOOM_MEETING_LINK => 15
  | JOIN => 16
  end.

#[global] Instance eq_dec : EqDecision t.
Proof. solve_decision. Defined.

#[global] Instance countable : Countable t.
Proof.
  apply (inj_countable' index (fun n => default JOIN (members !! n))).
  now intros [].
Defined.

End PlanStepToolName.

Module PlanStep.

(** [tool_name] is a member of [PlanStepToolName], as the class declares
    it and as [get_parsed_planner_output] builds it. *)
Record t := { tool_name : PlanStepToolName.t; tool_args : pyval }.

End PlanStep.

(** ** More of [src/utils/plan_utils.py] *)

(** The loop of [get_parsed_planner_output] inside its [try]: the first
    task whose name is no tool name raises in [PlanStepToolName], the
    handler prints, and the steps made so far are returned. *)
Fixpoint planner_output_loop (tasks : list Task.t) (steps : list PlanStep.t)
  : list PlanStep.t :=
  match tasks with
  | [] => steps
  | task :: rest =>
      match PlanStepToolName.lookup (Task.name task) with
      | Ok m =>
          planner_output_loop rest
            (steps ++ [ {| PlanStep.tool_name := m;
                           PlanStep.tool_args := Task.args task |} ])
      | Raise _ => steps
      end
  end.

Definition get_parsed_planner_output (tasks : list (Z * Task.t))
  : list PlanStep.t :=
  planner_output_loop (values tasks) [].

Definition get_parsed_planner_output_from_raw `{External}
  (raw_answer : string) : list PlanStep.t :=
  get_parsed_planner_output (parse_plan raw_answer).

(** [a / b] on two lengths or counts: the quotient as an exact rational
    (Python rounds it to the nearest float), [ZeroDivisionError] when [b]
    is 0. *)
Definition true_div (a b : nat) : result Q :=
  match b with
  | O => Raise (PyException "ZeroDivisionError" "division by zero")
  | S _ => Ok (Qmake (Z.of_nat a) (Pos.of_nat b))
  end.

(** The loop of [evaluate_plan] over [zip(label_plan, predicted_plan)]. *)
Fixpoint count_correct (label_plan predicted_plan : list PlanStep.t) : nat :=
  match label_plan, predicted_plan with
  | label_step :: ls, predicted_step :: ps =>
      (if decide (PlanStep.tool_name label_step
                  = PlanStep.tool_name predicted_step)
       then 1 else 0) + count_correct ls ps
  | _, _ => 0
  end.

Definition evaluate_plan (label_plan predicted_plan : list PlanStep.t)
  : result Q :=
  true_div (count_correct label_plan predicted_plan) (length label_plan).

(** [set([step.tool_name for step in plan])]. *)
Definition tool_name_set (plan : list PlanStep.t) : gset PlanStepToolName.t :=
  list_to_set (map PlanStep.tool_name plan).

Definition evaluate_tool_recall (label_plan predicted_plan : list PlanStep.t)
  : result Q :=
  let label_set := tool_name_set label_plan in
  let predicted_set := tool_name_set predicted_plan in
  let correct := size (label_set ∩ predicted_set) in
  true_div correct (size label_set).

Definition evaluate_join (label_join predicted_join : JoinStep.t) : Q :=
  if String.eqb (JoinStep.action label_join) (JoinStep.action predicted_join)
  then Qmake 1 1 else Qmake 0 1.

(** ** More notions the statements use *)

(** What the callback puts on the task queue for the tasks it parses: each
    task, and the sentinel after a join. *)
Fixpoint enqueue (tasks : list Task.t) : list (option Task.t) :=
  match tasks with
  | [] => []
  | task :: rest =>
      Some task :: (if Task.is_join task then [None] else []) ++ enqueue rest
  end.

(** The result of the streaming parser over completed lines. *)
Definition lines_result `{External} (tools : list Tool.t)
  (lines : list string) : result (list Task.t) :=
  match run_lines tools "" lines with
  | Ok (_, ts) => Ok ts
  | Raise e => Raise e
  end.

(** The joinner's answer as the prompt asks for it: a thought line and a
    Finish action with its message. *)
Definition finish_response (thought message : string) : string :=
  "Thought: " +:+ thought +:+ nl +:+ "Action: Finish(" +:+ message +:+ ")".

(** The steps [get_parsed_planner_output] makes of plan steps whose tools
    are members. *)
Definition plan_step_of `{External} (s : step) : option PlanStep.t :=
  match PlanStepToolName.lookup (s_tool s) with
  | Ok m =>
      Some {| PlanStep.tool_name := m;
              PlanStep.tool_args := _parse_llm_compiler_action_args (s_args s) |}
  | Raise _ => None
  end.

(** The tokens the polls of the given turns take from the streaming queue,
    in order; the sentinel and the timeouts leave no token. *)
Definition polled_tokens (turns : list Server.turn) : list string :=
  omap (fun t => match Server.polled t with
                 | Server.Got (Some token) => Some token
                 | _ => None
                 end) turns.

(** [v] is the value of a member of [PlanStepToolName]. *)
Definition is_tool_name (v : string) : bool :=
  existsb (fun m => String.eqb (PlanStepToolName.value m) v)
    PlanStepToolName.members.

(** The tool name, as text, and the args of a plan step, and of a task. *)
Definition step_fields (p : PlanStep.t) : string * pyval :=
  (PlanStepToolName.value (PlanStep.tool_name p), PlanStep.tool_args p).

Definition task_fields (x : Task.t) : string * pyval :=
  (Task.name x, Task.args x).

(** The steps of a plan up to the first whose tool is no member of
    [PlanStepToolName], as plan steps. *)
Fixpoint known_steps `{External} (steps : list step) : list PlanStep.t :=
  match steps with
  | [] => []
  | s :: rest =>
      match plan_step_of s with
      | Some p => p :: known_steps rest
      | None => []
      end
  end.

(** * Properties *)

(** ** The model on sample inputs *)

Example strip_sample : strip "  1. join()  " = "1. join()".
Proof. reflexivity. Qed.

Example split1_sample :
  split1_nl ("a" +:+ nl +:+ "b" +:+ nl) = Some ("a", "b" +:+ nl).
Proof. reflexivity. Qed.

Example split_sample : split_nl ("a" +:+ nl +:+ nl +:+ "b") = ["a"; ""; "b"].
Proof. reflexivity. Qed.

Example int_sample : int "0042" = 42%Z.
Proof. reflexivity. Qed.

Example thought_sample :
  Re.match_THOUGHT_PATTERN ("Thought: find Bob" +:+ nl +:+ "1. join()") =
    Some "find Bob".
Proof. reflexivity. Qed.

(** The args group backs up to the last closing parenthesis of the line,
    and the comment group takes a comment with its newline. *)
Example action_sample :
  Re.match_ACTION_PATTERN
    (" " +:+ nl +:+ "12. send_sms([1], (hi)) ok) #note" +:+ nl +:+ "3. join()")
  = Some ({| Re.g_idx := "12"; Re.g_tool := "send_sms";
             Re.g_args := "[1], (hi)) ok";
             Re.g_comment := " #note" +:+ nl |}, "3. join()").
Proof. reflexivity. Qed.

Example action_needs_space_after_dot :
  Re.match_ACTION_PATTERN "1.join()" = None.
Proof. reflexivity. Qed.

(** [findall] finds an action in the middle of a line, and gives the
    thought only when its line stands right before the action. *)
Example findall_sample :
  map (fun m => (m.1, Re.g_idx m.2, Re.g_tool m.2, Re.g_args m.2))
    (Re.findall ("Thought: a" +:+ nl +:+ "1. f(x)" +:+ nl
                 +:+ "then 2. join()" +:+ nl))
  = [("a", "1", "f", "x"); ("", "2", "join", "")].
Proof. reflexivity. Qed.

Example parse_args_sample :
  map (@_parse_llm_compiler_action_args sample_external) [""; "1"; "[1]"; "$1"]
  = [VTuple []; VTuple [VInt 1]; VList [VInt 1]; VTuple [VStr "$1"]].
Proof. reflexivity. Qed.

Example joinner_sample :
  get_parsed_joinner_output
    ("Thought: sent" +:+ nl +:+ "Action: Finish(Done (2 texts).)") =
  {| JoinStep.thought := "sent"; JoinStep.action := "Finish";
     JoinStep.message := "Done (2 texts)." |}.
Proof. reflexivity. Qed.

(** A token that holds three lines: the call returns the first task and
    leaves the other two lines in the buffer. *)
Example ingest_three_lines :
  (@StreamingGraphParser.ingest_token sample_external
     (StreamingGraphParser.__init__ sample_tools)
     ("1. get_phone_number(1)" +:+ nl +:+ "2. send_sms([1])" +:+ nl
      +:+ "3. join()")).1 =
  {| StreamingGraphParser.buffer := "2. send_sms([1])" +:+ nl +:+ "3. join()";
     StreamingGraphParser.thought := "";
     StreamingGraphParser.tools := sample_tools |}.
Proof. reflexivity. Qed.

(** The callback over a plan whose second action names an unknown tool:
    the first task, the synthetic join numbered 2 and the sentinel are on
    the task queue, and only the tokens before the failing one were
    echoed. *)
Example feed_unknown_tool :
  let '(self, sq, e) :=
    @LLMCompilerCallback.feed sample_external
      (LLMCompilerCallback.__init__ [] sample_tools) []
      ["1. get_phone_number(1)" +:+ nl; "2. call_mom("; ")" +:+ nl;
       "3. join()"] in
  (map (option_map Task.idx) (LLMCompilerCallback._queue self), sq, e) =
  ([Some 1%Z; Some 2%Z; None],
   [Some ("1. get_phone_number(1)" +:+ nl); Some "2. call_mom("],
   Some (TinyAgentEarlyStop "Tool call_mom not found.")).
Proof. reflexivity. Qed.

(** ** Strings *)

Lemma str_app_nil_r (s : string) : s +:+ "" = s.
Proof. induction s as [|c s IH]; simpl; [reflexivity | now rewrite IH]. Qed.

Lemma str_app_assoc (a b c : string) : (a +:+ b) +:+ c = a +:+ b +:+ c.
Proof. induction a as [|x a IH]; simpl; [reflexivity | now rewrite IH]. Qed.

Lemma str_length_app (a b : string) :
  String.length (a +:+ b) = String.length a + String.length b.
Proof. induction a as [|x a IH]; simpl; [reflexivity | now rewrite IH]. Qed.

Lemma startswith_app (p s : string) : startswith p (p +:+ s) = true.
Proof.
  induction p as [|c p IH]; simpl; [reflexivity|].
  now rewrite Ascii.eqb_refl, IH.
Qed.

Lemma startswith_inv (p s : string) :
  startswith p s = true -> exists r, s = p +:+ r.
Proof.
  revert s. induction p as [|c p IH]; intros s Hs.
  - now exists s.
  - destruct s as [|d s]; [discriminate|]. simpl in Hs.
    apply andb_true_iff in Hs as [Hc Hp].
    apply Ascii.eqb_eq in Hc as ->.
    destruct (IH _ Hp) as [r ->]. now exists r.
Qed.

Lemma drop_app (a b : string) : drop (String.length a) (a +:+ b) = b.
Proof. induction a as [|x a IH]; simpl; [now destruct b | exact IH]. Qed.

Lemma slice_from_app (a b : string) :
  slice_from (a +:+ b) (Z.of_nat (String.length a)) = b.
Proof.
  unfold slice_from, clamp. rewrite str_length_app.
  destruct (Z.ltb_spec (Z.of_nat (String.length a)) 0) as [Hlt|_]; [lia|].
  replace (Z.to_nat _) with (String.length a) by lia.
  apply drop_app.
Qed.

(** ** The argument parser *)

(** C4: the argument parser returns a tuple or a list for every raw
    argument string.  The empty string gives the empty tuple; any other
    string is given to the literal evaluator, a list or tuple it returns is
    kept, any other value it returns is wrapped as a one-element tuple, and
    when it fails the raw string itself is wrapped. *)
Theorem parse_args_is_sequence `{External} (args : string) :
  (is_list (_parse_llm_compiler_action_args args)
   || is_tuple (_parse_llm_compiler_action_args args) = true)
  /\ _parse_llm_compiler_action_args args =
     match args with
     | EmptyString => VTuple []
     | String _ _ =>
         match literal_eval args with
         | Some (VList l) => VList l
         | Some (VTuple l) => VTuple l
         | Some v => VTuple [v]
         | None => VTuple [VStr args]
         end
     end.
Proof.
  unfold _parse_llm_compiler_action_args.
  destruct args as [|c args]; simpl; [now split|].
  destruct (literal_eval (String c args)) as [v|]; [|now split].
  destruct v; simpl; now split.
Qed.

(** ** The planner's prompts *)

Lemma tools_loop_spec (tools : list Tool.t) (k : Z) (prefix : string)
  (i : option Z) :
  tools_loop tools k prefix i =
  (prefix +:+ tool_entries (k + 1) tools,
   match tools with
   | [] => i
   | _ :: _ => Some (k + Z.of_nat (length tools) - 1)%Z
   end).
Proof.
  revert k prefix i. induction tools as [|tool rest IH]; intros k prefix i.
  - simpl. now rewrite str_app_nil_r.
  - cbn [tools_loop tool_entries]. rewrite IH.
    rewrite !str_app_assoc. f_equal.
    destruct rest as [|tool' rest]; cbn [length]; f_equal; lia.
Qed.

(** C9: with no tool registered the prompt generator fails, reading the
    loop variable that the empty loop never bound; with tools t1..tn it
    returns a prompt that lists them as entries 1..n and then the join
    entry as n+1. *)
Theorem prompt_needs_a_tool (tools : list Tool.t) (example_prompt : string)
  (custom_instructions : option string) (is_replan : bool) :
  generate_llm_compiler_prompt tools example_prompt custom_instructions
    is_replan =
  match tools with
  | [] => Raise (UnboundLocalError "i")
  | _ :: _ =>
      let n := Z.of_nat (length tools) in
      Ok ("Given a user query, create a plan to solve it with the utmost parallelizability. "
          +:+ "Each plan should comprise an action from the following "
          +:+ str_of_int (n + 1) +:+ " types:" +:+ nl
          +:+ tool_entries 1 tools
          +:+ str_of_int (n + 1) +:+ ". " +:+ JOIN_DESCRIPTION +:+ nl +:+ nl
          +:+ prompt_tail example_prompt custom_instructions is_replan)
  end.
Proof.
  unfold generate_llm_compiler_prompt. rewrite tools_loop_spec.
  destruct tools as [|tool rest]; [reflexivity|].
  cbv zeta. unfold prompt_tail.
  replace (0 + Z.of_nat (length (tool :: rest)) - 1 + 2)%Z
    with (Z.of_nat (length (tool :: rest)) + 1)%Z by lia.
  replace (0 + 1)%Z with 1%Z by reflexivity.
  f_equal.
  destruct (truthy custom_instructions), is_replan;
    rewrite ?str_app_assoc, ?str_app_nil_r; reflexivity.
Qed.

(** C8: for every input query the human prompt is the text Question:
    followed by the input when not replanning; when replanning it is that
    text, a newline, the context and a final newline, and replanning
    without a context fails the planner's assertion. *)
Theorem human_prompt_shape (self : Planner.t) (inputs : gmap string string)
  (input : string) :
  inputs !! "input" = Some input ->
  Planner.prompts self inputs false =
    Ok (Planner.system_prompt self, "Question: " +:+ input)
  /\ (forall context, inputs !! "context" = Some context ->
        Planner.prompts self inputs true =
          Ok (Planner.system_prompt_replan self,
              "Question: " +:+ input +:+ nl +:+ context +:+ nl))
  /\ (inputs !! "context" = None ->
        Planner.prompts self inputs true =
          Raise (PyException "AssertionError"
                   "If replanning, context must be provided")).
Proof.
  intros Hin. unfold Planner.prompts, Planner.getitem. rewrite Hin.
  split; [reflexivity|]. split.
  - intros context Hc. now rewrite Hc.
  - intros Hc. now rewrite Hc.
Qed.

Lemma human_prompt_shape_witness :
  let inputs : gmap string string :=
    <["context" := "Idx: 1"]> {["input" := "text Bob"]} in
  let self :=
    {| Planner.system_prompt := "P"; Planner.system_prompt_replan := "R";
       Planner.tools := sample_tools; Planner.stop := Some [END_OF_PLAN] |} in
  inputs !! "input" = Some "text Bob"
  /\ Planner.prompts self inputs true =
       Ok ("R", "Question: text Bob" +:+ nl +:+ "Idx: 1" +:+ nl).
Proof.
  intros inputs self.
  assert (Hin : inputs !! "input" = Some "text Bob") by reflexivity.
  split; [exact Hin|].
  destruct (human_prompt_shape self inputs "text Bob" Hin) as (_ & Hre & _).
  apply (Hre "Idx: 1"). reflexivity.
Defined.

(** The model is called with the prompts [run_llm] has chosen, the
    callbacks and the stop words. *)
Lemma run_llm_passes_prompts {C : Type} (self : Planner.t)
  (llm : Planner.llm_call C) (inputs : gmap string string)
  (is_replan : bool) (callbacks callbacks' : C) (sq sq' : streaming)
  (sp hp response : string) :
  Planner.prompts self inputs is_replan = Ok (sp, hp) ->
  llm (Planner.Messages sp hp) callbacks (Planner.stop self) sq =
    (Ok response, callbacks', sq') ->
  Planner.run_llm self Planner.BaseChatModel llm inputs is_replan callbacks sq
    = (Ok response, callbacks', sq').
Proof.
  intros Hp Hl. unfold Planner.run_llm. now rewrite Hp, Hl.
Qed.

(** ** The error token, from the planner to the caller *)

Lemma loop_app (pre more : list Server.turn) (ys : list string) :
  Server.loop pre = (ys, Server.Waiting) ->
  Server.loop (pre ++ more) =
    (ys ++ fst (Server.loop more), snd (Server.loop more)).
Proof.
  revert ys. induction pre as [|t pre IH]; intros ys Hpre.
  - simpl in Hpre. injection Hpre as <-. simpl.
    now destruct (Server.loop more).
  - cbn [Server.loop app] in Hpre |- *.
    destruct (Server.polled t) as [[token|]|].
    + destruct (startswith LLM_ERROR_TOKEN token); [discriminate|].
      destruct (Server.done t); [discriminate|].
      destruct (Server.loop pre) as [ys0 e0] eqn:Hl.
      injection Hpre as <- ->.
      now rewrite (IH ys0 eq_refl).
    + discriminate.
    + destruct (Server.done t); [discriminate|]. now apply IH.
Qed.

Lemma loop_error_token (remainder : string) (d : bool)
  (rest : list Server.turn) :
  Server.loop
    ({| Server.polled := Server.Got (Some (LLM_ERROR_TOKEN +:+ remainder));
        Server.done := d |} :: rest) =
  ([], Server.Raised (PyException "Exception" remainder)).
Proof.
  cbn [Server.loop Server.polled].
  rewrite startswith_app, slice_from_app. reflexivity.
Qed.

(** C7 (amended): an LLM error that is not the controlled early stop puts
    on the streaming queue a string that starts with the error token; when
    the transport takes a token with that prefix from the queue it raises
    the remainder inside its generator, does not yield the token, and its
    own handler turns the failure into a last chunk, the text Error:
    followed by the remainder, after which the generator returns. *)
Theorem error_token_becomes_error_chunk (self : LLMCompilerCallback.t)
  (sq : streaming) (error : exn) (pre rest : list Server.turn)
  (ys : list string) (remainder : string) (d : bool)
  (response : result string) :
  (forall msg, error <> TinyAgentEarlyStop msg) ->
  Server.loop pre = (ys, Server.Waiting) ->
  let turn :=
    {| Server.polled := Server.Got (Some (LLM_ERROR_TOKEN +:+ remainder));
       Server.done := d |} in
  (exists token,
      LLMCompilerCallback.on_llm_error self sq error = sq ++ [Some token]
      /\ startswith LLM_ERROR_TOKEN token = true)
  /\ Server.loop (pre ++ turn :: rest) =
       (ys, Server.Raised (PyException "Exception" remainder))
  /\ Server.generate (pre ++ turn :: rest) response =
       (ys ++ ["Error: " +:+ remainder], Server.Returned).
Proof.
  intros Hne Hpre turn.
  assert (Hloop : Server.loop (pre ++ turn :: rest) =
                  (ys, Server.Raised (PyException "Exception" remainder))).
  { rewrite (loop_app _ _ _ Hpre). unfold turn.
    rewrite loop_error_token. simpl. now rewrite List.app_nil_r. }
  split; [|split; [exact Hloop|]].
  - exists (LLM_ERROR_TOKEN +:+ "LLMError: " +:+ str_exn error).
    split; [|apply startswith_app].
    destruct error as [cls msg|msg|cls msg]; try reflexivity.
    now destruct (Hne msg).
  - unfold Server.generate. rewrite Hloop. reflexivity.
Qed.

Lemma error_token_becomes_error_chunk_witness :
  Server.loop [ {| Server.polled := Server.Got (Some "1. join()");
                   Server.done := false |} ] =
    (["1. join()"], Server.Waiting)
  /\ Server.generate
       [ {| Server.polled := Server.Got (Some "1. join()");
            Server.done := false |};
         {| Server.polled :=
              Server.Got (Some (LLM_ERROR_TOKEN +:+ "LLMError: timeout"));
            Server.done := false |} ]
       (Ok "done") =
     (["1. join()"; "Error: LLMError: timeout"], Server.Returned).
Proof.
  split; [reflexivity|].
  apply (error_token_becomes_error_chunk
           (LLMCompilerCallback.__init__ [] sample_tools) []
           (PyException "TimeoutError" "timeout")
           [ {| Server.polled := Server.Got (Some "1. join()");
                Server.done := false |} ] []
           ["1. join()"] "LLMError: timeout" false (Ok "done")).
  - intros msg. discriminate.
  - reflexivity.
Defined.

(** C7, as stated, fails: the transport takes the error token from the
    queue, and its caller gets the remainder as an output chunk from a
    generator that returns; no failure reaches the caller. *)
Lemma error_token_is_not_raised_to_caller :
  Server.generate
    [ {| Server.polled :=
           Server.Got (Some (LLM_ERROR_TOKEN +:+ "LLMError: boom"));
         Server.done := false |} ]
    (Ok "answer") =
  (["Error: LLMError: boom"], Server.Returned).
Proof. reflexivity. Qed.

(** ** The planner callback *)

Lemma instantiate_task_raises `{External} (tools : list Tool.t) (idx : Z)
  (tool_name args thought : string) (e : exn) :
  instantiate_task tools idx tool_name args thought = Raise e ->
  is_Exception e = true.
Proof.
  unfold instantiate_task.
  destruct (String.eqb tool_name "join"); [discriminate|].
  destruct (List.find _ tools); [discriminate|].
  now intros [= <-].
Qed.

Lemma match_buffer_raises `{External} (p p' : StreamingGraphParser.t)
  (suffix : string) (e : exn) :
  StreamingGraphParser._match_buffer_and_generate_task p suffix =
    (p', Raise e) ->
  is_Exception e = true /\ p' = p.
Proof.
  unfold StreamingGraphParser._match_buffer_and_generate_task.
  destruct (Re.match_THOUGHT_PATTERN _); [discriminate|].
  destruct (Re.match_ACTION_PATTERN _) as [[g r]|]; [|discriminate].
  destruct (instantiate_task _ _ _ _ _) as [task|e'] eqn:Hi; [discriminate|].
  intros [= <- <-]. split; [|reflexivity].
  eapply instantiate_task_raises, Hi.
Qed.

Lemma ingest_token_raises `{External} (p p' : StreamingGraphParser.t)
  (token : string) (e : exn) :
  StreamingGraphParser.ingest_token p token = (p', Raise e) ->
  is_Exception e = true.
Proof.
  unfold StreamingGraphParser.ingest_token.
  destruct (split1_nl token) as [[prefix suffix]|]; [|discriminate].
  destruct (StreamingGraphParser._match_buffer_and_generate_task _ _)
    as [q [r|e']] eqn:Hm; [discriminate|].
  intros [= <- <-]. eapply match_buffer_raises, Hm.
Qed.

Lemma stop_observation_try_again (buffer : string) (e : exn) :
  occurs "try again" (LLMCompilerCallback.stop_observation buffer e).
Proof.
  exists ("The plan generation was stopped due to an error in tool '"
          +:+ strip buffer +:+ "'! Error: " +:+ str_exn e
          +:+ "! You MUST correct this error and "), "!".
  unfold LLMCompilerCallback.stop_observation.
  rewrite !str_app_assoc. reflexivity.
Qed.

Lemma feed_ingest_all `{External} (tokens : list string)
  (self : LLMCompilerCallback.t) (sq : streaming)
  (p : StreamingGraphParser.t) (ts : list Task.t) :
  ingest_all (LLMCompilerCallback._parser self) tokens = (p, Ok ts) ->
  exists self',
    LLMCompilerCallback.feed self sq tokens =
      (self', sq ++ map Some tokens, None)
    /\ LLMCompilerCallback._parser self' = p
    /\ LLMCompilerCallback._queue self' =
         LLMCompilerCallback._queue self ++ enqueue ts
    /\ LLMCompilerCallback._tools self' = LLMCompilerCallback._tools self.
Proof.
  revert self sq ts. induction tokens as [|token tokens IH]; intros self sq ts.
  - cbn. intros [= <- <-]. exists self. now rewrite !List.app_nil_r.
  - cbn [ingest_all LLMCompilerCallback.feed].
    unfold LLMCompilerCallback.on_llm_new_token.
    destruct (StreamingGraphParser.ingest_token _ token) as [p1 [r|e]];
      [|discriminate].
    destruct (ingest_all p1 tokens) as [p2 [ts2|e]] eqn:Hrest; [|discriminate].
    intros [= <- <-].
    destruct r as [task|].
    + cbn [option_list app enqueue].
      destruct (Task.is_join task) eqn:Hj;
        match goal with
        | |- context [LLMCompilerCallback.feed ?s ?q tokens] =>
            destruct (IH s q ts2 Hrest) as (self' & Hf & Hp & Hq & Ht)
        end;
        exists self'; rewrite Hf;
        (split; [now rewrite <- List.app_assoc|]);
        (split; [exact Hp|]);
        (split; [|now rewrite Ht]);
        rewrite Hq; cbn; rewrite ?Hj, <- !List.app_assoc; reflexivity.
    + destruct (IH (LLMCompilerCallback.set_parser p1 self)
                  (sq ++ [Some token]) ts2 Hrest)
        as (self' & Hf & Hp & Hq & Ht).
      exists self'. rewrite Hf. split.
      { now rewrite <- List.app_assoc. }
      auto.
Qed.

Lemma feed_app `{External} (xs ys : list string)
  (self self1 : LLMCompilerCallback.t) (sq sq1 : streaming) :
  LLMCompilerCallback.feed self sq xs = (self1, sq1, None) ->
  LLMCompilerCallback.feed self sq (xs ++ ys) =
    LLMCompilerCallback.feed self1 sq1 ys.
Proof.
  revert self sq. induction xs as [|x xs IH]; intros self sq.
  - now intros [= <- <-].
  - cbn [app LLMCompilerCallback.feed].
    destruct (LLMCompilerCallback.on_llm_new_token self sq x)
      as [[self2 sq2] [e|]]; [discriminate|].
    apply IH.
Qed.

(** After a stream taken without raising, the counter of the callback is
    the idx of the last task the parser returned, if it returned one. *)
Lemma feed_curr_idx `{External} (tokens : list string)
  (self self' : LLMCompilerCallback.t) (sq sq' : streaming)
  (p : StreamingGraphParser.t) (ts : list Task.t) :
  ingest_all (LLMCompilerCallback._parser self) tokens = (p, Ok ts) ->
  LLMCompilerCallback.feed self sq tokens = (self', sq', None) ->
  LLMCompilerCallback._curr_idx self' =
    from_option Task.idx (LLMCompilerCallback._curr_idx self) (last ts).
Proof.
  revert self sq ts. induction tokens as [|token tokens IH]; intros self sq ts.
  - cbn. now intros [= <- <-] [= <- _].
  - cbn [ingest_all LLMCompilerCallback.feed].
    unfold LLMCompilerCallback.on_llm_new_token.
    destruct (StreamingGraphParser.ingest_token _ token) as [p1 [r|e]];
      [|discriminate].
    destruct (ingest_all p1 tokens) as [p2 [ts2|e]] eqn:Hrest; [|discriminate].
    intros [= <- <-].
    destruct r as [task|]; cbn [option_list app].
    + intros Hfeed.
      assert (Hidx : LLMCompilerCallback._curr_idx self' =
                     from_option Task.idx (Task.idx task) (last ts2)).
      { destruct (Task.is_join task);
          (refine (IH _ _ ts2 _ Hfeed); exact Hrest). }
      change (option_list (Some task) ++ ts2) with (task :: ts2).
      rewrite Hidx, last_cons. now destruct (last ts2).
    + intros Hfeed. refine (IH _ _ ts2 _ Hfeed). exact Hrest.
Qed.

(** C3: when the streaming parser raises on a token, the callback puts on
    the task queue, after the tasks the parser returned for the tokens
    before, a synthetic join whose idx is one more than the idx of the
    last of these tasks (1 when the parser returned none) and whose
    observation holds the phrase try again, puts the end-of-plan sentinel
    right after it, and raises [TinyAgentEarlyStop], so that no later
    token is taken; the LLM-error handler lets that exception pass and
    puts no error token on the streaming queue. *)
Theorem parse_error_recovery `{External} (tools : list Tool.t)
  (queue : list (option Task.t)) (sq : streaming)
  (tokens : list string) (token : string) (rest : list string)
  (parser0 parser : StreamingGraphParser.t) (ts : list Task.t) (e : exn) :
  ingest_all (StreamingGraphParser.__init__ tools) tokens = (parser0, Ok ts) ->
  StreamingGraphParser.ingest_token parser0 token = (parser, Raise e) ->
  exists self' join obs,
    LLMCompilerCallback.feed (LLMCompilerCallback.__init__ queue tools) sq
      (tokens ++ token :: rest) =
      (self', sq ++ map Some tokens, Some (TinyAgentEarlyStop (str_exn e)))
    /\ LLMCompilerCallback._queue self' =
         queue ++ enqueue ts ++ [Some join; None]
    /\ Task.idx join =
         (match last ts with Some task => Task.idx task | None => 0 end + 1)%Z
    /\ Task.is_join join = true
    /\ Task.observation join = Some obs
    /\ occurs "try again" obs
    /\ LLMCompilerCallback.on_llm_error self' (sq ++ map Some tokens)
         (TinyAgentEarlyStop (str_exn e)) = sq ++ map Some tokens.
Proof.
  intros Hall Hraise.
  destruct (feed_ingest_all tokens (LLMCompilerCallback.__init__ queue tools)
              sq parser0 ts Hall) as (self & Hfeed & Hp & Hq & Ht).
  pose proof (feed_curr_idx tokens
                (LLMCompilerCallback.__init__ queue tools) _ _ _ _ _
                Hall Hfeed) as Hidx.
  pose proof (ingest_token_raises _ _ _ _ Hraise) as Hexc.
  rewrite (feed_app _ (token :: rest) _ _ _ _ Hfeed).
  cbn [LLMCompilerCallback.feed].
  unfold LLMCompilerCallback.on_llm_new_token. rewrite Hp, Hraise, Hexc.
  unfold LLMCompilerCallback.on_parse_error, instantiate_task.
  cbn [String.eqb Ascii.eqb Bool.eqb].
  eexists _, _, _. split; [reflexivity|].
  cbn. rewrite Hq, Hidx, <- !List.app_assoc. cbn.
  repeat split; try (now destruct (last ts)).
  apply stop_observation_try_again.
Qed.

Lemma parse_error_recovery_witness :
  exists self' join obs,
    @LLMCompilerCallback.feed sample_external
      (LLMCompilerCallback.__init__ [] sample_tools) []
      (["1. get_phone_number(1)" +:+ nl; "4. send_sms(2)"; nl]
       ++ ("5. call_mom()" +:+ nl) :: ["6. join()"]) =
      (self',
       [] ++ map Some ["1. get_phone_number(1)" +:+ nl; "4. send_sms(2)"; nl],
       Some (TinyAgentEarlyStop
               (str_exn (PyException "tool-hallucination"
                           "Tool call_mom not found."))))
    /\ LLMCompilerCallback._queue self' =
         [] ++ enqueue
                 [@streamed_task sample_external sample_tools
                    {| s_thought := None; s_idx := "1";
                       s_tool := "get_phone_number"; s_args := "1" |};
                  @streamed_task sample_external sample_tools
                    {| s_thought := None; s_idx := "4";
                       s_tool := "send_sms"; s_args := "2" |}]
         ++ [Some join; None]
    /\ Task.idx join = (4 + 1)%Z
    /\ Task.is_join join = true
    /\ Task.observation join = Some obs
    /\ occurs "try again" obs
    /\ LLMCompilerCallback.on_llm_error self'
         ([] ++ map Some ["1. get_phone_number(1)" +:+ nl; "4. send_sms(2)";
                          nl])
         (TinyAgentEarlyStop
            (str_exn (PyException "tool-hallucination"
                        "Tool call_mom not found."))) =
       [] ++ map Some ["1. get_phone_number(1)" +:+ nl; "4. send_sms(2)"; nl].
Proof.
  apply (@parse_error_recovery sample_external sample_tools [] []
           ["1. get_phone_number(1)" +:+ nl; "4. send_sms(2)"; nl]
           ("5. call_mom()" +:+ nl) ["6. join()"]
           (StreamingGraphParser.__init__ sample_tools)
           (StreamingGraphParser.set_buffer ("5. call_mom()" +:+ nl)
              (StreamingGraphParser.__init__ sample_tools))
           [@streamed_task sample_external sample_tools
              {| s_thought := None; s_idx := "1";
                 s_tool := "get_phone_number"; s_args := "1" |};
            @streamed_task sample_external sample_tools
              {| s_thought := None; s_idx := "4";
                 s_tool := "send_sms"; s_args := "2" |}]
           (PyException "tool-hallucination" "Tool call_mom not found."));
    vm_compute; reflexivity.
Defined.

(** ** Searching in strings *)

Lemma find_from_ge (sub s : string) (i : Z) :
  find_from sub s i = (-1)%Z \/ (i <= find_from sub s i)%Z.
Proof.
  revert i. induction s as [|c s IH]; intros i; cbn [find_from].
  - destruct (startswith sub ""); [right; lia | now left].
  - destruct (startswith sub (String c s)); [right; lia|].
    destruct (IH (i + 1)%Z) as [->|Hge]; [now left | right; lia].
Qed.

Lemma find_from_split (sub s : string) (i j : Z) :
  (0 <= i)%Z -> find_from sub s i = j -> (0 <= j)%Z ->
  exists pre post,
    s = pre +:+ sub +:+ post /\ Z.of_nat (String.length pre) = (j - i)%Z.
Proof.
  revert i. induction s as [|c s IH]; intros i Hi Hf Hj; cbn [find_from] in Hf.
  - destruct (startswith sub "") eqn:Hs; [|lia].
    apply startswith_inv in Hs as [r Hr].
    exists "", r. split; [exact Hr | simpl; lia].
  - destruct (startswith sub (String c s)) eqn:Hs.
    + apply startswith_inv in Hs as [r Hr].
      exists "", r. split; [exact Hr | simpl; lia].
    + destruct (find_from_ge sub s (i + 1)) as [Hm|Hge]; [lia|].
      destruct (IH (i + 1)%Z ltac:(lia) Hf Hj) as (pre & post & -> & Hlen).
      exists (String c pre), post. split; [reflexivity | simpl; lia].
Qed.

Lemma find_startswith (sub s : string) :
  startswith sub s = true -> find sub s = 0%Z.
Proof.
  intros Hs. unfold find. destruct s; cbn [find_from]; now rewrite Hs.
Qed.

Lemma find_none_startswith (sub s : string) :
  find sub s = (-1)%Z -> startswith sub s = false.
Proof.
  intros Hf. destruct (startswith sub s) eqn:Hs; [|reflexivity].
  rewrite (find_startswith _ _ Hs) in Hf. discriminate.
Qed.

Lemma action_part_starts (line : string) :
  (0 <= find "Action:" line)%Z ->
  startswith "Action:" (action_part line) = true.
Proof.
  intros Hf. unfold action_part.
  destruct (find_from_split "Action:" line 0 _ ltac:(lia) eq_refl Hf)
    as (pre & post & Hl & Hlen).
  replace (find "Action:" line) with (Z.of_nat (String.length pre))
    by (unfold find; lia).
  rewrite Hl, slice_from_app. apply startswith_app.
Qed.

Lemma slice_from_0 (s : string) : slice_from s 0 = s.
Proof.
  unfold slice_from, clamp. cbn [Z.ltb Z.compare].
  now replace (Z.to_nat _) with 0 by lia.
Qed.

Lemma action_part_of_action_line (line : string) :
  startswith "Action:" line = true -> action_part line = line.
Proof.
  intros Hs. unfold action_part. rewrite (find_startswith _ _ Hs).
  apply slice_from_0.
Qed.

(** Single characters. *)

Lemma find_char_lacks (c : ascii) (s : string) (i : Z) :
  lacks c s = true -> find_from (String c "") s i = (-1)%Z.
Proof.
  revert i. induction s as [|x s IH]; intros i Hl; cbn [find_from startswith].
  - reflexivity.
  - cbn [lacks all_chars] in Hl. apply andb_true_iff in Hl as [Hx Hs].
    rewrite Ascii.eqb_sym. apply negb_true_iff in Hx. rewrite Hx.
    cbn [andb]. now apply IH.
Qed.

Lemma lacks_find_char (c : ascii) (s : string) (i : Z) :
  (0 <= i)%Z -> find_from (String c "") s i = (-1)%Z -> lacks c s = true.
Proof.
  revert i. induction s as [|x s IH]; intros i Hi Hf; [reflexivity|].
  cbn [find_from startswith] in Hf. cbn [lacks all_chars].
  rewrite Ascii.eqb_sym in Hf.
  destruct (Ascii.eqb x c); cbn [andb negb] in *; [lia|].
  apply (IH (i + 1)%Z); [lia | exact Hf].
Qed.

Lemma find_char_first (c : ascii) (pre post : string) (i : Z) :
  lacks c pre = true ->
  find_from (String c "") (pre +:+ String c post) i =
    (i + Z.of_nat (String.length pre))%Z.
Proof.
  revert i. induction pre as [|x pre IH]; intros i Hl.
  - cbn [String.append find_from startswith String.length].
    rewrite Ascii.eqb_refl. cbn [andb]. lia.
  - cbn [lacks all_chars] in Hl. apply andb_true_iff in Hl as [Hx Hs].
    cbn [String.append find_from startswith String.length].
    rewrite Ascii.eqb_sym. apply negb_true_iff in Hx. rewrite Hx.
    cbn [andb]. rewrite (IH _ Hs). lia.
Qed.

Lemma rfind_char_lacks (c : ascii) (s : string) (i : Z) :
  lacks c s = true -> rfind_from (String c "") s i = (-1)%Z.
Proof.
  revert i. induction s as [|x s IH]; intros i Hl; cbn [rfind_from startswith].
  - reflexivity.
  - cbn [lacks all_chars] in Hl. apply andb_true_iff in Hl as [Hx Hs].
    rewrite (IH _ Hs). rewrite Ascii.eqb_sym.
    apply negb_true_iff in Hx. now rewrite Hx.
Qed.

Lemma rfind_char_last (c : ascii) (pre post : string) (i : Z) :
  (0 <= i)%Z -> lacks c post = true ->
  rfind_from (String c "") (pre +:+ String c post) i =
    (i + Z.of_nat (String.length pre))%Z.
Proof.
  revert i. induction pre as [|x pre IH]; intros i Hi Hl.
  - cbn [String.append rfind_from startswith String.length].
    rewrite (rfind_char_lacks _ _ _ Hl), Ascii.eqb_refl. cbn. lia.
  - cbn [String.append rfind_from String.length].
    rewrite (IH (i + 1)%Z ltac:(lia) Hl).
    destruct (Z.leb_spec 0 (i + 1 + Z.of_nat (String.length pre))); lia.
Qed.

Lemma lacks_drop (c : ascii) (n : nat) (s : string) :
  lacks c s = true -> lacks c (drop n s) = true.
Proof.
  revert s. induction n as [|n IH]; intros s Hl; [exact Hl|].
  destruct s as [|x s]; [reflexivity|].
  cbn [lacks all_chars] in Hl. apply andb_true_iff in Hl as [_ Hs].
  now apply IH.
Qed.

Lemma take_app (a b : string) : take (String.length a) (a +:+ b) = a.
Proof. induction a as [|x a IH]; simpl; [reflexivity | now rewrite IH]. Qed.

(** The text between the first opening and the last closing parenthesis. *)
Lemma slice_parenthesized (pre msg post : string) :
  lacks "(" pre = true -> lacks ")" post = true ->
  let a := pre +:+ "(" +:+ msg +:+ ")" +:+ post in
  slice a (find "(" a + 1) (rfind ")" a) = msg.
Proof.
  intros Hpre Hpost a. unfold find, rfind, a.
  change ("(" +:+ msg +:+ ")" +:+ post)
    with (String "(" (msg +:+ ")" +:+ post)).
  rewrite (find_char_first _ _ _ 0 Hpre).
  replace (pre +:+ String "(" (msg +:+ ")" +:+ post))
    with ((pre +:+ "(" +:+ msg) +:+ String ")" post)
    by (rewrite !str_app_assoc; reflexivity).
  rewrite (rfind_char_last _ _ _ 0 ltac:(lia) Hpost).
  unfold slice, clamp. rewrite !str_length_app. cbn [String.length].
  repeat match goal with
         | |- context [Z.ltb ?x 0] =>
             destruct (Z.ltb_spec x 0); [lia|]
         end.
  match goal with
  | |- take ?n (drop ?m _) = _ =>
      replace n with (String.length msg) by lia;
      replace m with (String.length (pre +:+ "(")) by
        (rewrite str_length_app; cbn [String.length]; lia)
  end.
  replace ((pre +:+ "(" +:+ msg) +:+ String ")" post)
    with ((pre +:+ "(") +:+ msg +:+ String ")" post)
    by (rewrite !str_app_assoc; reflexivity).
  rewrite drop_app. apply take_app.
Qed.

Lemma clamp_0 (len : Z) : (0 <= len)%Z -> clamp len 0 = 0.
Proof. intros Hl. unfold clamp. change (0 <? 0)%Z with false. lia. Qed.

Lemma clamp_m1 (len : Z) :
  (0 <= len)%Z -> clamp len (-1) = Z.to_nat len - 1.
Proof. intros Hl. unfold clamp. change (-1 <? 0)%Z with true. lia. Qed.

Lemma take_all_but_last (a : string) :
  a <> "" ->
  exists body c,
    a = body +:+ String c "" /\ take (String.length a - 1) a = body.
Proof.
  induction a as [|x a IH]; intros Hne; [contradiction|].
  destruct a as [|y a].
  - exists "", x. split; reflexivity.
  - destruct (IH ltac:(discriminate)) as (body & c & Ha & Hs).
    exists (String x body), c. split; [now rewrite Ha|].
    cbn [String.length] in *.
    replace (S (S (String.length a)) - 1) with (S (S (String.length a) - 1))
      by lia.
    cbn [take]. now rewrite Hs.
Qed.

(** A string cut before its last character. *)
Lemma slice_all_but_last (a : string) :
  a <> "" ->
  exists body c, a = body +:+ String c "" /\ slice a 0 (-1) = body.
Proof.
  intros Hne. destruct (take_all_but_last a Hne) as (body & c & Ha & Ht).
  exists body, c. split; [exact Ha|].
  unfold slice. rewrite clamp_0, clamp_m1 by lia.
  rewrite Nat2Z.id, Nat.sub_0_r. exact Ht.
Qed.

(** ** The joinner parser *)

Lemma joinner_loop_app (xs ys : list string) (thought answer : string)
  (is_replan : bool) :
  joinner_loop (xs ++ ys) thought answer is_replan =
  let '(th, a, r) := joinner_loop xs thought answer is_replan in
  joinner_loop ys th a r.
Proof.
  revert thought answer is_replan.
  induction xs as [|x xs IH]; intros thought answer is_replan.
  - reflexivity.
  - cbn [app joinner_loop].
    repeat match goal with
           | |- context [if ?b then _ else _] => destruct b
           end; apply IH.
Qed.

Lemma joinner_loop_no_action (lines : list string) (thought answer : string)
  (is_replan : bool) :
  Forall (fun line => find "Action:" line = (-1)%Z) lines ->
  exists th, joinner_loop lines thought answer is_replan =
             (th, answer, is_replan).
Proof.
  intros Hall. revert thought.
  induction Hall as [|line lines Hline _ IH]; intros thought.
  - now exists thought.
  - cbn [joinner_loop]. rewrite Hline.
    change (0 <=? -1)%Z with false. cbv iota.
    rewrite (find_none_startswith _ _ Hline).
    destruct (startswith "Thought:" line); apply IH.
Qed.

Lemma joinner_loop_action (line : string) (rest : list string)
  (thought answer : string) (is_replan : bool) :
  (0 <= find "Action:" line)%Z ->
  joinner_loop (line :: rest) thought answer is_replan =
  joinner_loop rest thought
    (slice (action_part line) (find "(" (action_part line) + 1)
           (rfind ")" (action_part line)))
    (contains JOINNER_REPLAN (action_part line)).
Proof.
  intros Hf. cbn [joinner_loop].
  destruct (Z.leb_spec 0 (find "Action:" line)) as [_|Hlt]; [|lia].
  fold (action_part line). now rewrite (action_part_starts _ Hf).
Qed.

(** The last line that holds the marker decides. *)
Lemma joinner_last_action (raw_answer : string) (before after : list string)
  (line : string) :
  split_nl raw_answer = before ++ line :: after ->
  (0 <= find "Action:" line)%Z ->
  Forall (fun x => find "Action:" x = (-1)%Z) after ->
  JoinStep.message (get_parsed_joinner_output raw_answer) =
    slice (action_part line) (find "(" (action_part line) + 1)
          (rfind ")" (action_part line))
  /\ JoinStep.action (get_parsed_joinner_output raw_answer) =
       if contains JOINNER_REPLAN (action_part line) then JOINNER_REPLAN
       else JOINNER_FINISH.
Proof.
  intros Hsplit Hf Hafter. unfold get_parsed_joinner_output.
  rewrite Hsplit, joinner_loop_app.
  destruct (joinner_loop before "" "" false) as [[th a] r].
  rewrite (joinner_loop_action _ _ _ _ _ Hf).
  destruct (joinner_loop_no_action after th
              (slice (action_part line) (find "(" (action_part line) + 1)
                     (rfind ")" (action_part line)))
              (contains JOINNER_REPLAN (action_part line)) Hafter)
    as [th' ->].
  split; reflexivity.
Qed.

(** C6: the decision of a joinner response comes from a line that holds the
    Action: marker, the last such line; when that line, read from the
    marker on, holds a parenthesized text, the text between its first
    opening and its last closing parenthesis is the message, and Replan is
    chosen exactly when the line names it.  A response with no such line
    gives Finish with the empty message. *)
Theorem joinner_decision (raw_answer : string) :
  (Forall (fun line => find "Action:" line = (-1)%Z) (split_nl raw_answer) ->
     JoinStep.action (get_parsed_joinner_output raw_answer) = JOINNER_FINISH
     /\ JoinStep.message (get_parsed_joinner_output raw_answer) = "")
  /\ (forall before line after,
        split_nl raw_answer = before ++ line :: after ->
        (0 <= find "Action:" line)%Z ->
        Forall (fun x => find "Action:" x = (-1)%Z) after ->
        JoinStep.action (get_parsed_joinner_output raw_answer) =
          (if contains JOINNER_REPLAN (action_part line) then JOINNER_REPLAN
           else JOINNER_FINISH)
        /\ forall pre msg post,
             action_part line = pre +:+ "(" +:+ msg +:+ ")" +:+ post ->
             lacks "(" pre = true -> lacks ")" post = true ->
             JoinStep.message (get_parsed_joinner_output raw_answer) = msg).
Proof.
  split.
  - intros Hall. unfold get_parsed_joinner_output.
    destruct (joinner_loop_no_action _ "" "" false Hall) as [th ->].
    split; reflexivity.
  - intros before line after Hsplit Hf Hafter.
    destruct (joinner_last_action _ _ _ _ Hsplit Hf Hafter) as [Hm Ha].
    split; [exact Ha|].
    intros pre msg post Hpart Hpre Hpost. rewrite Hm, Hpart.
    now apply slice_parenthesized.
Qed.

Lemma joinner_decision_witness :
  let raw := "Thought: all done" +:+ nl
             +:+ "Action: Finish(Sent (to Bob) at 5.)" +:+ nl in
  split_nl raw =
    ["Thought: all done"] ++ "Action: Finish(Sent (to Bob) at 5.)" :: [""]
  /\ JoinStep.action (get_parsed_joinner_output raw) = JOINNER_FINISH
  /\ JoinStep.message (get_parsed_joinner_output raw) = "Sent (to Bob) at 5.".
Proof.
  intros raw.
  destruct (joinner_decision raw) as [_ Hlast].
  destruct (Hlast ["Thought: all done"]
              "Action: Finish(Sent (to Bob) at 5.)" [""])
    as [Ha Hm].
  - reflexivity.
  - vm_compute. discriminate.
  - repeat constructor.
  - split; [reflexivity|]. split; [exact Ha|].
    apply (Hm "Action: Finish" "Sent (to Bob) at 5." ""); reflexivity.
Defined.

Lemma action_part_nonempty (line : string) :
  (0 <= find "Action:" line)%Z -> action_part line <> "".
Proof.
  intros Hf Hempty. pose proof (action_part_starts _ Hf) as Hs.
  rewrite Hempty in Hs. discriminate.
Qed.

Lemma lacks_find (c : ascii) (s : string) :
  lacks c s = true -> find (String c "") s = (-1)%Z.
Proof. apply find_char_lacks. Qed.

Lemma lacks_rfind (c : ascii) (s : string) :
  lacks c s = true -> rfind (String c "") s = (-1)%Z.
Proof. apply rfind_char_lacks. Qed.

(** C10 (amended): when the last line with the Action: marker holds no
    parenthesis, the message is that line, read from its first marker on,
    without its final character, and it is not empty; for a line that
    starts with the marker, such as the bare Action: Replan, it is the
    whole line without its final character. *)
Theorem bare_action_message (raw_answer : string)
  (before after : list string) (line : string) :
  split_nl raw_answer = before ++ line :: after ->
  (0 <= find "Action:" line)%Z ->
  Forall (fun x => find "Action:" x = (-1)%Z) after ->
  lacks "(" line = true -> lacks ")" line = true ->
  exists body c,
    action_part line = body +:+ String c ""
    /\ JoinStep.message (get_parsed_joinner_output raw_answer) = body
    /\ body <> ""
    /\ (startswith "Action:" line = true -> line = body +:+ String c "").
Proof.
  intros Hsplit Hf Hafter Hopen Hclose.
  destruct (joinner_last_action _ _ _ _ Hsplit Hf Hafter) as [Hm _].
  assert (Ho : find "(" (action_part line) = (-1)%Z).
  { apply lacks_find. unfold action_part, slice_from. now apply lacks_drop. }
  assert (Hc : rfind ")" (action_part line) = (-1)%Z).
  { apply lacks_rfind. unfold action_part, slice_from. now apply lacks_drop. }
  rewrite Ho, Hc in Hm. change (-1 + 1)%Z with 0%Z in Hm.
  destruct (slice_all_but_last _ (action_part_nonempty _ Hf))
    as (body & c & Hbody & Hslice).
  exists body, c. repeat split.
  - exact Hbody.
  - now rewrite Hm.
  - intros ->. pose proof (action_part_starts _ Hf) as Hs.
    rewrite Hbody in Hs. cbn in Hs. destruct c as [[] [] [] [] [] [] [] []];
      discriminate.
  - intros Hs. now rewrite <- (action_part_of_action_line _ Hs).
Qed.

(** C10, as stated, fails for a line with text before the marker: the
    message is cut from the marker on, so it is not the line without its
    final character. *)
Lemma bare_action_message_drops_prefix :
  JoinStep.message (get_parsed_joinner_output "note: Action: Replan") =
    "Action: Repla"
  /\ "Action: Repla" <> "note: Action: Repla".
Proof. split; [reflexivity | discriminate]. Qed.

Lemma bare_action_message_witness :
  exists body c,
    action_part "Action: Replan" = body +:+ String c ""
    /\ JoinStep.message
         (get_parsed_joinner_output
            ("Thought: retry" +:+ nl +:+ "Action: Replan")) = body
    /\ body <> ""
    /\ (startswith "Action:" "Action: Replan" = true ->
        "Action: Replan" = body +:+ String c "").
Proof.
  apply (bare_action_message ("Thought: retry" +:+ nl +:+ "Action: Replan")
           ["Thought: retry"] [] "Action: Replan").
  - reflexivity.
  - vm_compute. discriminate.
  - constructor.
  - reflexivity.
  - reflexivity.
Defined.

(** ** The streaming parser, one token *)

Lemma split1_nl_none (s : string) :
  all_chars not_nl s = true -> split1_nl s = None.
Proof.
  induction s as [|c s IH]; intros Hs; [reflexivity|].
  cbn [all_chars] in Hs. apply andb_true_iff in Hs as [Hc Hs].
  cbn [split1_nl]. unfold not_nl in Hc. apply negb_true_iff in Hc.
  now rewrite Hc, (IH Hs).
Qed.

Lemma split1_nl_first (before after : string) :
  all_chars not_nl before = true ->
  split1_nl (before +:+ nl +:+ after) = Some (before, after).
Proof.
  induction before as [|c s IH]; intros Hs.
  - reflexivity.
  - cbn [all_chars] in Hs. apply andb_true_iff in Hs as [Hc Hs].
    cbn [String.append split1_nl]. unfold not_nl in Hc.
    apply negb_true_iff in Hc. now rewrite Hc, (IH Hs).
Qed.

Lemma instantiate_task_ok `{External} (tools : list Tool.t) (idx : Z)
  (tool_name args thought : string) (task : Task.t) :
  instantiate_task tools idx tool_name args thought = Ok task ->
  Task.idx task = idx /\ Task.name task = tool_name
  /\ Task.args task = _parse_llm_compiler_action_args args
  /\ Task.thought task = Some thought
  /\ Task.is_join task = String.eqb tool_name "join".
Proof.
  unfold instantiate_task.
  destruct (String.eqb tool_name "join") eqn:Hj.
  - intros [= <-]. cbn. repeat split.
  - destruct (List.find _ tools); [|discriminate].
    intros [= <-]. cbn. repeat split.
Qed.

(** C2 (amended): a token without a newline is appended to the buffer and
    gives no task.  For a token with one newline, the text before the
    newline, stripped of white space at both ends, and a newline are
    appended to the buffer; the buffer is matched at its start against the
    Thought pattern and then the Action pattern, and then becomes the text
    after the newline.  A Thought match stores its text and gives no task;
    an Action match whose tool is known gives the task, which carries the
    stored thought, and clears the stored thought; an unknown tool raises
    and leaves the buffer as matched. *)
Theorem ingest_token_cases `{External} (self : StreamingGraphParser.t)
  (token : string) :
  (all_chars not_nl token = true ->
     StreamingGraphParser.ingest_token self token =
       (StreamingGraphParser.set_buffer
          (StreamingGraphParser.buffer self +:+ token) self, Ok None))
  /\ (forall before after,
        token = before +:+ nl +:+ after ->
        all_chars not_nl before = true -> all_chars not_nl after = true ->
        let matched :=
          StreamingGraphParser.buffer self +:+ strip before +:+ nl in
        let tools := StreamingGraphParser.tools self in
        match Re.match_THOUGHT_PATTERN matched with
        | Some th =>
            StreamingGraphParser.ingest_token self token =
              ({| StreamingGraphParser.buffer := after;
                  StreamingGraphParser.thought := th;
                  StreamingGraphParser.tools := tools |}, Ok None)
        | None =>
            match Re.match_ACTION_PATTERN matched with
            | Some (g, _) =>
                match instantiate_task tools (int (Re.g_idx g)) (Re.g_tool g)
                        (Re.g_args g) (StreamingGraphParser.thought self)
                with
                | Ok task =>
                    StreamingGraphParser.ingest_token self token =
                      ({| StreamingGraphParser.buffer := after;
                          StreamingGraphParser.thought := "";
                          StreamingGraphParser.tools := tools |},
                       Ok (Some task))
                    /\ Task.thought task =
                         Some (StreamingGraphParser.thought self)
                | Raise e =>
                    StreamingGraphParser.ingest_token self token =
                      (StreamingGraphParser.set_buffer matched self, Raise e)
                end
            | None =>
                StreamingGraphParser.ingest_token self token =
                  (StreamingGraphParser.set_buffer after self, Ok None)
            end
        end).
Proof.
  split.
  - intros Hnl. unfold StreamingGraphParser.ingest_token.
    now rewrite (split1_nl_none _ Hnl).
  - intros before after -> Hb Ha matched tools.
    unfold StreamingGraphParser.ingest_token.
    rewrite (split1_nl_first _ _ Hb).
    unfold StreamingGraphParser._match_buffer_and_generate_task.
    cbn [StreamingGraphParser.buffer StreamingGraphParser.set_buffer
         StreamingGraphParser.thought StreamingGraphParser.tools].
    fold matched. fold tools.
    destruct (Re.match_THOUGHT_PATTERN matched) as [th|]; [reflexivity|].
    destruct (Re.match_ACTION_PATTERN matched) as [[g r]|]; [|reflexivity].
    destruct (instantiate_task tools _ _ _ _) as [task|e] eqn:Hi.
    + split; [reflexivity|].
      now destruct (instantiate_task_ok _ _ _ _ _ _ Hi) as (_ & _ & _ & Ht & _).
    + reflexivity.
Qed.

Lemma ingest_token_cases_witness :
  @StreamingGraphParser.ingest_token sample_external
    {| StreamingGraphParser.buffer := "1. get_phone";
       StreamingGraphParser.thought := "look up Bob";
       StreamingGraphParser.tools := sample_tools |}
    ("_number(1) " +:+ nl +:+ "2. ") =
  ({| StreamingGraphParser.buffer := "2. ";
      StreamingGraphParser.thought := "";
      StreamingGraphParser.tools := sample_tools |},
   Ok (Some {| Task.idx := 1;
               Task.name := "get_phone_number";
               Task.tool := List.head sample_tools;
               Task.args := VTuple [VInt 1];
               Task.dependencies := [];
               Task.thought := Some "look up Bob";
               Task.is_join := false;
               Task.observation := None |})).
Proof.
  pose proof (@ingest_token_cases sample_external
                {| StreamingGraphParser.buffer := "1. get_phone";
                   StreamingGraphParser.thought := "look up Bob";
                   StreamingGraphParser.tools := sample_tools |}
                ("_number(1) " +:+ nl +:+ "2. ")) as [_ Hnl].
  specialize (Hnl "_number(1) " "2. " eq_refl eq_refl eq_refl).
  vm_compute in Hnl. destruct Hnl as [Hnl _]. vm_compute. exact Hnl.
Defined.

(** C2, as stated, fails twice.  The text before the newline is stripped
    before it is appended, so a line that matches the Thought pattern with
    the text [a ] stores [a]; and of a token that holds two newlines only
    the first completes a line: the second line, an action, is left in the
    buffer unmatched and the call returns the first task alone. *)
Lemma ingest_token_strips_and_matches_once :
  Re.match_THOUGHT_PATTERN ("Thought: a " +:+ nl) = Some "a "
  /\ StreamingGraphParser.thought
       (@StreamingGraphParser.ingest_token sample_external
          (StreamingGraphParser.__init__ sample_tools)
          ("Thought: a " +:+ nl)).1 = "a"
  /\ (exists g rest,
        Re.match_ACTION_PATTERN ("2. join()" +:+ nl) = Some (g, rest))
  /\ (exists task,
        @StreamingGraphParser.ingest_token sample_external
          (StreamingGraphParser.__init__ sample_tools)
          ("1. get_phone_number(1)" +:+ nl +:+ "2. join()" +:+ nl) =
        ({| StreamingGraphParser.buffer := "2. join()" +:+ nl;
            StreamingGraphParser.thought := "";
            StreamingGraphParser.tools := sample_tools |},
         Ok (Some task))
        /\ Task.idx task = 1%Z).
Proof.
  split; [reflexivity|]. split; [reflexivity|]. split.
  - eexists _, _. vm_compute. reflexivity.
  - eexists. split; vm_compute; reflexivity.
Qed.

(** ** The batch parser *)

Lemma parse_plan_loop_upto `{External}
  (matches : list (string * Re.action_groups)) (d : list (Z * Task.t)) :
  parse_plan_loop matches d = store_all (map dummy_task (upto_join matches)) d.
Proof.
  revert d. induction matches as [|m rest IH]; intros d; [reflexivity|].
  cbn [parse_plan_loop upto_join].
  change (Task.is_join (dummy_task m)) with (join_match m).
  destruct (join_match m); cbn [map store_all]; [reflexivity | apply IH].
Qed.

Lemma upto_join_last (matches : list (string * Re.action_groups)) :
  existsb join_match matches = true ->
  exists front m,
    upto_join matches = front ++ [m] /\ join_match m = true
    /\ forallb (fun x => negb (join_match x)) front = true.
Proof.
  induction matches as [|m rest IH]; [discriminate|].
  cbn [existsb upto_join]. destruct (join_match m) eqn:Hm.
  - intros _. now exists [], m.
  - cbn [orb]. intros Hex. destruct (IH Hex) as (front & j & -> & Hj & Hfront).
    exists (m :: front), j. cbn [forallb]. now rewrite Hm, Hfront.
Qed.

Lemma dict_set_no_join (k : Z) (task : Task.t) (d : list (Z * Task.t)) :
  List.filter Task.is_join (values d) = [] ->
  List.filter Task.is_join (values (dict_set k task d)) =
    if Task.is_join task then [task] else [].
Proof.
  unfold values. induction d as [|[k' v'] d IH]; intros Hd.
  - cbn. now destruct (Task.is_join task).
  - cbn [map List.filter snd] in Hd. cbn [dict_set].
    destruct (Task.is_join v') eqn:Hv; [discriminate|].
    destruct (k' =? k)%Z; cbn [map List.filter snd].
    + rewrite Hd. now destruct (Task.is_join task).
    + rewrite Hv. now apply IH.
Qed.

Lemma store_all_no_join (front : list Task.t) (d : list (Z * Task.t)) :
  forallb (fun t => negb (Task.is_join t)) front = true ->
  List.filter Task.is_join (values d) = [] ->
  List.filter Task.is_join (values (store_all front d)) = [].
Proof.
  revert d. induction front as [|t front IH]; intros d Hf Hd; [exact Hd|].
  cbn [forallb] in Hf. apply andb_true_iff in Hf as [Ht Hf].
  cbn [store_all]. apply IH; [exact Hf|].
  rewrite (dict_set_no_join _ _ _ Hd).
  apply negb_true_iff in Ht. now rewrite Ht.
Qed.

Lemma store_all_app (xs ys : list Task.t) (d : list (Z * Task.t)) :
  store_all (xs ++ ys) d = store_all ys (store_all xs d).
Proof. revert d. induction xs as [|x xs IH]; intros d; cbn; auto. Qed.

(** Keys below a new key: the new entry goes to the end. *)
Lemma dict_set_fresh (k : Z) (task : Task.t) (d : list (Z * Task.t)) :
  Forall (fun kv => (kv.1 < k)%Z) d -> dict_set k task d = d ++ [(k, task)].
Proof.
  induction 1 as [|[k' v'] d Hk _ IH]; [reflexivity|].
  cbn [dict_set]. cbn in Hk.
  destruct (Z.eqb_spec k' k); [lia|]. now rewrite IH.
Qed.

Lemma store_all_increasing (tasks : list Task.t) (lo : Z)
  (d : list (Z * Task.t)) :
  Forall (fun kv => (kv.1 <= lo)%Z) d ->
  increasing_idx lo tasks = true ->
  store_all tasks d = d ++ map (fun t => (Task.idx t, t)) tasks
  /\ Forall (fun t => (lo < Task.idx t)%Z) tasks.
Proof.
  revert lo d. induction tasks as [|t tasks IH]; intros lo d Hd Hinc.
  - cbn. now rewrite List.app_nil_r.
  - cbn [increasing_idx] in Hinc. apply andb_true_iff in Hinc as [Hlo Hinc].
    apply Z.ltb_lt in Hlo. cbn [store_all map].
    rewrite dict_set_fresh.
    2:{ eapply Forall_impl; [exact Hd|]. cbn. intros; lia. }
    destruct (IH (Task.idx t) (d ++ [(Task.idx t, t)])) as [Hs Hall].
    + apply Forall_app. split.
      * eapply Forall_impl; [exact Hd|]. cbn. intros; lia.
      * repeat constructor. cbn. lia.
    + exact Hinc.
    + split.
      * rewrite Hs, <- List.app_assoc. reflexivity.
      * constructor; [exact Hlo|].
        eapply Forall_impl; [exact Hall|]. cbn. intros; lia.
Qed.

Lemma increasing_idx_last (tasks : list Task.t) (lo : Z) (join : Task.t) :
  increasing_idx lo tasks = true -> last tasks = Some join ->
  Forall (fun t => (Task.idx t <= Task.idx join)%Z) tasks.
Proof.
  revert lo. induction tasks as [|t tasks IH]; intros lo Hinc Hlast.
  - constructor.
  - cbn [increasing_idx] in Hinc. apply andb_true_iff in Hinc as [_ Hinc].
    destruct tasks as [|t' tasks].
    + injection Hlast as <-. repeat constructor. lia.
    + change (last (t :: t' :: tasks)) with (last (t' :: tasks)) in Hlast.
      pose proof (IH _ Hinc Hlast) as Hall.
      constructor; [|exact Hall].
      destruct (store_all_increasing (t' :: tasks) (Task.idx t) [])
        as [_ Hgt]; [constructor | exact Hinc |].
      inversion Hgt as [|? ? Ht' _]; subst.
      inversion Hall as [|? ? Hle _]; subst. lia.
Qed.

(** C5 (amended): for every plan text batch parsing reads the matched
    actions in order up to and including the first join and ignores what
    follows it, storing each task under its idx, where a later task takes
    the place of an earlier one with the same idx.  When a matched action
    is a join the result holds exactly one join task, the first matched
    join.  When the idx of the actions read grow strictly, the result is
    exactly those tasks in order and the join has the largest idx. *)
Theorem parse_plan_stops_at_join `{External} (plan : string) :
  let read := map dummy_task (upto_join (Re.findall plan)) in
  parse_plan plan = store_all read []
  /\ (existsb join_match (Re.findall plan) = true ->
      exists join,
        List.filter Task.is_join (batch_parse plan) = [join]
        /\ last read = Some join)
  /\ (increasing_idx (-1) read = true ->
      batch_parse plan = read
      /\ forall join, last read = Some join ->
           Forall (fun t => (Task.idx t <= Task.idx join)%Z)
                  (batch_parse plan)).
Proof.
  intros read.
  assert (Hparse : parse_plan plan = store_all read []).
  { unfold parse_plan. apply parse_plan_loop_upto. }
  split; [exact Hparse|]. unfold batch_parse. rewrite Hparse. split.
  - intros Hex. destruct (upto_join_last _ Hex) as (front & m & Hup & Hm & Hf).
    exists (dummy_task m). unfold read. rewrite Hup, map_app. cbn [map].
    rewrite store_all_app. cbn [store_all]. split.
    + rewrite dict_set_no_join.
      * change (Task.is_join (dummy_task m)) with (join_match m).
        now rewrite Hm.
      * apply store_all_no_join; [|reflexivity].
        rewrite forallb_forall in Hf |- *.
        intros t Ht. apply in_map_iff in Ht as (x & <- & Hx).
        exact (Hf x Hx).
    + apply last_snoc.
  - intros Hinc.
    destruct (store_all_increasing read (-1) [] ltac:(constructor) Hinc)
      as [Hs _].
    assert (Hv : values (store_all read []) = read).
    { rewrite Hs. unfold values. cbn [app]. rewrite map_map. cbn.
      apply map_id. }
    rewrite Hv. split; [reflexivity|].
    intros join Hlast. eapply increasing_idx_last; eauto.
Qed.

Lemma parse_plan_stops_at_join_witness :
  let plan := "Thought: look up, then send" +:+ nl
              +:+ "1. get_phone_number(1)" +:+ nl
              +:+ "2. join()" +:+ nl +:+ "3. send_sms([1])" in
  exists join,
    List.filter Task.is_join (@batch_parse sample_external plan) = [join]
    /\ map Task.idx (@batch_parse sample_external plan) = [1%Z; 2%Z]
    /\ Forall (fun t => (Task.idx t <= Task.idx join)%Z)
              (@batch_parse sample_external plan).
Proof.
  intros plan.
  destruct (@parse_plan_stops_at_join sample_external plan)
    as (_ & Hone & Hinc).
  destruct (Hone eq_refl) as (join & Hjoin & Hlast).
  destruct (Hinc eq_refl) as (Hread & Hmax).
  exists join. split; [exact Hjoin|]. split; [reflexivity|].
  now apply Hmax.
Defined.

(** C5, as stated, fails: the plan is keyed by idx and no order of the idx
    is checked.  A join numbered below an earlier action does not have the
    largest idx; and an action that shares its idx with the join is
    replaced by it, so it is missing from the sequence although it stands
    before the first join. *)
Lemma join_idx_need_not_be_largest :
  (exists a join,
      @batch_parse sample_external
        ("2. get_phone_number(1)" +:+ nl +:+ "1. join()" +:+ nl) = [a; join]
      /\ Task.is_join join = true
      /\ (Task.idx join < Task.idx a)%Z)
  /\ (exists join,
        @batch_parse sample_external
          ("1. get_phone_number(1)" +:+ nl +:+ "1. join()" +:+ nl) = [join]
        /\ Task.is_join join = true).
Proof.
  split.
  - eexists _, _. split; [vm_compute; reflexivity|]. split; reflexivity.
  - eexists. split; [vm_compute; reflexivity | reflexivity].
Qed.

(** ** The patterns on well-formed lines *)

Lemma span_stop (p : ascii -> bool) (a r : string) :
  all_chars p a = true ->
  (r = "" \/ exists c r', r = String c r' /\ p c = false) ->
  span p (a +:+ r) = (a, r).
Proof.
  intros Ha Hr. induction a as [|x a IH].
  - cbn [String.append]. destruct Hr as [->|(c & r' & -> & Hc)].
    + reflexivity.
    + cbn [span]. now rewrite Hc.
  - cbn [all_chars] in Ha. apply andb_true_iff in Ha as [Hx Ha].
    cbn [String.append span]. now rewrite Hx, (IH Ha).
Qed.

Lemma all_chars_app (p : ascii -> bool) (a b : string) :
  all_chars p (a +:+ b) = all_chars p a && all_chars p b.
Proof.
  induction a as [|x a IH]; [reflexivity|].
  cbn [String.append all_chars]. now rewrite IH, andb_assoc.
Qed.

Lemma digit_not_space (c : ascii) : is_digit c = true -> is_space c = false.
Proof. destruct c as [[] [] [] [] [] [] [] []]; vm_compute; congruence. Qed.

Lemma digit_not_hash (c : ascii) :
  is_digit c = true -> Ascii.eqb c "#" = false.
Proof. destruct c as [[] [] [] [] [] [] [] []]; vm_compute; congruence. Qed.

Lemma digit_not_T (c : ascii) : is_digit c = true -> Ascii.eqb "T" c = false.
Proof. destruct c as [[] [] [] [] [] [] [] []]; vm_compute; congruence. Qed.

Lemma digit_not_nl (c : ascii) : is_digit c = true -> not_nl c = true.
Proof. destruct c as [[] [] [] [] [] [] [] []]; vm_compute; congruence. Qed.

Lemma word_not_nl (c : ascii) : is_word c = true -> not_nl c = true.
Proof. destruct c as [[] [] [] [] [] [] [] []]; vm_compute; congruence. Qed.

Lemma all_chars_impl (p q : ascii -> bool) (s : string) :
  (forall c, p c = true -> q c = true) ->
  all_chars p s = true -> all_chars q s = true.
Proof.
  intros Hpq. induction s as [|c s IH]; [reflexivity|].
  cbn [all_chars]. intros [Hc Hs]%andb_true_iff.
  now rewrite (Hpq _ Hc), (IH Hs).
Qed.

Lemma rsplit_char_end (c : ascii) (a : string) :
  Re.rsplit_char c (a +:+ String c "") = Some (a, "").
Proof.
  induction a as [|x a IH].
  - cbn. now rewrite Ascii.eqb_refl.
  - cbn [String.append Re.rsplit_char]. now rewrite IH.
Qed.

Lemma quiet_no_comment (r : string) : quiet r -> Re.match_comment r = None.
Proof.
  intros [->|[->|(c & x & -> & Hs & Hh)]]; try reflexivity.
  unfold Re.match_comment. cbn [String.append nl span].
  change (is_space nl_char) with true. cbv iota.
  cbn [span]. rewrite Hs.
  destruct c as [[] [] [] [] [] [] [] []]; try reflexivity; discriminate.
Qed.

Lemma quiet_line_end (r : string) :
  quiet r -> r = "" \/ exists c r', r = String c r' /\ not_nl c = false.
Proof.
  intros [->|[->|(c & x & -> & _)]]; [now left | right..].
  - now exists nl_char, "".
  - now exists nl_char, (String c x).
Qed.

(** The Action pattern on an action line that follows white space [ws]
    and is followed by [r]. *)
Lemma match_action_line (ws : string) (s : step) (r : string) :
  all_chars is_space ws = true ->
  negb (is_empty (s_idx s)) = true -> all_chars is_digit (s_idx s) = true ->
  negb (is_empty (s_tool s)) = true -> all_chars is_word (s_tool s) = true ->
  all_chars not_nl (s_args s) = true ->
  quiet r ->
  Re.match_ACTION_PATTERN (ws +:+ action_line s +:+ r) =
    Some (groups_of s, r).
Proof.
  intros Hws Hie Hid Hte Htw Ha Hr.
  destruct s as [th idx tool args]. unfold action_line, groups_of.
  cbn [s_idx s_tool s_args] in *.
  apply negb_true_iff in Hie, Hte.
  unfold Re.match_ACTION_PATTERN.
  rewrite !str_app_assoc.
  rewrite (span_stop is_space ws _ Hws).
  2:{ right. destruct idx as [|d idx]; [discriminate|].
      cbn [all_chars] in Hid. apply andb_true_iff in Hid as [Hd _].
      eexists _, _. split; [reflexivity | now apply digit_not_space]. }
  cbn [snd].
  rewrite (span_stop is_digit idx _ Hid).
  2:{ right. now eexists _, _. }
  rewrite Hie. change (". " +:+ ?x) with (String "." (String " " x)).
  cbv iota.
  rewrite (span_stop is_word tool _ Htw).
  2:{ right. now eexists _, _. }
  rewrite Hte. change ("(" +:+ ?x) with (String "(" x). cbv iota.
  replace (args +:+ ")" +:+ r) with ((args +:+ ")") +:+ r)
    by (now rewrite str_app_assoc).
  rewrite (span_stop not_nl (args +:+ ")") r).
  2:{ rewrite all_chars_app, Ha. reflexivity. }
  2:{ now apply quiet_line_end. }
  rewrite rsplit_char_end. cbn [String.append].
  now rewrite (quiet_no_comment _ Hr).
Qed.

Lemma match_thought_text (t r : string) :
  all_chars not_nl t = true ->
  Re.match_THOUGHT_PATTERN ("Thought: " +:+ t +:+ nl +:+ r) = Some t.
Proof.
  intros Ht. unfold Re.match_THOUGHT_PATTERN.
  rewrite startswith_app.
  change 9 with (String.length "Thought: "). rewrite drop_app.
  rewrite (span_stop not_nl t _ Ht); [reflexivity|].
  right. now exists nl_char, r.
Qed.

Lemma match_thought_line_text (t r : string) :
  all_chars not_nl t = true ->
  Re.match_thought_line ("Thought: " +:+ t +:+ nl +:+ r) = Some (t, r).
Proof.
  intros Ht. unfold Re.match_thought_line.
  rewrite startswith_app.
  change 9 with (String.length "Thought: "). rewrite drop_app.
  rewrite (span_stop not_nl t _ Ht); [reflexivity|].
  right. now exists nl_char, r.
Qed.

Lemma action_line_first (s : step) :
  negb (is_empty (s_idx s)) = true -> all_chars is_digit (s_idx s) = true ->
  exists d x, action_line s = String d x /\ is_digit d = true.
Proof.
  unfold action_line. destruct (s_idx s) as [|d idx]; [discriminate|].
  intros _ Hd. cbn [all_chars] in Hd. apply andb_true_iff in Hd as [Hd _].
  now eexists _, _.
Qed.

Lemma action_line_not_thought (s : step) (r : string) :
  negb (is_empty (s_idx s)) = true -> all_chars is_digit (s_idx s) = true ->
  startswith "Thought: " (action_line s +:+ r) = false.
Proof.
  intros He Hd. destruct (action_line_first s He Hd) as (d & x & -> & Hdig).
  cbn [String.append startswith]. now rewrite (digit_not_T _ Hdig).
Qed.

Lemma find_registered (tools : list Tool.t) (tool_name : string) :
  existsb (fun t => String.eqb (Tool.name t) tool_name) tools = true ->
  exists t,
    List.find (fun t => String.eqb (Tool.name t) tool_name) tools = Some t.
Proof.
  induction tools as [|t tools IH]; [discriminate|].
  cbn [existsb List.find].
  destruct (String.eqb (Tool.name t) tool_name); [now exists t | exact IH].
Qed.

(** A step's fields unpacked from [step_ok]. *)
Lemma step_ok_fields (tools : list Tool.t) (s : step) :
  step_ok tools s = true ->
  negb (is_empty (s_idx s)) = true /\ all_chars is_digit (s_idx s) = true
  /\ negb (is_empty (s_tool s)) = true /\ all_chars is_word (s_tool s) = true
  /\ all_chars not_nl (s_args s) = true
  /\ all_chars not_nl (default "" (s_thought s)) = true
  /\ registered tools (s_tool s) = true.
Proof.
  unfold step_ok. rewrite !andb_true_iff. tauto.
Qed.

Lemma instantiate_registered `{External} (tools : list Tool.t) (s : step)
  (th : string) :
  registered tools (s_tool s) = true ->
  instantiate_task tools (int (s_idx s)) (s_tool s) (s_args s) th =
    Ok {| Task.idx := int (s_idx s);
          Task.name := s_tool s;
          Task.tool := Task.tool (streamed_task tools s);
          Task.args := _parse_llm_compiler_action_args (s_args s);
          Task.dependencies :=
            dependency_rule (int (s_idx s)) (s_tool s) (s_args s);
          Task.thought := Some th;
          Task.is_join := String.eqb (s_tool s) "join";
          Task.observation := None |}.
Proof.
  unfold registered, instantiate_task, streamed_task. cbn [Task.tool].
  destruct (String.eqb (s_tool s) "join"); [reflexivity|].
  cbn [orb]. intros Hex. destruct (find_registered _ _ Hex) as [t ->].
  reflexivity.
Qed.

Lemma line_step_thought `{External} (tools : list Tool.t) (th t : string) :
  all_chars not_nl t = true ->
  line_step tools th ("Thought: " +:+ t) = Ok (t, None).
Proof.
  intros Ht. unfold line_step. rewrite str_app_assoc.
  pose proof (match_thought_text t "" Ht) as Hm.
  rewrite str_app_nil_r in Hm. now rewrite Hm.
Qed.

Lemma line_step_action `{External} (tools : list Tool.t) (th : string)
  (s : step) :
  step_ok tools s = true ->
  exists task,
    line_step tools th (action_line s) = Ok ("", Some task)
    /\ instantiate_task tools (int (s_idx s)) (s_tool s) (s_args s) th =
         Ok task.
Proof.
  intros Hok.
  destruct (step_ok_fields _ _ Hok) as (Hie & Hid & Hte & Htw & Ha & _ & Hreg).
  unfold line_step, Re.match_THOUGHT_PATTERN.
  rewrite (action_line_not_thought s nl Hie Hid).
  pose proof (match_action_line "" s nl eq_refl Hie Hid Hte Htw Ha
                ltac:(right; now left)) as Hm.
  cbn [String.append] in Hm. rewrite Hm.
  cbn [Re.g_idx Re.g_tool Re.g_args groups_of].
  rewrite (instantiate_registered tools s th Hreg).
  eexists. split; reflexivity.
Qed.

Lemma line_step_empty `{External} (tools : list Tool.t) (th : string) :
  line_step tools th "" = Ok (th, None).
Proof. reflexivity. Qed.

Lemma run_lines_app `{External} (tools : list Tool.t) (th : string)
  (xs ys : list string) :
  run_lines tools th (xs ++ ys) =
  match run_lines tools th xs with
  | Ok (th', ts) =>
      match run_lines tools th' ys with
      | Ok (th'', ts') => Ok (th'', ts ++ ts')
      | Raise e => Raise e
      end
  | Raise e => Raise e
  end.
Proof.
  revert th. induction xs as [|x xs IH]; intros th.
  - cbn. now destruct (run_lines tools th ys) as [[th' ts]|e].
  - cbn [app run_lines].
    destruct (line_step tools th x) as [[th1 r]|e]; [|reflexivity].
    rewrite IH. destruct (run_lines tools th1 xs) as [[th2 ts]|e];
      [|reflexivity].
    destruct (run_lines tools th2 ys) as [[th3 ts']|e]; [|reflexivity].
    now rewrite List.app_assoc.
Qed.

(** The streaming parser over the lines of well-formed steps. *)
Lemma run_lines_steps `{External} (tools : list Tool.t) (steps : list step) :
  forallb (step_ok tools) steps = true ->
  exists th,
    run_lines tools "" (flat_map step_lines steps) =
      Ok (th, map (streamed_task tools) steps).
Proof.
  induction steps as [|s steps IH]; intros Hok.
  - now exists "".
  - cbn [forallb] in Hok. apply andb_true_iff in Hok as [Hs Hrest].
    destruct (IH Hrest) as [th Hrun].
    cbn [flat_map map]. rewrite run_lines_app.
    assert (Hstep : run_lines tools "" (step_lines s) =
                    Ok ("", [streamed_task tools s])).
    { destruct (step_ok_fields _ _ Hs) as (_ & _ & _ & _ & _ & Hth & Hreg).
      unfold step_lines, streamed_task.
      destruct (s_thought s) as [t|] eqn:Ht; cbn [default from_option id] in *.
      - cbn [run_lines]. rewrite (line_step_thought tools "" t Hth).
        destruct (line_step_action tools t s Hs) as (task & -> & Hi).
        rewrite (instantiate_registered tools s t Hreg) in Hi.
        injection Hi as <-. reflexivity.
      - cbn [run_lines].
        destruct (line_step_action tools "" s Hs) as (task & -> & Hi).
        rewrite (instantiate_registered tools s "" Hreg) in Hi.
        injection Hi as <-. reflexivity. }
    rewrite Hstep, Hrun. now exists th.
Qed.

(** ** From tokens to lines *)

Lemma split1_nl_inv (s a b : string) :
  split1_nl s = Some (a, b) ->
  s = a +:+ nl +:+ b /\ all_chars not_nl a = true.
Proof.
  revert a. induction s as [|c s IH]; intros a; [discriminate|].
  cbn [split1_nl]. destruct (Ascii.eqb c nl_char) eqn:Hc.
  - intros [= <- <-]. apply Ascii.eqb_eq in Hc as ->. now split.
  - destruct (split1_nl s) as [[a' b']|]; [|discriminate].
    intros [= <- <-]. destruct (IH a' eq_refl) as [-> Ha].
    split; [reflexivity|]. cbn [all_chars]. unfold not_nl at 1.
    now rewrite Hc, Ha.
Qed.

Lemma split1_nl_none_inv (s : string) :
  split1_nl s = None -> all_chars not_nl s = true.
Proof.
  induction s as [|c s IH]; [reflexivity|].
  cbn [split1_nl all_chars]. unfold not_nl at 1.
  destruct (Ascii.eqb c nl_char); [discriminate|].
  destruct (split1_nl s) as [[a b]|]; [discriminate|]. intros _. now apply IH.
Qed.

Lemma split_nl_no_nl (s : string) :
  all_chars not_nl s = true -> split_nl s = [s].
Proof.
  induction s as [|c s IH]; [reflexivity|].
  cbn [all_chars split_nl]. unfold not_nl at 1.
  intros [Hc Hs]%andb_true_iff. apply negb_true_iff in Hc.
  now rewrite Hc, (IH Hs).
Qed.

Lemma split_nl_line (x y : string) :
  all_chars not_nl x = true -> split_nl (x +:+ nl +:+ y) = x :: split_nl y.
Proof.
  induction x as [|c x IH]; [reflexivity|].
  cbn [all_chars String.append split_nl]. unfold not_nl at 1.
  intros [Hc Hx]%andb_true_iff. apply negb_true_iff in Hc.
  now rewrite Hc, (IH Hx).
Qed.

Lemma split_nl_snoc (s : string) : exists front r, split_nl s = front ++ [r].
Proof.
  induction s as [|c s (front & r & IH)].
  - now exists [], "".
  - cbn [split_nl]. rewrite IH. destruct (Ascii.eqb c nl_char).
    + now exists ("" :: front), r.
    + destruct front as [|f front]; cbn [app].
      * now exists [], (String c r).
      * now exists (String c f :: front), r.
Qed.

Lemma split_nl_closed (s : string) :
  split_nl (s +:+ nl) = split_nl s ++ [""].
Proof.
  induction s as [|c s IH]; [reflexivity|].
  cbn [String.append split_nl]. rewrite IH.
  destruct (Ascii.eqb c nl_char); [reflexivity|].
  destruct (split_nl_snoc s) as (front & r & ->).
  now destruct front.
Qed.

Lemma parser_eta (p : StreamingGraphParser.t) :
  {| StreamingGraphParser.buffer := StreamingGraphParser.buffer p;
     StreamingGraphParser.thought := StreamingGraphParser.thought p;
     StreamingGraphParser.tools := StreamingGraphParser.tools p |} = p.
Proof. now destruct p. Qed.

(** Matching a buffer that holds one completed line is [line_step]. *)
Lemma match_buffer_line `{External} (p : StreamingGraphParser.t)
  (line suffix : string) :
  StreamingGraphParser.buffer p = line +:+ nl ->
  StreamingGraphParser._match_buffer_and_generate_task p suffix =
  match line_step (StreamingGraphParser.tools p)
          (StreamingGraphParser.thought p) line with
  | Ok (th, r) => (StreamingGraphParser.set_thought th p, Ok r)
  | Raise e => (p, Raise e)
  end.
Proof.
  intros Hb. unfold StreamingGraphParser._match_buffer_and_generate_task,
    line_step. rewrite Hb.
  destruct (Re.match_THOUGHT_PATTERN _); [reflexivity|].
  destruct (Re.match_ACTION_PATTERN _) as [[g r]|].
  - now destruct (instantiate_task _ _ _ _ _).
  - unfold StreamingGraphParser.set_thought. now rewrite parser_eta.
Qed.

Lemma ingest_all_lines `{External} (tokens : list string)
  (p : StreamingGraphParser.t) (lines : list string) (r th : string)
  (ts : list Task.t) :
  all_chars not_nl (StreamingGraphParser.buffer p) = true ->
  forallb token_ok tokens = true ->
  split_nl (StreamingGraphParser.buffer p +:+ concat_tokens tokens) =
    lines ++ [r] ->
  run_lines (StreamingGraphParser.tools p) (StreamingGraphParser.thought p)
    lines = Ok (th, ts) ->
  ingest_all p tokens =
    ({| StreamingGraphParser.buffer := r;
        StreamingGraphParser.thought := th;
        StreamingGraphParser.tools := StreamingGraphParser.tools p |}, Ok ts).
Proof.
  revert p lines ts.
  induction tokens as [|token rest IH]; intros p lines ts Hb Htok Hsplit Hrun.
  - cbn [concat_tokens] in Hsplit. rewrite str_app_nil_r in Hsplit.
    rewrite (split_nl_no_nl _ Hb) in Hsplit.
    destruct lines as [|l lines].
    + injection Hsplit as <-. injection Hrun as <- <-.
      cbn [ingest_all]. now rewrite parser_eta.
    + destruct lines; discriminate.
  - cbn [forallb] in Htok. apply andb_true_iff in Htok as [Htk Hrest].
    cbn [ingest_all concat_tokens] in *.
    unfold StreamingGraphParser.ingest_token, token_ok in *.
    destruct (split1_nl token) as [[pre suf]|] eqn:Hs1.
    + apply andb_true_iff in Htk as [Hstrip Hsuf].
      apply String.eqb_eq in Hstrip.
      destruct (split1_nl_inv _ _ _ Hs1) as [-> Hpre].
      rewrite Hstrip.
      replace (StreamingGraphParser.buffer p
               +:+ (pre +:+ nl +:+ suf) +:+ concat_tokens rest)
        with ((StreamingGraphParser.buffer p +:+ pre) +:+ nl
              +:+ suf +:+ concat_tokens rest) in Hsplit
        by (rewrite !str_app_assoc; reflexivity).
      rewrite split_nl_line in Hsplit
        by (rewrite all_chars_app, Hb, Hpre; reflexivity).
      destruct (split_nl_snoc (suf +:+ concat_tokens rest))
        as (front & r0 & Hfront).
      rewrite Hfront in Hsplit.
      change ((StreamingGraphParser.buffer p +:+ pre) :: front ++ [r0])
        with (((StreamingGraphParser.buffer p +:+ pre) :: front) ++ [r0])
        in Hsplit.
      apply app_inj_tail in Hsplit as [<- <-].
      cbn [run_lines] in Hrun.
      rewrite (match_buffer_line _ (StreamingGraphParser.buffer p +:+ pre))
        by (cbn; now rewrite str_app_assoc).
      cbn [StreamingGraphParser.tools StreamingGraphParser.thought
           StreamingGraphParser.set_buffer].
      destruct (line_step _ _ _) as [[th1 r1]|e]; [|discriminate].
      destruct (run_lines _ th1 front) as [[th2 ts1]|e] eqn:Hrun1;
        [|discriminate].
      injection Hrun as <- <-.
      unfold StreamingGraphParser.set_buffer, StreamingGraphParser.set_thought.
      cbn [StreamingGraphParser.buffer StreamingGraphParser.thought
           StreamingGraphParser.tools].
      rewrite (IH {| StreamingGraphParser.buffer := suf;
                     StreamingGraphParser.thought := th1;
                     StreamingGraphParser.tools :=
                       StreamingGraphParser.tools p |}
                  front ts1 Hsuf Hrest Hfront Hrun1).
      reflexivity.
    + pose proof (split1_nl_none_inv _ Hs1) as Hnl.
      rewrite (IH (StreamingGraphParser.set_buffer
                     (StreamingGraphParser.buffer p +:+ token) p)
                  lines ts).
      * reflexivity.
      * cbn. now rewrite all_chars_app, Hb, Hnl.
      * exact Hrest.
      * cbn. now rewrite str_app_assoc.
      * exact Hrun.
Qed.

(** Feeding tokens and finalizing handles the lines of the text. *)
Lemma streaming_parse_lines `{External} (tools : list Tool.t)
  (tokens : list string) (th : string) (ts : list Task.t) :
  forallb token_ok tokens = true ->
  run_lines tools "" (split_nl (concat_tokens tokens)) = Ok (th, ts) ->
  streaming_parse tools tokens = Ok ts.
Proof.
  intros Htok Hrun.
  destruct (split_nl_snoc (concat_tokens tokens)) as (lines & r & Hsplit).
  rewrite Hsplit, run_lines_app in Hrun.
  destruct (run_lines tools "" lines) as [[th1 ts1]|e] eqn:Hlines;
    [|discriminate].
  cbn [run_lines] in Hrun.
  destruct (line_step tools th1 r) as [[th2 r2]|e] eqn:Hlast; [|discriminate].
  injection Hrun as <- <-.
  unfold streaming_parse.
  rewrite (ingest_all_lines tokens (StreamingGraphParser.__init__ tools)
             lines r th1 ts1 eq_refl Htok Hsplit Hlines).
  unfold StreamingGraphParser.finalize.
  rewrite (match_buffer_line _ r) by reflexivity.
  unfold StreamingGraphParser.set_buffer, StreamingGraphParser.__init__.
  cbn [StreamingGraphParser.tools StreamingGraphParser.thought].
  rewrite Hlast. now rewrite List.app_nil_r.
Qed.

(** ** The text of a plan, line by line *)

Lemma action_line_no_nl (tools : list Tool.t) (s : step) :
  step_ok tools s = true -> all_chars not_nl (action_line s) = true.
Proof.
  intros Hok.
  destruct (step_ok_fields _ _ Hok) as (_ & Hid & _ & Htw & Ha & _ & _).
  unfold action_line. rewrite !all_chars_app, Ha.
  rewrite (all_chars_impl _ _ _ digit_not_nl Hid).
  now rewrite (all_chars_impl _ _ _ word_not_nl Htw).
Qed.

Lemma step_lines_no_nl (tools : list Tool.t) (s : step) :
  step_ok tools s = true ->
  Forall (fun l => all_chars not_nl l = true) (step_lines s).
Proof.
  intros Hok. pose proof (action_line_no_nl _ _ Hok) as Hact.
  destruct (step_ok_fields _ _ Hok) as (_ & _ & _ & _ & _ & Hth & _).
  unfold step_lines. destruct (s_thought s) as [t|]; cbn [default from_option id] in Hth.
  - repeat constructor; [|exact Hact]. now rewrite all_chars_app, Hth.
  - now repeat constructor.
Qed.

Lemma plan_lines_no_nl (tools : list Tool.t) (steps : list step) :
  forallb (step_ok tools) steps = true ->
  Forall (fun l => all_chars not_nl l = true) (flat_map step_lines steps).
Proof.
  induction steps as [|s steps IH]; [constructor|].
  cbn [forallb flat_map]. intros [Hs Hrest]%andb_true_iff.
  apply Forall_app. split; [eapply step_lines_no_nl; eauto | auto].
Qed.

Lemma split_nl_join_lines (lines : list string) :
  Forall (fun l => all_chars not_nl l = true) lines -> lines <> [] ->
  split_nl (join_lines lines) = lines.
Proof.
  induction 1 as [|l lines Hl Hall IH]; intros Hne; [contradiction|].
  destruct lines as [|l' lines].
  - now apply split_nl_no_nl.
  - change (join_lines (l :: l' :: lines))
      with (l +:+ nl +:+ join_lines (l' :: lines)).
    rewrite (split_nl_line _ _ Hl). now rewrite IH.
Qed.

Lemma run_lines_plan `{External} (tools : list Tool.t) (steps : list step)
  (closed : bool) :
  forallb (step_ok tools) steps = true ->
  exists th,
    run_lines tools "" (split_nl (plan_text steps closed)) =
      Ok (th, map (streamed_task tools) steps).
Proof.
  intros Hok. unfold plan_text.
  destruct steps as [|s steps].
  - exists "". now destruct closed.
  - destruct (run_lines_steps tools (s :: steps) Hok) as [th Hrun].
    assert (Hsplit : split_nl (join_lines (flat_map step_lines (s :: steps)))
                     = flat_map step_lines (s :: steps)).
    { apply split_nl_join_lines; [now apply (plan_lines_no_nl tools)|].
      cbn [flat_map]. unfold step_lines. now destruct (s_thought s). }
    exists th. destruct closed.
    + rewrite split_nl_closed, Hsplit, run_lines_app, Hrun.
      cbn [run_lines]. rewrite line_step_empty. cbn [option_list app].
      now rewrite List.app_nil_r.
    + now rewrite str_app_nil_r, Hsplit.
Qed.

(** ** The batch pattern over the text of a plan *)

Lemma findall_skip (a r : string) :
  Re.findall_from (String.length a) (a +:+ r) = Re.findall_from 0 r.
Proof. induction a as [|c a IH]; [now destruct r | exact IH]. Qed.

Lemma findall_match (a r : string) (m : string * Re.action_groups) :
  a <> "" -> Re.match_plan_pattern (a +:+ r) = Some (m, r) ->
  Re.findall_from 0 (a +:+ r) = m :: Re.findall_from 0 r.
Proof.
  destruct a as [|c a]; [contradiction|]. intros _ Hm.
  cbn [String.append] in *. cbn [Re.findall_from]. rewrite Hm.
  rewrite str_length_app.
  replace (String.length a + String.length r - String.length r)
    with (String.length a) by lia.
  now rewrite findall_skip.
Qed.

Lemma findall_nomatch (c : ascii) (x : string) :
  Re.match_plan_pattern (String c x) = None ->
  Re.findall_from 0 (String c x) = Re.findall_from 0 x.
Proof. intros Hm. cbn [Re.findall_from]. now rewrite Hm. Qed.

Lemma step_text_nonempty (s : step) :
  negb (is_empty (s_idx s)) = true -> step_text s <> "".
Proof.
  unfold step_text, action_line. destruct (s_thought s); [discriminate|].
  now destruct (s_idx s).
Qed.

(** One step at the point where [findall] looks for a match. *)
Lemma match_plan_step (tools : list Tool.t) (s : step) (r : string) :
  step_ok tools s = true -> quiet r ->
  Re.match_plan_pattern (step_text s +:+ r) = Some (match_of s, r).
Proof.
  intros Hok Hr.
  destruct (step_ok_fields _ _ Hok) as (Hie & Hid & Hte & Htw & Ha & Hth & _).
  pose proof (match_action_line "" s r eq_refl Hie Hid Hte Htw Ha Hr) as Hact.
  cbn [String.append] in Hact.
  unfold Re.match_plan_pattern, step_text, match_of.
  destruct (s_thought s) as [t|]; cbn [default from_option id] in *.
  - rewrite !str_app_assoc.
    rewrite (match_thought_line_text t _ Hth). now rewrite Hact.
  - unfold Re.match_thought_line.
    rewrite (action_line_not_thought s r Hie Hid). now rewrite Hact.
Qed.

Lemma match_plan_nl_action (tools : list Tool.t) (s : step) (r : string) :
  step_ok tools s = true -> quiet r -> s_thought s = None ->
  Re.match_plan_pattern (nl +:+ step_text s +:+ r) = Some (match_of s, r).
Proof.
  intros Hok Hr Hnone.
  destruct (step_ok_fields _ _ Hok) as (Hie & Hid & Hte & Htw & Ha & _ & _).
  pose proof (match_action_line nl s r eq_refl Hie Hid Hte Htw Ha Hr) as Hact.
  unfold Re.match_plan_pattern, step_text, match_of. rewrite Hnone.
  change (Re.match_thought_line (nl +:+ action_line s +:+ r)) with
    (@None (string * string)).
  now rewrite Hact.
Qed.

Lemma match_plan_nl_thought (x : string) :
  Re.match_plan_pattern (nl +:+ "Thought: " +:+ x) = None.
Proof. reflexivity. Qed.

Lemma findall_step (tools : list Tool.t) (s : step) (r : string) :
  step_ok tools s = true -> quiet r ->
  Re.findall_from 0 (step_text s +:+ r) = match_of s :: Re.findall_from 0 r.
Proof.
  intros Hok Hr. apply findall_match.
  - apply step_text_nonempty. now destruct (step_ok_fields _ _ Hok).
  - now apply (match_plan_step tools).
Qed.

Lemma findall_nl_step (tools : list Tool.t) (s : step) (r : string) :
  step_ok tools s = true -> quiet r ->
  Re.findall_from 0 (nl +:+ step_text s +:+ r) =
    match_of s :: Re.findall_from 0 r.
Proof.
  intros Hok Hr. destruct (s_thought s) as [t|] eqn:Hth.
  - change (nl +:+ step_text s +:+ r)
      with (String nl_char (step_text s +:+ r)).
    rewrite findall_nomatch; [now apply (findall_step tools)|].
    unfold step_text. rewrite Hth, !str_app_assoc.
    apply match_plan_nl_thought.
  - replace (nl +:+ step_text s +:+ r) with ((nl +:+ step_text s) +:+ r)
      by now rewrite str_app_assoc.
    apply findall_match; [discriminate|].
    rewrite str_app_assoc. now apply (match_plan_nl_action tools).
Qed.

Lemma step_text_first (tools : list Tool.t) (s : step) :
  step_ok tools s = true ->
  exists c x, step_text s = String c x /\ is_space c = false
              /\ Ascii.eqb c "#" = false.
Proof.
  intros Hok. destruct (step_ok_fields _ _ Hok) as (Hie & Hid & _).
  unfold step_text. destruct (s_thought s) as [t|].
  - now eexists _, _.
  - destruct (action_line_first s Hie Hid) as (d & x & -> & Hd).
    exists d, x. split; [reflexivity|].
    split; [now apply digit_not_space | now apply digit_not_hash].
Qed.

Lemma sep_text_quiet (tools : list Tool.t) (steps : list step)
  (closed : bool) :
  forallb (step_ok tools) steps = true ->
  quiet (sep_text steps (if closed then nl else "")).
Proof.
  destruct steps as [|s steps]; intros Hok.
  - destruct closed; [right; now left | now left].
  - cbn [forallb] in Hok. apply andb_true_iff in Hok as [Hs _].
    destruct (step_text_first _ _ Hs) as (c & x & Hc & Hsp & Hh).
    right. right. cbn [sep_text]. rewrite Hc.
    now exists c, (x +:+ sep_text steps (if closed then nl else "")).
Qed.

Lemma findall_sep_text (tools : list Tool.t) (steps : list step)
  (closed : bool) :
  forallb (step_ok tools) steps = true ->
  Re.findall_from 0 (sep_text steps (if closed then nl else "")) =
    map match_of steps.
Proof.
  induction steps as [|s steps IH]; intros Hok.
  - now destruct closed.
  - cbn [forallb] in Hok. apply andb_true_iff in Hok as [Hs Hrest].
    cbn [sep_text map].
    rewrite (findall_nl_step tools s _ Hs (sep_text_quiet _ _ _ Hrest)).
    now rewrite (IH Hrest).
Qed.

Lemma join_lines_step (s : step) (lines : list string) :
  join_lines (step_lines s ++ lines) =
  step_text s +:+ match lines with
                  | [] => ""
                  | _ :: _ => nl +:+ join_lines lines
                  end.
Proof.
  unfold step_lines, step_text.
  destruct (s_thought s) as [t|], lines as [|l lines]; cbn [app join_lines];
    rewrite ?str_app_assoc, ?str_app_nil_r; reflexivity.
Qed.

Lemma plan_text_sep (steps : list step) (tail : string) :
  match flat_map step_lines steps with
  | [] => ""
  | _ :: _ => nl +:+ join_lines (flat_map step_lines steps)
  end +:+ tail = sep_text steps tail.
Proof.
  induction steps as [|s steps IH]; [reflexivity|].
  cbn [flat_map sep_text]. rewrite <- IH, join_lines_step.
  unfold step_lines at 1. destruct (s_thought s);
    cbn [app]; now rewrite !str_app_assoc.
Qed.

Lemma findall_plan_text (tools : list Tool.t) (steps : list step)
  (closed : bool) :
  forallb (step_ok tools) steps = true ->
  Re.findall (plan_text steps closed) = map match_of steps.
Proof.
  intros Hok. unfold Re.findall, plan_text. destruct steps as [|s steps].
  - now destruct closed.
  - cbn [forallb] in Hok. apply andb_true_iff in Hok as [Hs Hrest].
    cbn [flat_map map]. rewrite join_lines_step, str_app_assoc, plan_text_sep.
    rewrite (findall_step tools s _ Hs (sep_text_quiet _ _ _ Hrest)).
    now rewrite (findall_sep_text tools steps closed Hrest).
Qed.

(** ** Streaming and batch parsing of one plan *)

Lemma upto_join_steps (steps : list step) :
  join_last steps = true ->
  upto_join (map match_of steps) = map match_of steps.
Proof.
  induction steps as [|s steps IH]; [reflexivity|].
  destruct steps as [|s' steps].
  - intros _. cbn [map upto_join]. now destruct (join_match (match_of s)).
  - change (join_last (s :: s' :: steps))
      with (negb (String.eqb (s_tool s) "join") && join_last (s' :: steps)).
    intros [Hs Hrest]%andb_true_iff. apply negb_true_iff in Hs.
    change (upto_join (map match_of (s :: s' :: steps)))
      with (if join_match (match_of s) then [match_of s]
            else match_of s :: upto_join (map match_of (s' :: steps))).
    change (join_match (match_of s)) with (String.eqb (s_tool s) "join").
    now rewrite Hs, (IH Hrest).
Qed.

Lemma increasing_steps `{External} (lo : Z) (steps : list step) :
  increasing_idx lo (map dummy_task (map match_of steps)) =
  increasing lo steps.
Proof.
  revert lo. induction steps as [|s steps IH]; intros lo; [reflexivity|].
  cbn [map increasing increasing_idx]. now rewrite IH.
Qed.

Lemma batch_parse_plan_text `{External} (tools : list Tool.t)
  (steps : list step) (closed : bool) :
  plan_ok tools steps = true ->
  batch_parse (plan_text steps closed) =
    map dummy_task (map match_of steps).
Proof.
  unfold plan_ok. intros [[Hok Hinc]%andb_true_iff Hlast]%andb_true_iff.
  unfold batch_parse, parse_plan.
  rewrite (findall_plan_text tools steps closed Hok).
  rewrite parse_plan_loop_upto, (upto_join_steps _ Hlast).
  rewrite <- (increasing_steps (-1)) in Hinc.
  destruct (store_all_increasing _ (-1) [] ltac:(constructor) Hinc) as [-> _].
  unfold values. cbn [app]. rewrite map_map. cbn. apply map_id.
Qed.

Lemma dummy_tasks_no_thought `{External}
  (matches : list (string * Re.action_groups)) :
  Forall (fun t => Task.thought t = None) (map dummy_task matches).
Proof. induction matches; constructor; auto. Qed.

(** C1 (amended): for a plan as the planner prompt asks for it (steps of
    an optional thought line and an action line with a registered tool or
    join, strictly increasing idx, join last at most), cut into tokens that
    each hold at most one newline with no white space around the text
    before it, the streaming parser returns one task per step and these
    tasks agree with the ones of batch parsing in idx, tool name, args and
    is_join, in the same order.  The thought differs: a streamed task
    carries the thought text of its step, the empty text when the step has
    none, and a batch task carries no thought. *)
Theorem streaming_agrees_with_batch `{External} (tools : list Tool.t)
  (steps : list step) (closed : bool) (tokens : list string) :
  plan_ok tools steps = true ->
  forallb token_ok tokens = true ->
  concat_tokens tokens = plan_text steps closed ->
  exists streamed,
    streaming_parse tools tokens = Ok streamed
    /\ map core streamed = map core (batch_parse (plan_text steps closed))
    /\ map Task.thought streamed =
         map (fun s => Some (default "" (s_thought s))) steps
    /\ Forall (fun t => Task.thought t = None)
              (batch_parse (plan_text steps closed)).
Proof.
  intros Hplan Htok Htext.
  pose proof Hplan as Hok. unfold plan_ok in Hok.
  apply andb_true_iff in Hok as [[Hok _]%andb_true_iff _].
  destruct (run_lines_plan tools steps closed Hok) as [th Hrun].
  rewrite <- Htext in Hrun.
  exists (map (streamed_task tools) steps).
  rewrite (batch_parse_plan_text tools steps closed Hplan).
  split; [exact (streaming_parse_lines tools tokens th _ Htok Hrun)|].
  split; [now rewrite !map_map|]. split; [now rewrite map_map|].
  apply dummy_tasks_no_thought.
Qed.

Lemma streaming_agrees_with_batch_witness :
  let steps :=
    [ {| s_thought := Some "look up Bob"; s_idx := "1";
         s_tool := "get_phone_number"; s_args := "1" |};
      {| s_thought := None; s_idx := "2"; s_tool := "join"; s_args := "" |} ] in
  let tokens :=
    ["Thought: look up Bob"; nl; "1. get_phone"; "_number(1)";
     nl +:+ "2. join()"] in
  concat_tokens tokens = plan_text steps false
  /\ exists streamed,
       @streaming_parse sample_external sample_tools tokens = Ok streamed
       /\ map core streamed =
            map core (@batch_parse sample_external (plan_text steps false))
       /\ map Task.thought streamed = [Some "look up Bob"; Some ""]
       /\ Forall (fun t => Task.thought t = None)
                 (@batch_parse sample_external (plan_text steps false)).
Proof.
  intros steps tokens. split; [reflexivity|].
  apply (@streaming_agrees_with_batch sample_external sample_tools steps
           false tokens); reflexivity.
Defined.

(** C1, as stated, fails on the thought: batch parsing builds every task
    with no thought, and the streaming parser gives a task the stored
    thought, the empty text when no thought line came before. *)
Lemma streaming_differs_from_batch :
  @streaming_parse sample_external sample_tools
    ["Thought: call Bob" +:+ nl; "1. join()"] <>
  Ok (@batch_parse sample_external
        ("Thought: call Bob" +:+ nl +:+ "1. join()"))
  /\ @streaming_parse sample_external sample_tools ["1. join()"] <>
     Ok (@batch_parse sample_external "1. join()").
Proof. split; vm_compute; discriminate. Qed.

(** * Further properties of the sources *)

(** ** The callback over a stream of tokens *)

Lemma ingest_all_first_raise `{External} (tokens : list string)
  (p p' : StreamingGraphParser.t) (e : exn) :
  ingest_all p tokens = (p', Raise e) ->
  exists taken token rest p1 ts,
    tokens = taken ++ token :: rest
    /\ ingest_all p taken = (p1, Ok ts)
    /\ StreamingGraphParser.ingest_token p1 token = (p', Raise e).
Proof.
  revert p. induction tokens as [|token tokens IH]; intros p; [discriminate|].
  cbn [ingest_all].
  destruct (StreamingGraphParser.ingest_token p token) as [p1 [r|e1]] eqn:Hstep.
  - destruct (ingest_all p1 tokens) as [p2 [ts2|e2]] eqn:Hrest; [discriminate|].
    intros [= <- <-].
    destruct (IH p1 Hrest) as (taken & token' & rest & p3 & ts & -> & Hall & Hr).
    exists (token :: taken), token', rest, p3, (option_list r ++ ts).
    split; [reflexivity|]. split; [|exact Hr].
    cbn [ingest_all]. now rewrite Hstep, Hall.
  - intros [= <- <-]. exists [], token, tokens, p, []. auto.
Qed.

Lemma on_llm_new_token_raise `{External} (self : LLMCompilerCallback.t)
  (sq : streaming) (token : string) (p' : StreamingGraphParser.t) (e : exn) :
  StreamingGraphParser.ingest_token (LLMCompilerCallback._parser self) token
    = (p', Raise e) ->
  exists self',
    LLMCompilerCallback.on_llm_new_token self sq token =
      (self', sq, Some (TinyAgentEarlyStop (str_exn e))).
Proof.
  intros Hraise. unfold LLMCompilerCallback.on_llm_new_token.
  rewrite Hraise, (ingest_token_raises _ _ _ _ Hraise).
  unfold LLMCompilerCallback.on_parse_error, instantiate_task.
  cbn [String.eqb Ascii.eqb Bool.eqb]. now eexists.
Qed.

(** X1: the callback echoes to the streaming queue, in order, exactly the
    tokens before the first one on which the streaming parser raises, all
    of them when it raises on none; on that token it raises
    [TinyAgentEarlyStop] with the text of the parser's exception, the token
    is not echoed, and no token after it is taken. *)
Theorem feed_echoes_tokens `{External} (self : LLMCompilerCallback.t)
  (sq : streaming) (tokens : list string) :
  exists taken rest p ts,
    tokens = taken ++ rest
    /\ ingest_all (LLMCompilerCallback._parser self) taken = (p, Ok ts)
    /\ (LLMCompilerCallback.feed self sq tokens).1.2 = sq ++ map Some taken
    /\ match (LLMCompilerCallback.feed self sq tokens).2 with
       | None => rest = []
       | Some ex =>
           exists token rest' p' e,
             rest = token :: rest'
             /\ StreamingGraphParser.ingest_token p token = (p', Raise e)
             /\ ex = TinyAgentEarlyStop (str_exn e)
       end.
Proof.
  destruct (ingest_all (LLMCompilerCallback._parser self) tokens)
    as [p [ts|e]] eqn:Hall.
  - destruct (feed_ingest_all tokens self sq p ts Hall) as (self' & Hf & _).
    exists tokens, [], p, ts. rewrite Hf, List.app_nil_r. cbn [fst snd].
    repeat split; assumption.
  - destruct (ingest_all_first_raise _ _ _ _ Hall)
      as (taken & token & rest & p1 & ts & -> & Htaken & Hraise).
    destruct (feed_ingest_all taken self sq p1 ts Htaken)
      as (self1 & Hf & Hp & _).
    rewrite <- Hp in Hraise.
    destruct (on_llm_new_token_raise self1 (sq ++ map Some taken) token _ _
                Hraise) as [self' Hstep].
    exists taken, (token :: rest), p1, ts.
    rewrite (feed_app _ (token :: rest) _ _ _ _ Hf).
    cbn [LLMCompilerCallback.feed]. rewrite Hstep. cbn [fst snd].
    repeat split; try assumption.
    exists token, rest, p, e. rewrite <- Hp. auto.
Qed.

Lemma feed_ok_ingest_all `{External} (tokens : list string)
  (self self' : LLMCompilerCallback.t) (sq sq' : streaming) :
  LLMCompilerCallback.feed self sq tokens = (self', sq', None) ->
  exists ts,
    ingest_all (LLMCompilerCallback._parser self) tokens =
      (LLMCompilerCallback._parser self', Ok ts).
Proof.
  revert self sq. induction tokens as [|token tokens IH]; intros self sq.
  - cbn. intros [= <- _]. now exists [].
  - cbn [ingest_all LLMCompilerCallback.feed].
    unfold LLMCompilerCallback.on_llm_new_token.
    destruct (StreamingGraphParser.ingest_token _ token) as [p1 [r|e]].
    + destruct r as [task|].
      * destruct (Task.is_join task); intros Hf;
          destruct (IH _ _ Hf) as [ts Hts]; cbn in Hts; rewrite Hts;
          now eexists.
      * intros Hf. destruct (IH _ _ Hf) as [ts Hts].
        cbn in Hts. rewrite Hts. now eexists.
    + destruct (is_Exception e); [|discriminate].
      unfold LLMCompilerCallback.on_parse_error.
      destruct (instantiate_task _ _ _ _ _); discriminate.
Qed.

(** X2: when the callback takes a stream of tokens without raising, the
    task queue has gained exactly the tasks the streaming parser returned
    for these tokens, in order, each join followed by the end-of-plan
    sentinel, and nothing else. *)
Theorem feed_queues_parsed_tasks `{External} (tokens : list string)
  (self self' : LLMCompilerCallback.t) (sq sq' : streaming) :
  LLMCompilerCallback.feed self sq tokens = (self', sq', None) ->
  exists ts,
    ingest_all (LLMCompilerCallback._parser self) tokens =
      (LLMCompilerCallback._parser self', Ok ts)
    /\ LLMCompilerCallback._queue self' =
         LLMCompilerCallback._queue self ++ enqueue ts.
Proof.
  intros Hfeed. destruct (feed_ok_ingest_all _ _ _ _ _ Hfeed) as [ts Hts].
  exists ts. split; [exact Hts|].
  destruct (feed_ingest_all tokens self sq _ ts Hts) as (self2 & Hf & _ & Hq & _).
  rewrite Hfeed in Hf. now injection Hf as <- _.
Qed.

Lemma feed_queues_parsed_tasks_witness :
  let run :=
    @LLMCompilerCallback.feed sample_external
      (LLMCompilerCallback.__init__ [] sample_tools) []
      ["1. get_phone_number(1)" +:+ nl; "2. join()" +:+ nl] in
  run.2 = None
  /\ exists ts,
       @ingest_all sample_external
         (StreamingGraphParser.__init__ sample_tools)
         ["1. get_phone_number(1)" +:+ nl; "2. join()" +:+ nl] =
         (LLMCompilerCallback._parser run.1.1, Ok ts)
       /\ LLMCompilerCallback._queue run.1.1 = [] ++ enqueue ts.
Proof.
  intros run. split; [reflexivity|].
  apply (@feed_queues_parsed_tasks sample_external
           ["1. get_phone_number(1)" +:+ nl; "2. join()" +:+ nl]
           (LLMCompilerCallback.__init__ [] sample_tools) run.1.1 [] run.1.2).
  reflexivity.
Defined.

(** X3: [on_llm_end] never touches the streaming queue or the counter of
    the callback.  When the last match of the parser succeeds the task
    queue gains the last task, if there is one, and then the end-of-plan
    sentinel; when it raises (the last line names an unknown tool) the
    exception leaves the callback as it is: no recovery join and no
    sentinel are put on the task queue. *)
Theorem on_llm_end_outcome `{External} (self : LLMCompilerCallback.t)
  (sq : streaming) :
  (LLMCompilerCallback.on_llm_end self sq).1.2 = sq
  /\ LLMCompilerCallback._curr_idx (LLMCompilerCallback.on_llm_end self sq).1.1
     = LLMCompilerCallback._curr_idx self
  /\ match (LLMCompilerCallback.on_llm_end self sq).2 with
     | None =>
         exists last,
           (StreamingGraphParser.finalize
              (LLMCompilerCallback._parser self)).2 = Ok last
           /\ LLMCompilerCallback._queue
                (LLMCompilerCallback.on_llm_end self sq).1.1 =
              LLMCompilerCallback._queue self ++ option_list (Some <$> last)
              ++ [None]
     | Some e =>
         (StreamingGraphParser.finalize
            (LLMCompilerCallback._parser self)).2 = Raise e
         /\ is_Exception e = true
         /\ LLMCompilerCallback._queue
              (LLMCompilerCallback.on_llm_end self sq).1.1 =
            LLMCompilerCallback._queue self
     end.
Proof.
  unfold LLMCompilerCallback.on_llm_end.
  destruct (StreamingGraphParser.finalize _) as [p [[task|]|e]] eqn:Hfin;
    cbn; repeat split.
  - exists (Some task). split; [reflexivity|].
    now rewrite <- List.app_assoc.
  - now exists None.
  - unfold StreamingGraphParser.finalize in Hfin.
    now destruct (match_buffer_raises _ _ _ _ Hfin).
Qed.

Lemma enqueue_app (xs ys : list Task.t) :
  enqueue (xs ++ ys) = enqueue xs ++ enqueue ys.
Proof.
  induction xs as [|x xs IH]; [reflexivity|].
  cbn [app enqueue]. rewrite IH. destruct (Task.is_join x); cbn;
    now rewrite ?List.app_assoc.
Qed.

Lemma enqueue_no_join (ts : list Task.t) :
  forallb (fun t => negb (Task.is_join t)) ts = true ->
  enqueue ts = map Some ts.
Proof.
  induction ts as [|t ts IH]; [reflexivity|].
  cbn [forallb enqueue map]. intros [Ht Hts]%andb_true_iff.
  apply negb_true_iff in Ht. now rewrite Ht, (IH Hts).
Qed.

Lemma join_last_front (front : list step) (j : step) :
  join_last (front ++ [j]) = true ->
  forallb (fun s => negb (String.eqb (s_tool s) "join")) front = true.
Proof.
  induction front as [|s front IH]; [reflexivity|].
  change (join_last ((s :: front) ++ [j]))
    with (join_last (s :: front ++ [j])).
  destruct (front ++ [j]) as [|s' rest] eqn:Hrest.
  - now destruct front.
  - change (join_last (s :: s' :: rest))
      with (negb (String.eqb (s_tool s) "join") && join_last (s' :: rest)).
    intros [Hs Hlast]%andb_true_iff. cbn [forallb]. now rewrite Hs, (IH Hlast).
Qed.

Lemma streamed_front_no_join `{External} (tools : list Tool.t)
  (front : list step) :
  forallb (fun s => negb (String.eqb (s_tool s) "join")) front = true ->
  forallb (fun t => negb (Task.is_join t)) (map (streamed_task tools) front)
  = true.
Proof.
  induction front as [|s front IH]; [reflexivity|].
  cbn [forallb map]. intros [Hs Hf]%andb_true_iff.
  now rewrite (IH Hf), andb_true_r.
Qed.

Lemma plan_lines_snoc (front : list step) (j : step) :
  exists before,
    flat_map step_lines (front ++ [j]) = before ++ [action_line j].
Proof.
  rewrite flat_map_app. cbn [flat_map]. rewrite List.app_nil_r.
  unfold step_lines at 2. destruct (s_thought j) as [t|].
  - exists (flat_map step_lines front ++ ["Thought: " +:+ t]).
    now rewrite <- List.app_assoc.
  - now exists (flat_map step_lines front).
Qed.

(** X4: the whole run of the callback on a plan that ends with join.  For
    a plan as the planner prompt asks for it, cut into tokens that each
    hold at most one newline with no white space around the text before
    it, no call raises, every token is echoed to the streaming queue in
    order, and after [on_llm_end] the task queue holds the tasks of the
    steps in order followed by the end-of-plan sentinel: once when the
    text stops right after the join, twice when a newline follows the
    join, since the join then queues a sentinel of its own. *)
Theorem run_on_join_terminated_plan `{External} (tools : list Tool.t)
  (front : list step) (j : step) (closed : bool) (tokens : list string) :
  plan_ok tools (front ++ [j]) = true ->
  s_tool j = "join" ->
  forallb token_ok tokens = true ->
  concat_tokens tokens = plan_text (front ++ [j]) closed ->
  exists self self',
    LLMCompilerCallback.feed (LLMCompilerCallback.__init__ [] tools) [] tokens
      = (self, map Some tokens, None)
    /\ LLMCompilerCallback.on_llm_end self (map Some tokens)
       = (self', map Some tokens, None)
    /\ LLMCompilerCallback._queue self' =
         map Some (map (streamed_task tools) (front ++ [j]))
         ++ (if closed then [None; None] else [None]).
Proof.
  intros Hplan Hjoin Htok Htext.
  pose proof Hplan as Hp. unfold plan_ok in Hp.
  apply andb_true_iff in Hp as [[Hok _]%andb_true_iff Hlast].
  pose proof (join_last_front _ _ Hlast) as Hfront.
  destruct (run_lines_plan tools (front ++ [j]) closed Hok) as [th Hrun].
  rewrite <- Htext in Hrun.
  destruct (split_nl_snoc (concat_tokens tokens)) as (lines & r & Hsplit).
  rewrite Hsplit, run_lines_app in Hrun.
  destruct (run_lines tools "" lines) as [[th1 ts1]|e] eqn:Hlines;
    [|discriminate].
  cbn [run_lines] in Hrun.
  destruct (line_step tools th1 r) as [[th2 r2]|e] eqn:Hstep; [|discriminate].
  injection Hrun as _ Htasks. rewrite List.app_nil_r in Htasks.
  pose proof (ingest_all_lines tokens (StreamingGraphParser.__init__ tools)
                lines r th1 ts1 eq_refl Htok Hsplit Hlines) as Hing.
  destruct (feed_ingest_all tokens (LLMCompilerCallback.__init__ [] tools) []
              _ ts1 Hing) as (self & Hfeed & Hparser & Hqueue & Htools).
  cbn [app] in Hfeed, Hqueue.
  exists self. eexists. split; [exact Hfeed|].
  unfold LLMCompilerCallback.on_llm_end, StreamingGraphParser.finalize.
  rewrite Hparser, (match_buffer_line _ r) by reflexivity.
  unfold StreamingGraphParser.set_buffer, StreamingGraphParser.__init__.
  cbn [StreamingGraphParser.tools StreamingGraphParser.thought].
  rewrite Hstep. split; [reflexivity|].
  assert (Hjj : Task.is_join (streamed_task tools j) = true)
    by (cbn; now rewrite Hjoin).
  rewrite map_app in Htasks. cbn [map] in Htasks.
  destruct closed.
  - unfold plan_text in Htext. rewrite Htext, split_nl_closed in Hsplit.
    apply app_inj_tail in Hsplit as [_ <-].
    rewrite line_step_empty in Hstep. injection Hstep as _ <-.
    cbn [option_list] in Htasks. rewrite List.app_nil_r in Htasks.
    subst ts1. cbn. rewrite Hqueue, enqueue_app.
    rewrite (enqueue_no_join _ (streamed_front_no_join tools _ Hfront)).
    cbn [enqueue]. rewrite Hjj, !map_app. cbn.
    now rewrite <- !List.app_assoc.
  - unfold plan_text in Htext. rewrite str_app_nil_r in Htext.
    rewrite Htext in Hsplit.
    rewrite split_nl_join_lines in Hsplit.
    2:{ now apply (plan_lines_no_nl tools). }
    2:{ destruct (plan_lines_snoc front j) as [before ->]. now destruct before. }
    destruct (plan_lines_snoc front j) as [before Hbefore].
    rewrite Hbefore in Hsplit. apply app_inj_tail in Hsplit as [_ <-].
    assert (Hj : step_ok tools j = true).
    { rewrite forallb_app in Hok. apply andb_true_iff in Hok as [_ Hj].
      cbn in Hj. now rewrite andb_true_r in Hj. }
    destruct (line_step_action tools th1 j Hj) as (task & Hact & _).
    rewrite Hact in Hstep. injection Hstep as _ <-.
    cbn [option_list] in Htasks.
    apply app_inj_tail in Htasks as [-> ->].
    cbn. rewrite Hqueue.
    rewrite (enqueue_no_join _ (streamed_front_no_join tools _ Hfront)).
    rewrite !map_app. cbn. now rewrite <- !List.app_assoc.
Qed.

Lemma run_on_join_terminated_plan_witness :
  let front :=
    [ {| s_thought := Some "look up Bob"; s_idx := "1";
         s_tool := "get_phone_number"; s_args := "1" |} ] in
  let j := {| s_thought := None; s_idx := "2"; s_tool := "join";
              s_args := "" |} in
  let tokens :=
    ["Thought: look up Bob"; nl; "1. get_phone"; "_number(1)";
     nl +:+ "2. join()"; nl] in
  exists self self',
    @LLMCompilerCallback.feed sample_external
      (LLMCompilerCallback.__init__ [] sample_tools) [] tokens
      = (self, map Some tokens, None)
    /\ @LLMCompilerCallback.on_llm_end sample_external self (map Some tokens)
       = (self', map Some tokens, None)
    /\ LLMCompilerCallback._queue self' =
         map Some (map (@streamed_task sample_external sample_tools)
                     (front ++ [j]))
         ++ [None; None].
Proof.
  intros front j tokens.
  apply (@run_on_join_terminated_plan sample_external sample_tools front j
           true tokens); reflexivity.
Defined.

(** ** The streaming parser and the cut of the text into tokens *)

Lemma ingest_all_lines_raise `{External} (tokens : list string)
  (p : StreamingGraphParser.t) (lines : list string) (r : string) (e : exn) :
  all_chars not_nl (StreamingGraphParser.buffer p) = true ->
  forallb token_ok tokens = true ->
  split_nl (StreamingGraphParser.buffer p +:+ concat_tokens tokens) =
    lines ++ [r] ->
  run_lines (StreamingGraphParser.tools p) (StreamingGraphParser.thought p)
    lines = Raise e ->
  (ingest_all p tokens).2 = Raise e.
Proof.
  revert p lines.
  induction tokens as [|token rest IH]; intros p lines Hb Htok Hsplit Hrun.
  - cbn [concat_tokens] in Hsplit. rewrite str_app_nil_r in Hsplit.
    rewrite (split_nl_no_nl _ Hb) in Hsplit.
    destruct lines as [|l lines]; [discriminate|].
    destruct lines; discriminate.
  - cbn [forallb] in Htok. apply andb_true_iff in Htok as [Htk Hrest].
    cbn [ingest_all concat_tokens] in *.
    unfold StreamingGraphParser.ingest_token, token_ok in *.
    destruct (split1_nl token) as [[pre suf]|] eqn:Hs1.
    + apply andb_true_iff in Htk as [Hstrip Hsuf].
      apply String.eqb_eq in Hstrip.
      destruct (split1_nl_inv _ _ _ Hs1) as [-> Hpre].
      rewrite Hstrip.
      replace (StreamingGraphParser.buffer p
               +:+ (pre +:+ nl +:+ suf) +:+ concat_tokens rest)
        with ((StreamingGraphParser.buffer p +:+ pre) +:+ nl
              +:+ suf +:+ concat_tokens rest) in Hsplit
        by (rewrite !str_app_assoc; reflexivity).
      rewrite split_nl_line in Hsplit
        by (rewrite all_chars_app, Hb, Hpre; reflexivity).
      destruct (split_nl_snoc (suf +:+ concat_tokens rest))
        as (front & r0 & Hfront).
      rewrite Hfront in Hsplit.
      change ((StreamingGraphParser.buffer p +:+ pre) :: front ++ [r0])
        with (((StreamingGraphParser.buffer p +:+ pre) :: front) ++ [r0])
        in Hsplit.
      apply app_inj_tail in Hsplit as [<- <-].
      cbn [run_lines] in Hrun.
      rewrite (match_buffer_line _ (StreamingGraphParser.buffer p +:+ pre))
        by (cbn; now rewrite str_app_assoc).
      cbn [StreamingGraphParser.tools StreamingGraphParser.thought
           StreamingGraphParser.set_buffer].
      destruct (line_step _ _ _) as [[th1 r1]|e1].
      * destruct (run_lines _ th1 front) as [[th2 ts1]|e2] eqn:Hrun1;
          [discriminate|].
        injection Hrun as ->.
        unfold StreamingGraphParser.set_buffer,
          StreamingGraphParser.set_thought.
        cbn [StreamingGraphParser.buffer StreamingGraphParser.thought
             StreamingGraphParser.tools].
        pose proof (IH {| StreamingGraphParser.buffer := suf;
                          StreamingGraphParser.thought := th1;
                          StreamingGraphParser.tools :=
                            StreamingGraphParser.tools p |}
                       front Hsuf Hrest Hfront Hrun1) as Hraise.
        destruct (ingest_all _ rest) as [p2 [ts|e3]]; cbn in Hraise |- *;
          [discriminate | exact Hraise].
      * injection Hrun as ->. reflexivity.
    + pose proof (split1_nl_none_inv _ Hs1) as Hnl.
      pose proof (IH (StreamingGraphParser.set_buffer
                        (StreamingGraphParser.buffer p +:+ token) p)
                     lines) as Hraise.
      destruct (ingest_all _ rest) as [p2 [ts|e3]]; cbn in Hraise |- *;
        apply Hraise; try (cbn; now rewrite ?all_chars_app, ?Hb, ?Hnl,
                                       ?str_app_assoc); assumption.
Qed.

(** The streaming parser reads the lines of the text the tokens make. *)
Lemma streaming_parse_is_lines_result `{External} (tools : list Tool.t)
  (tokens : list string) :
  forallb token_ok tokens = true ->
  streaming_parse tools tokens =
    lines_result tools (split_nl (concat_tokens tokens)).
Proof.
  intros Htok. unfold lines_result.
  destruct (run_lines tools "" (split_nl (concat_tokens tokens)))
    as [[th ts]|e] eqn:Hrun.
  - exact (streaming_parse_lines tools tokens th ts Htok Hrun).
  - destruct (split_nl_snoc (concat_tokens tokens)) as (lines & r & Hsplit).
    rewrite Hsplit, run_lines_app in Hrun. unfold streaming_parse.
    destruct (run_lines tools "" lines) as [[th1 ts1]|e1] eqn:Hlines.
    + cbn [run_lines] in Hrun.
      destruct (line_step tools th1 r) as [[th2 r2]|e2] eqn:Hlast;
        [discriminate|].
      injection Hrun as ->.
      rewrite (ingest_all_lines tokens (StreamingGraphParser.__init__ tools)
                 lines r th1 ts1 eq_refl Htok Hsplit Hlines).
      unfold StreamingGraphParser.finalize.
      rewrite (match_buffer_line _ r) by reflexivity.
      unfold StreamingGraphParser.set_buffer, StreamingGraphParser.__init__.
      cbn [StreamingGraphParser.tools StreamingGraphParser.thought].
      now rewrite Hlast.
    + injection Hrun as ->.
      pose proof (ingest_all_lines_raise tokens
                    (StreamingGraphParser.__init__ tools) lines r e eq_refl
                    Htok Hsplit Hlines) as Hraise.
      destruct (ingest_all _ tokens) as [p [ts|e3]]; cbn in Hraise;
        [discriminate | now injection Hraise as ->].
Qed.

(** X5: the result of the streaming parser (the tasks, or the exception)
    depends on the text only, not on how it is cut into tokens, as long as
    every token holds at most one newline and the text before a newline
    in a token has no white space at either end. *)
Theorem streaming_parse_ignores_the_cut `{External} (tools : list Tool.t)
  (tokens tokens' : list string) :
  forallb token_ok tokens = true ->
  forallb token_ok tokens' = true ->
  concat_tokens tokens = concat_tokens tokens' ->
  streaming_parse tools tokens = streaming_parse tools tokens'.
Proof.
  intros Htok Htok' Htext.
  rewrite !streaming_parse_is_lines_result by assumption.
  now rewrite Htext.
Qed.

Lemma streaming_parse_ignores_the_cut_witness :
  @streaming_parse sample_external sample_tools
    ["1. get_"; "phone_number(1)"; nl; "2. call_mom()"; nl; "3. join()"] =
  @streaming_parse sample_external sample_tools
    ["1. get_phone_number(1)" +:+ nl +:+ "2. call"; "_mom()" +:+ nl +:+ "3.";
     " join()"].
Proof.
  apply (@streaming_parse_ignores_the_cut sample_external sample_tools);
    reflexivity.
Defined.

(** ** The generator of the server *)

Lemma loop_yields_polled (turns : list Server.turn) :
  (Server.loop turns).1 `prefix_of` polled_tokens turns
  /\ Forall (fun token => startswith LLM_ERROR_TOKEN token = false)
       (Server.loop turns).1.
Proof.
  induction turns as [|t turns [IHp IHf]].
  - split; [apply prefix_nil | constructor].
  - cbn [Server.loop polled_tokens omap list_omap].
    unfold polled_tokens in IHp.
    destruct (Server.polled t) as [[token|]|].
    + destruct (startswith LLM_ERROR_TOKEN token) eqn:Hs.
      * split; [apply prefix_nil | constructor].
      * destruct (Server.done t).
        -- split; [apply prefix_cons, prefix_nil | repeat constructor; exact Hs].
        -- destruct (Server.loop turns) as [ys e]. cbn [fst] in *.
           split; [now apply prefix_cons | now constructor].
    + split; [apply prefix_nil | constructor].
    + destruct (Server.done t).
      * split; [apply prefix_nil | constructor].
      * split; assumption.
Qed.

Lemma loop_raised_from_queue (turns : list Server.turn) (ys : list string)
  (e : exn) :
  Server.loop turns = (ys, Server.Raised e) ->
  exists remainder,
    e = PyException "Exception" remainder
    /\ LLM_ERROR_TOKEN +:+ remainder ∈ polled_tokens turns.
Proof.
  revert ys. induction turns as [|t turns IH]; intros ys; [discriminate|].
  cbn [Server.loop polled_tokens omap list_omap].
  fold (polled_tokens turns).
  destruct (Server.polled t) as [[token|]|].
  - destruct (startswith LLM_ERROR_TOKEN token) eqn:Hs.
    + intros [= <- <-].
      destruct (startswith_inv _ _ Hs) as [remainder ->].
      exists remainder. rewrite slice_from_app.
      split; [reflexivity | left].
    + destruct (Server.done t); [discriminate|].
      destruct (Server.loop turns) as [ys0 e0].
      intros [= <- ->].
      destruct (IH ys0 eq_refl) as (remainder & -> & Hin).
      exists remainder. split; [reflexivity | now right].
  - discriminate.
  - destruct (Server.done t); [discriminate|]. apply IH.
Qed.

(** X6: when the generator returns, what it yielded is tokens taken from
    the streaming queue, in the order of the queue and from its first
    token on, none of them starting with the error token, and then exactly
    one closing chunk: two newlines and the response of the agent, or the
    text Error: followed by the message of the exception the agent raised,
    or by the remainder of an error token taken from the queue. *)
Theorem generate_ends_with_one_closing_chunk (turns : list Server.turn)
  (response : result string) (ys : list string) :
  Server.generate turns response = (ys, Server.Returned) ->
  exists tokens last,
    ys = tokens ++ [last]
    /\ tokens `prefix_of` polled_tokens turns
    /\ Forall (fun token => startswith LLM_ERROR_TOKEN token = false) tokens
    /\ ((exists r, response = Ok r /\ last = nl +:+ nl +:+ r)
        \/ (exists e, response = Raise e /\ is_Exception e = true
                      /\ last = "Error: " +:+ str_exn e)
        \/ (exists remainder,
              LLM_ERROR_TOKEN +:+ remainder ∈ polled_tokens turns
              /\ last = "Error: " +:+ remainder)).
Proof.
  unfold Server.generate, Server.handler.
  destruct (loop_yields_polled turns) as [Hp Hf].
  destruct (Server.loop turns) as [tokens [|e|]] eqn:Hloop; cbn [fst] in *.
  - destruct response as [r|e].
    + intros [= <-]. exists tokens, (nl +:+ nl +:+ r). eauto 10.
    + destruct (is_Exception e) eqn:He; [|discriminate].
      intros [= <-]. exists tokens, ("Error: " +:+ str_exn e). eauto 10.
  - destruct (loop_raised_from_queue _ _ _ Hloop) as (remainder & -> & Hin).
    intros [= <-]. exists tokens, ("Error: " +:+ remainder). eauto 10.
  - discriminate.
Qed.

Lemma generate_ends_with_one_closing_chunk_witness :
  exists tokens last,
    ["1. join()"; nl +:+ nl +:+ "Done."] = tokens ++ [last]
    /\ tokens `prefix_of`
         polled_tokens
           [ {| Server.polled := Server.TimedOut; Server.done := false |};
             {| Server.polled := Server.Got (Some "1. join()");
                Server.done := false |};
             {| Server.polled := Server.Got None; Server.done := false |};
             {| Server.polled := Server.Got (Some "late");
                Server.done := true |} ]
    /\ Forall (fun token => startswith LLM_ERROR_TOKEN token = false) tokens
    /\ ((exists r, Ok "Done." = Ok r /\ last = nl +:+ nl +:+ r)
        \/ (exists e, @Ok string "Done." = Raise e /\ is_Exception e = true
                      /\ last = "Error: " +:+ str_exn e)
        \/ (exists remainder,
              LLM_ERROR_TOKEN +:+ remainder ∈
                polled_tokens
                  [ {| Server.polled := Server.TimedOut;
                       Server.done := false |};
                    {| Server.polled := Server.Got (Some "1. join()");
                       Server.done := false |};
                    {| Server.polled := Server.Got None;
                       Server.done := false |};
                    {| Server.polled := Server.Got (Some "late");
                       Server.done := true |} ]
              /\ last = "Error: " +:+ remainder)).
Proof.
  apply (generate_ends_with_one_closing_chunk
           [ {| Server.polled := Server.TimedOut; Server.done := false |};
             {| Server.polled := Server.Got (Some "1. join()");
                Server.done := false |};
             {| Server.polled := Server.Got None; Server.done := false |};
             {| Server.polled := Server.Got (Some "late");
                Server.done := true |} ]
           (Ok "Done.")).
  reflexivity.
Defined.

(** X7: the only failure the generator lets through to its caller is an
    exception of the agent task that is no Exception (a BaseException such
    as a cancellation), and only after the loop has ended by a break; every
    Exception, from the queue or from the agent, is turned into a chunk. *)
Theorem generate_propagates_only_base_exceptions (turns : list Server.turn)
  (response : result string) (ys : list string) (e : exn) :
  Server.generate turns response = (ys, Server.Propagated e)
  <-> Server.loop turns = (ys, Server.Broke)
      /\ response = Raise e /\ is_Exception e = false.
Proof.
  unfold Server.generate, Server.handler. split.
  - destruct (Server.loop turns) as [tokens [|e'|]] eqn:Hloop.
    + destruct response as [r|e']; [discriminate|].
      destruct (is_Exception e') eqn:He; [discriminate|].
      now intros [= <- <-].
    + destruct (loop_raised_from_queue _ _ _ Hloop) as (remainder & -> & _).
      discriminate.
    + discriminate.
  - intros (-> & -> & ->). reflexivity.
Qed.

Lemma loop_stops_at (pre rest : list Server.turn) (t : Server.turn) :
  Server.done t = true \/ Server.polled t = Server.Got None ->
  Server.loop (pre ++ t :: rest) = Server.loop (pre ++ [t]).
Proof.
  intros Hstop. induction pre as [|t0 pre IH].
  - cbn [app Server.loop].
    destruct Hstop as [Hd | Hp]; [rewrite Hd | rewrite Hp]; reflexivity.
  - cbn [app Server.loop]. now rewrite IH.
Qed.

(** X8: the loop takes no turn after one at which the agent task is done,
    or at which it took the end sentinel from the queue: whatever is put
    on the streaming queue after that turn is never read, so tokens still
    queued when the task is done are not sent to the caller. *)
Theorem generate_stops_when_done (pre rest : list Server.turn)
  (t : Server.turn) (response : result string) :
  Server.done t = true \/ Server.polled t = Server.Got None ->
  Server.generate (pre ++ t :: rest) response =
    Server.generate (pre ++ [t]) response.
Proof.
  intros Hstop. unfold Server.generate. now rewrite (loop_stops_at _ _ _ Hstop).
Qed.

Lemma generate_stops_when_done_witness :
  Server.generate
    ([ {| Server.polled := Server.Got (Some "1. get_phone_number(1)");
          Server.done := false |} ]
     ++ {| Server.polled := Server.Got (Some nl); Server.done := true |}
     :: [ {| Server.polled := Server.Got (Some "2. join()");
             Server.done := true |} ])
    (Ok "Sent.") =
  Server.generate
    ([ {| Server.polled := Server.Got (Some "1. get_phone_number(1)");
          Server.done := false |} ]
     ++ [ {| Server.polled := Server.Got (Some nl); Server.done := true |} ])
    (Ok "Sent.").
Proof.
  apply (generate_stops_when_done
           [ {| Server.polled := Server.Got (Some "1. get_phone_number(1)");
                Server.done := false |} ]
           [ {| Server.polled := Server.Got (Some "2. join()");
                Server.done := true |} ]
           {| Server.polled := Server.Got (Some nl); Server.done := true |}
           (Ok "Sent.")).
  left. reflexivity.
Defined.

(** X9: a chain error of any kind, the controlled early stop included,
    puts on the streaming queue one string that starts with the error
    token; when the generator takes it from the queue it ends with the
    chunk Error: ChainError: and the text of the error, whatever the
    agent returns. *)
Theorem chain_error_becomes_error_chunk (self : LLMCompilerCallback.t)
  (sq : streaming) (error : exn) (pre rest : list Server.turn)
  (ys : list string) (d : bool) (response : result string) :
  Server.loop pre = (ys, Server.Waiting) ->
  exists token,
    LLMCompilerCallback.on_chain_error self sq error = sq ++ [Some token]
    /\ startswith LLM_ERROR_TOKEN token = true
    /\ Server.generate
         (pre ++ {| Server.polled := Server.Got (Some token);
                    Server.done := d |} :: rest) response =
       (ys ++ ["Error: ChainError: " +:+ str_exn error], Server.Returned).
Proof.
  intros Hpre.
  exists (LLM_ERROR_TOKEN +:+ "ChainError: " +:+ str_exn error).
  split; [reflexivity|]. split; [apply startswith_app|].
  unfold Server.generate.
  rewrite (loop_app _ _ _ Hpre), loop_error_token.
  cbn [fst snd]. now rewrite List.app_nil_r.
Qed.

Lemma chain_error_becomes_error_chunk_witness :
  exists token,
    LLMCompilerCallback.on_chain_error
      (LLMCompilerCallback.__init__ [] sample_tools) []
      (TinyAgentEarlyStop "unknown tool") = [] ++ [Some token]
    /\ startswith LLM_ERROR_TOKEN token = true
    /\ Server.generate
         ([ {| Server.polled := Server.Got (Some "1. nope()");
               Server.done := false |} ]
          ++ {| Server.polled := Server.Got (Some token);
                Server.done := false |} :: []) (Ok "answer") =
       (["1. nope()"] ++ ["Error: ChainError: " +:+
                          str_exn (TinyAgentEarlyStop "unknown tool")],
        Server.Returned).
Proof.
  apply (chain_error_becomes_error_chunk
           (LLMCompilerCallback.__init__ [] sample_tools) []
           (TinyAgentEarlyStop "unknown tool")
           [ {| Server.polled := Server.Got (Some "1. nope()");
                Server.done := false |} ] [] ["1. nope()"] false
           (Ok "answer")).
  reflexivity.
Defined.

(** ** The planner and its model *)

(** X10: aplan hands a new callback on the task queue, and the callbacks
    it is given, to the call of the model, and whatever the call puts on
    the streaming queue stays there.  When the call of a chat model raises
    an Exception, the planner puts the error token with the text of the
    exception on the streaming queue after that and then fails on the
    response it never got: what leaves aplan is an UnboundLocalError, not
    the exception of the model; when the failing call has reported its
    exception to the error handler of the callback, the queue ends with
    the error token twice.  The same exception from a completion model
    leaves aplan as it is, with nothing added to what the call queued.
    The controlled early stop leaves aplan for neither kind. *)
Theorem aplan_model_failure {C : Type} (self : Planner.t)
  (llm : Planner.llm_call (LLMCompilerCallback.t * list C))
  (inputs : gmap string string) (task_queue : list (option Task.t))
  (is_replan : bool) (callbacks : option (list C)) (sq : streaming)
  (sp hp : string) :
  Planner.prompts self inputs is_replan = Ok (sp, hp) ->
  let handed :=
    (LLMCompilerCallback.__init__ task_queue (Planner.tools self),
     default [] callbacks) in
  let chat := llm (Planner.Messages sp hp) handed (Planner.stop self) sq in
  let text :=
    llm (Planner.Text (sp +:+ nl +:+ nl +:+ hp)) handed (Planner.stop self)
      sq in
  let error_token e := Some (LLM_ERROR_TOKEN +:+ "LLMError: " +:+ str_exn e) in
  (forall e cbs sq', chat = (Raise e, cbs, sq') -> is_Exception e = true ->
     Planner.aplan self Planner.BaseChatModel llm inputs task_queue
       is_replan callbacks sq =
       (Some (UnboundLocalError "llm_response"), cbs,
        sq' ++ [error_token e]))
  /\ (forall e cbs cb sq0,
        chat = (Raise e, cbs, LLMCompilerCallback.on_llm_error cb sq0 e) ->
        is_Exception e = true ->
        Planner.aplan self Planner.BaseChatModel llm inputs task_queue
          is_replan callbacks sq =
          (Some (UnboundLocalError "llm_response"), cbs,
           sq0 ++ [error_token e; error_token e]))
  /\ (forall e cbs sq', text = (Raise e, cbs, sq') -> is_Exception e = true ->
        Planner.aplan self Planner.BaseLLM llm inputs task_queue is_replan
          callbacks sq = (Some e, cbs, sq'))
  /\ (forall e cbs cb sq0,
        text = (Raise e, cbs, LLMCompilerCallback.on_llm_error cb sq0 e) ->
        is_Exception e = true ->
        Planner.aplan self Planner.BaseLLM llm inputs task_queue is_replan
          callbacks sq = (Some e, cbs, sq0 ++ [error_token e]))
  /\ (forall msg cbs sq',
        (chat = (Raise (TinyAgentEarlyStop msg), cbs, sq') ->
         Planner.aplan self Planner.BaseChatModel llm inputs task_queue
           is_replan callbacks sq = (None, cbs, sq'))
        /\ (text = (Raise (TinyAgentEarlyStop msg), cbs, sq') ->
            Planner.aplan self Planner.BaseLLM llm inputs task_queue
              is_replan callbacks sq = (None, cbs, sq'))).
Proof.
  intros Hp handed chat text error_token.
  unfold Planner.aplan, Planner.run_llm. rewrite Hp.
  fold handed. fold chat. fold text.
  assert (Herr : forall e cb sq0, is_Exception e = true ->
            LLMCompilerCallback.on_llm_error cb sq0 e = sq0 ++ [error_token e]).
  { intros e cb sq0 He. destruct e; try discriminate. reflexivity. }
  split; [|split; [|split; [|split]]].
  - intros e cbs sq' -> ->. reflexivity.
  - intros e cbs cb sq0 -> He. rewrite He, (Herr e cb sq0 He).
    now rewrite <- List.app_assoc.
  - intros e cbs sq' -> He. destruct e; try discriminate. reflexivity.
  - intros e cbs cb sq0 -> He. rewrite (Herr e cb sq0 He).
    destruct e; try discriminate. reflexivity.
  - intros msg cbs sq'. split; intros ->; reflexivity.
Qed.

Lemma aplan_model_failure_witness :
  let self :=
    {| Planner.system_prompt := "P"; Planner.system_prompt_replan := "R";
       Planner.tools := sample_tools; Planner.stop := Some [END_OF_PLAN] |} in
  let inputs : gmap string string := {["input" := "text Bob"]} in
  let e := PyException "TimeoutError" "timed out" in
  let llm : Planner.llm_call (LLMCompilerCallback.t * list unit) :=
    fun _ cbs _ sq =>
      match LLMCompilerCallback.feed (H := sample_external) cbs.1 sq
              ["1. get_"] with
      | (cb, sq1, _) =>
          (Raise e, (cb, cbs.2), LLMCompilerCallback.on_llm_error cb sq1 e)
      end in
  (Planner.aplan self Planner.BaseChatModel llm inputs [] false None []).2 =
    [Some "1. get_"; Some (LLM_ERROR_TOKEN +:+ "LLMError: timed out");
     Some (LLM_ERROR_TOKEN +:+ "LLMError: timed out")]
  /\ (Planner.aplan self Planner.BaseChatModel llm inputs [] false None []).1.1
       = Some (UnboundLocalError "llm_response")
  /\ (Planner.aplan self Planner.BaseLLM llm inputs [] false None []).2 =
       [Some "1. get_"; Some (LLM_ERROR_TOKEN +:+ "LLMError: timed out")]
  /\ (Planner.aplan self Planner.BaseLLM llm inputs [] false None []).1.1
       = Some e.
Proof.
  intros self inputs e llm.
  destruct (aplan_model_failure self llm inputs [] false None [] "P"
              "Question: text Bob" eq_refl) as (_ & Hchat & _ & Htext & _).
  rewrite (Hchat e _ _ [Some "1. get_"] eq_refl eq_refl).
  rewrite (Htext e _ _ [Some "1. get_"] eq_refl eq_refl).
  repeat split.
Defined.

(** X11: run_llm reads its inputs before it looks at the model: without
    the key input, or without the key context when replanning, it raises
    whatever the model is, even one of neither supported kind; the model
    is not called, so the callbacks and the streaming queue stay as they
    are.  The assertion on the context comes first; otherwise it is the
    KeyError of the key input. *)
Theorem run_llm_needs_its_keys {C : Type} (self : Planner.t)
  (kind : Planner.llm_kind) (llm : Planner.llm_call C)
  (inputs : gmap string string) (is_replan : bool) (callbacks : C)
  (sq : streaming) :
  inputs !! "input" = None
  \/ (is_replan = true /\ inputs !! "context" = None) ->
  Planner.run_llm self kind llm inputs is_replan callbacks sq =
    (Raise (if is_replan && bool_decide (inputs !! "context" = None)
            then PyException "AssertionError"
                   "If replanning, context must be provided"
            else PyException "KeyError" "'input'"), callbacks, sq).
Proof.
  intros Hmiss. unfold Planner.run_llm, Planner.prompts, Planner.getitem.
  destruct is_replan; cbn [andb].
  - destruct (inputs !! "context") as [context|] eqn:Hc.
    + rewrite bool_decide_eq_false_2 by discriminate.
      destruct Hmiss as [-> | [_ [=]]]. reflexivity.
    + rewrite bool_decide_eq_true_2 by reflexivity. reflexivity.
  - destruct Hmiss as [-> | [[=] _]]. reflexivity.
Qed.

Lemma run_llm_needs_its_keys_witness :
  Planner.run_llm
    {| Planner.system_prompt := "P"; Planner.system_prompt_replan := "R";
       Planner.tools := sample_tools; Planner.stop := None |}
    Planner.NeitherModel
    (fun _ (cbs : unit) _ sq => (Ok "1. join()", cbs, sq ++ [Some "1. join()"]))
    ({["context" := "Idx: 1"]} : gmap string string) true tt [] =
  (Raise (if true && bool_decide
                       (({["context" := "Idx: 1"]} : gmap string string)
                          !! "context" = None)
          then PyException "AssertionError"
                 "If replanning, context must be provided"
          else PyException "KeyError" "'input'"), tt, []).
Proof.
  apply (run_llm_needs_its_keys
           {| Planner.system_prompt := "P"; Planner.system_prompt_replan := "R";
              Planner.tools := sample_tools; Planner.stop := None |}
           Planner.NeitherModel
           (fun _ (cbs : unit) _ sq =>
              (Ok "1. join()", cbs, sq ++ [Some "1. join()"]))
           ({["context" := "Idx: 1"]} : gmap string string) true tt []).
  left. reflexivity.
Defined.

(** X12: a planner cannot be made without a tool: its constructor fails
    on the first prompt it generates.  With at least one tool it succeeds,
    and its two system prompts have the same text up to the examples: the
    replanning prompt adds the replanning guidelines there, and each ends
    with its own examples. *)
Theorem planner_needs_a_tool (custom_instructions : option string)
  (example_prompt example_prompt_replan : string) (tools : list Tool.t)
  (stop : option (list string)) :
  match tools with
  | [] =>
      Planner.__init__ custom_instructions example_prompt
        example_prompt_replan tools stop = Raise (UnboundLocalError "i")
  | _ :: _ =>
      exists head,
        Planner.__init__ custom_instructions example_prompt
          example_prompt_replan tools stop =
        Ok {| Planner.system_prompt :=
                head +:+ "Here are some examples:" +:+ nl +:+ nl
                     +:+ example_prompt;
              Planner.system_prompt_replan :=
                head +:+ REPLAN_GUIDELINES +:+ "Here are some examples:"
                     +:+ nl +:+ nl +:+ example_prompt_replan;
              Planner.tools := tools;
              Planner.stop := stop |}
  end.
Proof.
  unfold Planner.__init__, generate_llm_compiler_prompt.
  rewrite tools_loop_spec.
  destruct tools as [|tool rest]; [reflexivity|].
  cbv zeta.
  match goal with
  | |- context [if truthy custom_instructions then ?a else ?b] =>
      exists (if truthy custom_instructions then a else b)
  end.
  destruct (truthy custom_instructions);
    rewrite ?str_app_assoc; reflexivity.
Qed.

(** ** Plan steps and their scores *)

Lemma lookup_value (m : PlanStepToolName.t) :
  PlanStepToolName.lookup (PlanStepToolName.value m) = Ok m.
Proof. now destruct m. Qed.

Lemma lookup_ok (v : string) (m : PlanStepToolName.t) :
  PlanStepToolName.lookup v = Ok m -> PlanStepToolName.value m = v.
Proof.
  unfold PlanStepToolName.lookup.
  destruct (List.find _ _) as [m'|] eqn:Hfind; [|discriminate].
  intros [= <-]. apply find_some in Hfind as [_ Heq].
  now apply String.eqb_eq in Heq.
Qed.

Lemma lookup_is_tool_name (v : string) :
  is_tool_name v =
  match PlanStepToolName.lookup v with Ok _ => true | Raise _ => false end.
Proof.
  unfold is_tool_name, PlanStepToolName.lookup.
  induction PlanStepToolName.members as [|m ms IH]; [reflexivity|].
  cbn [existsb List.find].
  destruct (String.eqb (PlanStepToolName.value m) v); [reflexivity|].
  exact IH.
Qed.

Lemma repr_body_plain (v : string) :
  all_chars
    (fun c => is_printable c && negb (Ascii.eqb c squote_char)
              && negb (Ascii.eqb c dquote_char)
              && negb (Ascii.eqb c backslash_char)) v = true ->
  repr_body squote_char v = v /\ has_char squote_char v = false.
Proof.
  unfold has_char. induction v as [|c v IH]; [now split|].
  cbn [all_chars]. intros [Hc Hv]%andb_true_iff.
  destruct (IH Hv) as [Hbody Hq]. apply negb_false_iff in Hq.
  apply andb_true_iff in Hc as [[[Hp Hs]%andb_true_iff Hd]%andb_true_iff Hb].
  rewrite Hs, Hq. split; [|reflexivity].
  apply negb_true_iff in Hs, Hb.
  cbn [repr_body]. rewrite Hbody. unfold repr_char. rewrite Hs, Hb.
  cbn [orb].
  destruct (Ascii.eqb_spec c (ascii_of_nat 9)) as [->|_]; [discriminate Hp|].
  destruct (Ascii.eqb_spec c (ascii_of_nat 10)) as [->|_]; [discriminate Hp|].
  destruct (Ascii.eqb_spec c (ascii_of_nat 13)) as [->|_]; [discriminate Hp|].
  now rewrite Hp.
Qed.

Lemma repr_plain (v : string) :
  all_chars
    (fun c => is_printable c && negb (Ascii.eqb c squote_char)
              && negb (Ascii.eqb c dquote_char)
              && negb (Ascii.eqb c backslash_char)) v = true ->
  repr v = "'" +:+ v +:+ "'".
Proof.
  intros Hv. destruct (repr_body_plain v Hv) as [Hbody Hq].
  unfold repr, repr_quote. rewrite Hq. cbn [andb]. now rewrite Hbody.
Qed.

(** X13: the tool names of the enumeration and their texts determine each
    other: the member made from the text of a member is that member, and
    a text makes a member only when it is the text of that member.  Any
    other text raises a ValueError whose message shows the text as repr
    does, followed by the words is not a valid PlanStepToolName; for a
    text of printable characters with no quote and no backslash that is
    the text between single quotes. *)
Theorem tool_name_round_trip (v : string) (m : PlanStepToolName.t) :
  PlanStepToolName.lookup (PlanStepToolName.value m) = Ok m
  /\ (PlanStepToolName.lookup v = Ok m <-> PlanStepToolName.value m = v)
  /\ (is_tool_name v = false <->
      PlanStepToolName.lookup v =
        Raise (PyException "ValueError"
                 (repr v +:+ " is not a valid PlanStepToolName")))
  /\ (all_chars
        (fun c => is_printable c && negb (Ascii.eqb c squote_char)
                  && negb (Ascii.eqb c dquote_char)
                  && negb (Ascii.eqb c backslash_char)) v = true ->
      repr v = "'" +:+ v +:+ "'").
Proof.
  split; [apply lookup_value|]. split; [|split].
  - split; [apply lookup_ok | intros <-; apply lookup_value].
  - rewrite lookup_is_tool_name. unfold PlanStepToolName.lookup.
    destruct (List.find _ _); split; congruence.
  - apply repr_plain.
Qed.

Lemma planner_output_loop_acc (tasks : list Task.t)
  (steps : list PlanStep.t) :
  planner_output_loop tasks steps = steps ++ planner_output_loop tasks [].
Proof.
  revert steps. induction tasks as [|task rest IH]; intros steps.
  - cbn. now rewrite List.app_nil_r.
  - cbn [planner_output_loop].
    destruct (PlanStepToolName.lookup (Task.name task)) as [m|e].
    + rewrite (IH (steps ++ _)), (IH ([] ++ _)).
      now rewrite <- List.app_assoc.
    + now rewrite List.app_nil_r.
Qed.

Lemma planner_output_loop_prefix (tasks : list Task.t) :
  exists known rest,
    tasks = known ++ rest
    /\ Forall (fun x => is_tool_name (Task.name x) = true) known
    /\ match rest with
       | [] => True
       | x :: _ => is_tool_name (Task.name x) = false
       end
    /\ map step_fields (planner_output_loop tasks []) =
       map task_fields known.
Proof.
  induction tasks as [|task rest (known & rest' & Hsplit & Hknown & Hrest & Hmap)].
  - exists [], []. repeat split; constructor.
  - cbn [planner_output_loop].
    destruct (PlanStepToolName.lookup (Task.name task)) as [m|e] eqn:Hl.
    + exists (task :: known), rest'. rewrite Hsplit at 1.
      split; [reflexivity|]. split; [|split; [exact Hrest|]].
      * constructor; [|exact Hknown].
        now rewrite lookup_is_tool_name, Hl.
      * rewrite planner_output_loop_acc. cbn [app map]. rewrite Hmap.
        unfold step_fields at 1, task_fields at 2. cbn.
        now rewrite (lookup_ok _ _ Hl).
    + exists [], (task :: rest). repeat split; [constructor|].
      now rewrite lookup_is_tool_name, Hl.
Qed.

(** X14: get_parsed_planner_output never raises and keeps the order of
    the dict: it makes one plan step, with the name and the args of the
    task, for each task before the first one whose name is no tool name
    of the enumeration, and drops that task and every task after it. *)
Theorem planner_output_stops_at_unknown_tool (tasks : list (Z * Task.t)) :
  exists known rest,
    values tasks = known ++ rest
    /\ Forall (fun x => is_tool_name (Task.name x) = true) known
    /\ match rest with
       | [] => True
       | x :: _ => is_tool_name (Task.name x) = false
       end
    /\ map step_fields (get_parsed_planner_output tasks) =
       map task_fields known.
Proof. apply planner_output_loop_prefix. Qed.

Lemma planner_output_loop_known `{External} (steps : list step) :
  planner_output_loop (map dummy_task (map match_of steps)) [] =
  known_steps steps.
Proof.
  induction steps as [|s rest IH]; [reflexivity|].
  cbn [map planner_output_loop known_steps]. unfold plan_step_of.
  change (Task.name (dummy_task (match_of s))) with (s_tool s).
  destruct (PlanStepToolName.lookup (s_tool s)) as [m|e]; [|reflexivity].
  rewrite planner_output_loop_acc. cbn [app]. now rewrite IH.
Qed.

(** X15: for the text of a plan as the planner prompt asks for it (with
    or without a final newline), get_parsed_planner_output_from_raw gives
    the steps of the plan, in order, up to the first one whose tool is no
    tool name of the enumeration: each with its tool as a member and its
    args parsed, whatever tools are registered and whatever the thoughts
    say. *)
Theorem planner_output_of_plan_text `{External} (tools : list Tool.t)
  (steps : list step) (closed : bool) :
  plan_ok tools steps = true ->
  get_parsed_planner_output_from_raw (plan_text steps closed) =
    known_steps steps.
Proof.
  intros Hok.
  unfold get_parsed_planner_output_from_raw, get_parsed_planner_output.
  pose proof (batch_parse_plan_text tools steps closed Hok) as Hbatch.
  unfold batch_parse in Hbatch. rewrite Hbatch.
  apply planner_output_loop_known.
Qed.

Lemma planner_output_of_plan_text_witness :
  @get_parsed_planner_output_from_raw sample_external
    (plan_text
       [ {| s_thought := Some "find Bob"; s_idx := "1";
            s_tool := "get_phone_number"; s_args := "1" |};
         {| s_thought := None; s_idx := "2"; s_tool := "call_mom";
            s_args := "" |};
         {| s_thought := None; s_idx := "3"; s_tool := "join";
            s_args := "" |} ] true) =
  @known_steps sample_external
    [ {| s_thought := Some "find Bob"; s_idx := "1";
         s_tool := "get_phone_number"; s_args := "1" |};
      {| s_thought := None; s_idx := "2"; s_tool := "call_mom";
         s_args := "" |};
      {| s_thought := None; s_idx := "3"; s_tool := "join";
         s_args := "" |} ].
Proof.
  apply (@planner_output_of_plan_text sample_external
           ({| Tool.name := "call_mom";
               Tool.description := "call_mom() -> str" |} :: sample_tools)).
  reflexivity.
Defined.

Lemma true_div_zero (a : nat) :
  true_div a 0 = Raise (PyException "ZeroDivisionError" "division by zero").
Proof. reflexivity. Qed.

Lemma true_div_fraction (a b : nat) :
  b <> 0 -> a <= b ->
  exists q,
    true_div a b = Ok q
    /\ (0 <= q)%Q /\ (q <= 1)%Q /\ ((q == 1)%Q <-> a = b).
Proof.
  intros Hb Hab. destruct b as [|b]; [contradiction|].
  exists (Qmake (Z.of_nat a) (Pos.of_nat (S b))).
  split; [reflexivity|].
  assert (Hd : Z.pos (Pos.of_nat (S b)) = Z.of_nat (S b)).
  { rewrite <- Pos.of_nat_succ, Zpos_P_of_succ_nat. lia. }
  unfold Qle, Qeq. cbn [Qnum Qden]. rewrite Hd. lia.
Qed.

Lemma count_correct_le (label_plan predicted_plan : list PlanStep.t) :
  count_correct label_plan predicted_plan <= length label_plan.
Proof.
  revert predicted_plan.
  induction label_plan as [|l ls IH]; intros [|p ps]; cbn; try lia.
  specialize (IH ps). destruct (decide _); lia.
Qed.

Lemma count_correct_all (label_plan predicted_plan : list PlanStep.t) :
  count_correct label_plan predicted_plan = length label_plan
  <-> map PlanStep.tool_name label_plan =
      firstn (length label_plan) (map PlanStep.tool_name predicted_plan).
Proof.
  revert predicted_plan.
  induction label_plan as [|l ls IH]; intros [|p ps]; cbn;
    try (split; [discriminate || reflexivity | discriminate || reflexivity]).
  pose proof (count_correct_le ls ps) as Hle. specialize (IH ps).
  destruct (decide (PlanStep.tool_name l = PlanStep.tool_name p)) as [Heq|Hne].
  - rewrite Heq. split.
    + intros Hc. f_equal. apply IH. lia.
    + intros [= Hm]. apply IH in Hm. lia.
  - split; [lia | intros [= Hm _]; contradiction].
Qed.

(** X16: evaluate_plan divides by the length of the label plan.  With an
    empty label plan it raises ZeroDivisionError, whatever is predicted.
    Otherwise the score lies between 0 and 1, and it is 1 exactly when the
    predicted plan has, step by step, the tool names of the label plan at
    its start: predicted steps beyond the length of the label plan are
    not looked at, and missing ones count as wrong. *)
Theorem evaluate_plan_score (label_plan predicted_plan : list PlanStep.t) :
  match label_plan with
  | [] =>
      evaluate_plan label_plan predicted_plan =
        Raise (PyException "ZeroDivisionError" "division by zero")
  | _ :: _ =>
      exists q,
        evaluate_plan label_plan predicted_plan = Ok q
        /\ (0 <= q)%Q /\ (q <= 1)%Q
        /\ ((q == 1)%Q <->
            map PlanStep.tool_name label_plan =
            firstn (length label_plan)
              (map PlanStep.tool_name predicted_plan))
  end.
Proof.
  destruct label_plan as [|l ls] eqn:Hl; [reflexivity|]. rewrite <- Hl.
  unfold evaluate_plan.
  destruct (true_div_fraction (count_correct label_plan predicted_plan)
              (length label_plan)) as (q & Hq & H0 & H1 & Heq).
  - now rewrite Hl.
  - apply count_correct_le.
  - exists q. rewrite <- count_correct_all. auto.
Qed.

Lemma tool_name_set_subseteq (label_plan predicted_plan : list PlanStep.t) :
  tool_name_set label_plan ⊆ tool_name_set predicted_plan
  <-> map PlanStep.tool_name label_plan ⊆ map PlanStep.tool_name predicted_plan.
Proof.
  unfold tool_name_set. split.
  - intros Hsub m Hm.
    apply (elem_of_list_to_set (C := gset PlanStepToolName.t)).
    apply Hsub. now apply elem_of_list_to_set.
  - intros Hsub m Hm. apply elem_of_list_to_set.
    apply Hsub. now apply elem_of_list_to_set in Hm.
Qed.

Lemma recall_count (label_plan predicted_plan : list PlanStep.t) :
  let label_set := tool_name_set label_plan in
  let predicted_set := tool_name_set predicted_plan in
  size (label_set ∩ predicted_set) <= size label_set
  /\ (size (label_set ∩ predicted_set) = size label_set
      <-> map PlanStep.tool_name label_plan
          ⊆ map PlanStep.tool_name predicted_plan).
Proof.
  intros label_set predicted_set.
  assert (Hsub : label_set ∩ predicted_set ⊆ label_set)
    by apply intersection_subseteq_l.
  split; [now apply subseteq_size|].
  rewrite <- tool_name_set_subseteq. fold label_set predicted_set. split.
  - intros Hsize.
    assert (Heq : label_set ∩ predicted_set ≡ label_set).
    { apply set_subseteq_size_equiv; [exact Hsub | lia]. }
    intros m Hm. apply Heq in Hm.
    now apply elem_of_intersection in Hm as [_ Hm].
  - intros Hall. now rewrite (subseteq_intersection_1_L _ _ Hall).
Qed.

Lemma tool_name_set_nonempty (l : PlanStep.t) (ls : list PlanStep.t) :
  size (tool_name_set (l :: ls)) <> 0.
Proof.
  intros Hz. apply size_empty_inv in Hz.
  apply (not_elem_of_empty (C := gset PlanStepToolName.t)
           (PlanStep.tool_name l)).
  apply Hz. unfold tool_name_set. apply elem_of_list_to_set. now left.
Qed.

(** X17: evaluate_tool_recall compares the sets of tool names, so neither
    the order of the steps nor their repetition counts.  With an empty
    label plan it raises ZeroDivisionError.  Otherwise the score lies
    between 0 and 1, and it is 1 exactly when every tool name of the
    label plan occurs somewhere in the predicted plan. *)
Theorem evaluate_tool_recall_score
  (label_plan predicted_plan : list PlanStep.t) :
  match label_plan with
  | [] =>
      evaluate_tool_recall label_plan predicted_plan =
        Raise (PyException "ZeroDivisionError" "division by zero")
  | _ :: _ =>
      exists q,
        evaluate_tool_recall label_plan predicted_plan = Ok q
        /\ (0 <= q)%Q /\ (q <= 1)%Q
        /\ ((q == 1)%Q <->
            map PlanStep.tool_name label_plan
            ⊆ map PlanStep.tool_name predicted_plan)
  end.
Proof.
  destruct label_plan as [|l ls] eqn:Hl; [reflexivity|]. rewrite <- Hl.
  unfold evaluate_tool_recall.
  destruct (recall_count label_plan predicted_plan) as [Hle Hall].
  destruct (true_div_fraction
              (size (tool_name_set label_plan ∩ tool_name_set predicted_plan))
              (size (tool_name_set label_plan)))
    as (q & Hq & H0 & H1 & Heq).
  - rewrite Hl. apply tool_name_set_nonempty.
  - exact Hle.
  - exists q. rewrite <- Hall. auto.
Qed.

(** X18: a predicted plan with the full score of evaluate_plan has the
    full score of evaluate_tool_recall as well. *)
Theorem full_accuracy_gives_full_recall
  (label_plan predicted_plan : list PlanStep.t) (q : Q) :
  evaluate_plan label_plan predicted_plan = Ok q -> (q == 1)%Q ->
  exists q',
    evaluate_tool_recall label_plan predicted_plan = Ok q' /\ (q' == 1)%Q.
Proof.
  intros Hplan Hone.
  destruct label_plan as [|l ls] eqn:Hl; [discriminate|]. rewrite <- Hl in *.
  assert (Hlen : length label_plan <> 0) by now rewrite Hl.
  unfold evaluate_plan in Hplan.
  destruct (true_div_fraction _ _ Hlen (count_correct_le label_plan predicted_plan))
    as (q0 & Hq0 & _ & _ & Heq0).
  rewrite Hq0 in Hplan. injection Hplan as ->.
  apply Heq0, count_correct_all in Hone.
  destruct (recall_count label_plan predicted_plan) as [Hle Hall].
  unfold evaluate_tool_recall.
  destruct (true_div_fraction
              (size (tool_name_set label_plan ∩ tool_name_set predicted_plan))
              (size (tool_name_set label_plan)))
    as (q' & Hq' & _ & _ & Heq').
  - rewrite Hl. apply tool_name_set_nonempty.
  - exact Hle.
  - exists q'. split; [exact Hq'|]. apply Heq', Hall.
    rewrite Hone. intros m Hm.
    apply list_elem_of_In in Hm. apply list_elem_of_In.
    rewrite <- (firstn_skipn (length label_plan)
                  (map PlanStep.tool_name predicted_plan)).
    apply in_or_app. now left.
Qed.

Lemma full_accuracy_gives_full_recall_witness :
  exists q',
    evaluate_tool_recall
      [ {| PlanStep.tool_name := PlanStepToolName.GET_PHONE_NUMBER;
           PlanStep.tool_args := VTuple [VStr "Bob"] |};
        {| PlanStep.tool_name := PlanStepToolName.JOIN;
           PlanStep.tool_args := VTuple [] |} ]
      [ {| PlanStep.tool_name := PlanStepToolName.GET_PHONE_NUMBER;
           PlanStep.tool_args := VTuple [VStr "Alice"] |};
        {| PlanStep.tool_name := PlanStepToolName.JOIN;
           PlanStep.tool_args := VTuple [] |};
        {| PlanStep.tool_name := PlanStepToolName.SEND_SMS;
           PlanStep.tool_args := VTuple [] |} ] = Ok q' /\ (q' == 1)%Q.
Proof.
  apply (full_accuracy_gives_full_recall _ _ (Qmake 2 2)).
  - reflexivity.
  - reflexivity.
Defined.

(** ** The dict of batch parsing *)

Lemma dict_set_keys {V : Type} (k x : Z) (v : V) (d : list (Z * V)) :
  In x (map fst (dict_set k v d)) <-> x = k \/ In x (map fst d).
Proof.
  induction d as [|[k' v'] d IH]; cbn [dict_set map fst In].
  - intuition.
  - destruct (Z.eqb_spec k' k) as [->|Hne]; cbn [map fst In].
    + intuition.
    + rewrite IH. intuition.
Qed.

Lemma dict_set_nodup {V : Type} (k : Z) (v : V) (d : list (Z * V)) :
  List.NoDup (map fst d) -> List.NoDup (map fst (dict_set k v d)).
Proof.
  induction d as [|[k' v'] d IH]; cbn [dict_set map fst]; intros Hnd.
  - constructor; [intros [] | constructor].
  - apply List.NoDup_cons_iff in Hnd as [Hk' Hnd].
    destruct (Z.eqb_spec k' k) as [->|Hne]; cbn [map fst].
    + now constructor.
    + constructor; [|now apply IH].
      rewrite dict_set_keys. intros [->|Hin]; [now apply Hne | now apply Hk'].
Qed.

Lemma dict_set_forall {V : Type} (Q : Z * V -> Prop) (k : Z) (v : V)
  (d : list (Z * V)) :
  Q (k, v) -> List.Forall Q d -> List.Forall Q (dict_set k v d).
Proof.
  intros Hq Hd. induction Hd as [|[k' v'] d Hkv Hd IH]; cbn [dict_set].
  - now constructor.
  - destruct (k' =? k)%Z; now constructor.
Qed.

Lemma store_all_keys (tasks : list Task.t) (d : list (Z * Task.t)) (k : Z) :
  In k (map fst (store_all tasks d))
  <-> In k (map fst d) \/ In k (map Task.idx tasks).
Proof.
  revert d. induction tasks as [|task rest IH]; intros d;
    cbn [store_all map In].
  - intuition.
  - rewrite IH, dict_set_keys. intuition.
Qed.

Lemma store_all_nodup (tasks : list Task.t) (d : list (Z * Task.t)) :
  List.NoDup (map fst d) -> List.NoDup (map fst (store_all tasks d)).
Proof.
  revert d. induction tasks as [|task rest IH]; intros d Hnd; [exact Hnd|].
  cbn [store_all]. now apply IH, dict_set_nodup.
Qed.

Lemma store_all_forall (Q : Z * Task.t -> Prop) (tasks : list Task.t)
  (d : list (Z * Task.t)) :
  List.Forall (fun x => Q (Task.idx x, x)) tasks -> List.Forall Q d ->
  List.Forall Q (store_all tasks d).
Proof.
  intros Hts. revert d. induction Hts as [|task rest Hq Hts IH]; intros d Hd;
    [exact Hd|].
  cbn [store_all]. now apply IH, dict_set_forall.
Qed.

(** X19: for every text, the dict parse_plan returns has each key once;
    its keys are the idx of the actions read (the matched actions up to
    and including the first join); and every task in it is one of the
    tasks read, stored under its own idx. *)
Theorem parse_plan_keys `{External} (plan : string) :
  List.NoDup (map fst (parse_plan plan))
  /\ (forall k,
        In k (map fst (parse_plan plan)) <->
        In k (map Task.idx (map dummy_task (upto_join (Re.findall plan)))))
  /\ List.Forall
       (fun kt =>
          Task.idx kt.2 = kt.1
          /\ In kt.2 (map dummy_task (upto_join (Re.findall plan))))
       (parse_plan plan).
Proof.
  unfold parse_plan. rewrite parse_plan_loop_upto.
  split; [|split].
  - apply store_all_nodup. constructor.
  - intros k. rewrite store_all_keys. cbn [map In]. intuition.
  - apply store_all_forall; [|constructor].
    apply List.Forall_forall. intros x Hx. now split.
Qed.

(** ** The joinner reads back what the prompt asks for *)

Lemma find_from_none_shift (sub s : string) (i j : Z) :
  (0 <= i)%Z -> (0 <= j)%Z ->
  find_from sub s i = (-1)%Z -> find_from sub s j = (-1)%Z.
Proof.
  revert i j. induction s as [|c s IH]; intros i j Hi Hj; cbn [find_from].
  - destruct (startswith sub ""); [lia | reflexivity].
  - destruct (startswith sub (String c s)); [lia|].
    apply IH; lia.
Qed.

Lemma contains_shift (sub s : string) (i : Z) :
  (0 <= i)%Z -> (0 <=? find_from sub s i)%Z = contains sub s.
Proof.
  intros Hi. unfold contains, find.
  destruct (find_from_ge sub s i) as [Hn|Hge].
  - rewrite Hn, (find_from_none_shift sub s i 0 Hi ltac:(lia) Hn).
    reflexivity.
  - destruct (find_from_ge sub s 0) as [Hn0|Hge0].
    + rewrite (find_from_none_shift sub s 0 i ltac:(lia) Hi Hn0), Hn0.
      reflexivity.
    + destruct (Z.leb_spec 0 (find_from sub s i)),
               (Z.leb_spec 0 (find_from sub s 0)); try reflexivity; lia.
Qed.

Lemma startswith_guarded (sub s t : string) (c : ascii) :
  sub <> "" -> lacks c sub = true ->
  startswith sub (s +:+ String c t) = startswith sub s.
Proof.
  revert s. induction sub as [|a sub IH]; intros s Hne Hl; [contradiction|].
  unfold lacks in Hl. cbn [all_chars] in Hl.
  apply andb_true_iff in Hl as [Ha Hl].
  destruct s as [|b s]; cbn [String.append startswith].
  - apply negb_true_iff in Ha. now rewrite Ha.
  - destruct sub as [|a' sub]; [reflexivity|].
    now rewrite (IH s ltac:(discriminate) Hl).
Qed.

Lemma find_from_guarded (sub s : string) (c : ascii) (i : Z) :
  sub <> "" -> lacks c sub = true ->
  find_from sub (s +:+ String c "") i = find_from sub s i.
Proof.
  intros Hne Hl. revert i. induction s as [|b s IH]; intros i.
  - pose proof (startswith_guarded sub "" "" c Hne Hl) as Hs.
    cbn [String.append] in Hs |- *. cbn [find_from]. rewrite Hs.
    destruct sub; [contradiction | reflexivity].
  - pose proof (startswith_guarded sub (String b s) "" c Hne Hl) as Hs.
    cbn [String.append] in Hs |- *. cbn [find_from]. rewrite Hs.
    now rewrite IH.
Qed.

Lemma upto_all_from (sep s : string) (j : Z) :
  (0 <= j)%Z -> find_from sep s j = (-1)%Z -> upto sep s = s.
Proof.
  revert j. induction s as [|c s IH]; intros j Hj; cbn [find_from upto].
  - now destruct (startswith sep "").
  - destruct (startswith sep (String c s)); [lia|].
    intros Hn. f_equal. apply (IH (j + 1)%Z); [lia | exact Hn].
Qed.

(** X20: the joinner output is read back from a response written as the
    joinner prompt asks for it, a thought line and then a Finish action
    with its message in parentheses: for a thought and a message without
    a newline, the thought holding neither marker, the parsed thought is
    the thought without surrounding white space and the parsed message is
    the message, parentheses and all.  The decision, though, is Replan as
    soon as the message holds the word Replan. *)
Theorem joinner_reads_back_finish (thought message : string) :
  all_chars not_nl thought = true ->
  all_chars not_nl message = true ->
  find "Action:" thought = (-1)%Z ->
  find "Thought:" thought = (-1)%Z ->
  get_parsed_joinner_output (finish_response thought message) =
    {| JoinStep.thought := strip thought;
       JoinStep.action :=
         if contains JOINNER_REPLAN message then JOINNER_REPLAN
         else JOINNER_FINISH;
       JoinStep.message := message |}.
Proof.
  intros Hth Hmsg Hact Hthought.
  unfold get_parsed_joinner_output, finish_response.
  set (l1 := "Thought: " +:+ thought).
  set (l2 := "Action: Finish(" +:+ message +:+ ")").
  replace ("Thought: " +:+ thought +:+ nl +:+ l2) with (l1 +:+ nl +:+ l2)
    by (unfold l1; now rewrite str_app_assoc).
  assert (Hl1 : all_chars not_nl l1 = true).
  { unfold l1. now rewrite all_chars_app, Hth. }
  assert (Hl2 : all_chars not_nl l2 = true).
  { unfold l2. now rewrite !all_chars_app, Hmsg. }
  rewrite (split_nl_line _ _ Hl1), (split_nl_no_nl _ Hl2).
  assert (Hf1 : find "Action:" l1 = (-1)%Z).
  { unfold find, l1. cbn.
    apply (find_from_none_shift "Action:" thought 0); [lia | lia | exact Hact]. }
  cbn [joinner_loop]. rewrite Hf1. cbn [Z.leb Z.compare].
  replace (startswith "Action:" l1) with false by reflexivity.
  replace (startswith "Thought:" l1) with true by reflexivity.
  replace (drop 8 l1) with (String " " thought) by reflexivity.
  assert (Hup : upto "Thought:" (String " " thought) = String " " thought).
  { cbn [upto]. replace (startswith "Thought:" (String " " thought))
      with false by reflexivity.
    f_equal. now apply upto_all_from with (j := 0%Z). }
  rewrite Hup.
  assert (Hstrip : strip (String " " thought) = strip thought).
  { unfold strip, lstrip. cbn [span].
    change (is_space " ") with true. cbv iota.
    now destruct (span is_space thought). }
  rewrite Hstrip.
  assert (Hs2 : startswith "Action:" l2 = true) by reflexivity.
  pose proof (action_part_of_action_line l2 Hs2) as Hpart.
  unfold action_part in Hpart. rewrite (find_startswith _ _ Hs2) in *.
  cbn [Z.leb Z.compare]. rewrite Hpart, Hs2.
  cbn [joinner_loop].
  assert (Hslice : slice l2 (find "(" l2 + 1) (rfind ")" l2) = message).
  { change l2 with ("Action: Finish" +:+ "(" +:+ message +:+ ")" +:+ "").
    now apply slice_parenthesized. }
  assert (Hc : contains JOINNER_REPLAN l2 = contains JOINNER_REPLAN message).
  { unfold contains at 1. unfold find, l2, JOINNER_REPLAN.
    change (find_from "Replan" ("Action: Finish(" +:+ message +:+ ")") 0)
      with (find_from "Replan" (message +:+ ")") 15).
    rewrite find_from_guarded by (discriminate || reflexivity).
    now apply contains_shift. }
  now rewrite Hslice, Hc.
Qed.

Lemma joinner_reads_back_finish_witness :
  get_parsed_joinner_output
    (finish_response " the text is sent " "Sent (to Bob). No Replan needed.") =
  {| JoinStep.thought := strip " the text is sent ";
     JoinStep.action :=
       if contains JOINNER_REPLAN "Sent (to Bob). No Replan needed."
       then JOINNER_REPLAN else JOINNER_FINISH;
     JoinStep.message := "Sent (to Bob). No Replan needed." |}.
Proof.
  apply (joinner_reads_back_finish " the text is sent "
           "Sent (to Bob). No Replan needed."); reflexivity.
Defined.
